(** * cli-radio-player: stream-quality monitor and playback controller

    A shallow embedding of [cmd/radio/main.go] (the revision with the
    [StreamAnalyzer] and the two-second grace period in [Player.Stop]).

    - Go's [float64] is Rocq's primitive binary64 [float]; literals, [+], [-],
      [*], [/] and the comparisons are the IEEE 754 ones the Go code runs.
    - Go's [int], [int64] and [time.Duration] are [Z] with the wrap-around of
      64-bit two's complement written out ([Int64.wrap]).
    - [time.Time] is a number of nanoseconds; the zero [time.Time{}] is [0].
    - What runs under the mutex is an atomic state transformer: a whole
      method where the method holds the lock throughout, one critical
      section where a monitor takes the lock several times in one turn of
      its loop.  Goroutines, cancellation contexts and operating-system
      processes live in explicit tables, so that sharing (one context for
      every session, one command handle for several reapers) is visible. *)

From Stdlib Require Import ZArith List String Ascii Bool Lia.
From Stdlib Require Import Floats Uint63 DecimalString Zpower.
Import ListNotations.

Open Scope Z_scope.

Set Warnings "-inexact-float".

(** ** Machine integers *)

Module Int64.

Definition modulus : Z := 2 ^ 64.
Definition half_modulus : Z := 2 ^ 63.
Definition min_signed : Z := - half_modulus.
Definition max_signed : Z := half_modulus - 1.

(** Two's-complement reduction into [[-2^63, 2^63)]. *)
Definition wrap (z : Z) : Z :=
  (z + half_modulus) mod modulus - half_modulus.

Definition in_range (z : Z) : Prop := min_signed <= z <= max_signed.

Definition add (x y : Z) : Z := wrap (x + y).
Definition sub (x y : Z) : Z := wrap (x - y).
Definition mul (x y : Z) : Z := wrap (x * y).

(** Go's [/] on integers truncates toward zero; the divisor is non-zero at
    every use in this program (a zero divisor panics in Go). *)
Definition quot (x y : Z) : Z := wrap (Z.quot x y).

End Int64.

(** ** float64 conversions *)

Module F64.

Open Scope float_scope.

Definition two63 : float := 9223372036854775808.

(** [float64(i)] for an [int]/[int64] [i]: round to nearest, ties to even.
    [of_uint63] does that for the magnitudes below [2^63]; [-2^63] is exact. *)
Definition of_int (z : Z) : float :=
  if (z =? Int64.min_signed)%Z then - two63
  else if (z <? 0)%Z then - of_uint63 (Uint63.of_Z (- z))
  else of_uint63 (Uint63.of_Z z).

(** The integer part of a finite float, truncated toward zero. *)
Definition trunc_SF (x : spec_float) : Z :=
  match x with
  | S754_finite s m e =>
      let mag := match e with
                 | Zneg k => Z.shiftr (Zpos m) (Zpos k)
                 | _ => Z.shiftl (Zpos m) e
                 end in
      if s then (- mag)%Z else mag
  | _ => 0%Z
  end.

(** [int64(f)] / [time.Duration(f)]: truncation toward zero.  Go leaves the
    result unspecified when the value does not fit; amd64 yields [-2^63]
    then, which is what is written here. *)
Definition to_int (x : float) : Z :=
  if is_nan x || is_infinity x then Int64.min_signed
  else
    let t := trunc_SF (Prim2SF x) in
    if ((Int64.min_signed <=? t) && (t <=? Int64.max_signed))%Z%bool
    then t else Int64.min_signed.

End F64.

(** ** Durations *)

Definition Duration := Z.
Definition Time := Z.

Definition Nanosecond : Duration := 1.
Definition Millisecond : Duration := 1000000.
Definition Second : Duration := 1000000000.

(** ** StreamStats *)

Record StreamStats := mkStreamStats {
  Bitrate : Z;
  SampleRate : Z;
  Codec : string;
  DownloadSpeed : float;
  BufferHealth : float;
  Latency : Duration;
  NetworkQuality : string;
  LastUpdated : Time;
  PacketLoss : float;
  Jitter : Duration;
  ConnectionStability : float;
  TotalBytes : Z;
  StartTime : Time
}.

Definition zeroStats : StreamStats :=
  mkStreamStats 0 0 "" 0%float 0%float 0 "" 0 0%float 0 0%float 0 0.

(** ** QualityScorer: [assessNetworkQuality] *)

Section QualityScorer.

Open Scope float_scope.

Definition geb (x y : float) : bool := y <=? x.
Definition gtb (x y : float) : bool := y <? x.

Definition requiredSpeed (stats : StreamStats) : float :=
  F64.of_int (Bitrate stats) / 8.

Definition speedRatio (stats : StreamStats) : float :=
  DownloadSpeed stats / requiredSpeed stats.

(** The five blocks that add to the local [score] of
    [assessNetworkQuality], in the order of the source. *)
Definition addSpeed (speedRatio score : float) : float :=
  if geb speedRatio 1.2 then score + 40
  else if geb speedRatio 1.0 then score + 35
  else if geb speedRatio 0.8 then score + 25
  else if geb speedRatio 0.6 then score + 15
  else score + 5.

Definition addBuffer (bufferHealth score : float) : float :=
  if gtb bufferHealth 80 then score + 20
  else if gtb bufferHealth 60 then score + 15
  else if gtb bufferHealth 40 then score + 10
  else score + 5.

Definition addStability (connectionStability score : float) : float :=
  score + connectionStability * 0.25.

Definition addPacketLoss (packetLoss score : float) : float :=
  if packetLoss <? 1 then score + 10
  else if packetLoss <? 5 then score + 5
  else if packetLoss <? 10 then score + 2
  else score.

Definition addJitter (jitter : Duration) (score : float) : float :=
  if (jitter <? 100 * Millisecond)%Z then score + 5
  else if (jitter <? 500 * Millisecond)%Z then score + 3
  else if (jitter <? 1 * Second)%Z then score + 1
  else score.

(** The value of [score] when the label is chosen. *)
Definition qualityScore (stats : StreamStats) : float :=
  let score := 0.0 in
  let score := addSpeed (speedRatio stats) score in
  let score := addBuffer (BufferHealth stats) score in
  let score := addStability (ConnectionStability stats) score in
  let score := addPacketLoss (PacketLoss stats) score in
  let score := addJitter (Jitter stats) score in
  score.

Definition labelOfScore (score : float) : string :=
  if geb score 90 then "Excellent"%string
  else if geb score 75 then "Good"%string
  else if geb score 60 then "Fair"%string
  else if geb score 40 then "Poor"%string
  else "Very Poor"%string.

Definition assessNetworkQuality (stats : StreamStats) : string :=
  if (Bitrate stats =? 0)%Z || (DownloadSpeed stats =? 0) then "Unknown"%string
  else labelOfScore (qualityScore stats).

End QualityScorer.

Definition scenario_poor : StreamStats :=
  {| Bitrate := 128000; SampleRate := 44100; Codec := "AAC";
     DownloadSpeed := 6400%float; BufferHealth := 20%float;
     Latency := 0; NetworkQuality := ""; LastUpdated := 0;
     PacketLoss := 8%float; Jitter := 600 * Millisecond;
     ConnectionStability := 50%float; TotalBytes := 0; StartTime := 0 |}.


(** ** StreamAnalyzer *)

(** Cancellation contexts are numbered in creation order; [ctx_cancelled]
    holds the flag of each.  [cancel] is the closure that belongs to [ctx],
    so the record keeps the context's number only. *)
Inductive Task :=
  | TExtractMetadata (url : string)
  | TMonitorDownloadSpeed (url : string)
  | TMonitorBuffer
  | TMonitorNetworkQuality (url : string).

Record Runtime := mkRuntime {
  ctx_cancelled : list bool;
  goroutines : list (Task * nat)
    (* each goroutine of the analyzer with the [sa.ctx] it was started under:
       the three monitor loops select on it, [extractMetadata] ignores it *)
}.

Definition emptyRuntime : Runtime := mkRuntime [] [].

Record StreamAnalyzer := mkStreamAnalyzer {
  stats : StreamStats;
  ctx : nat;
  downloadData : Z;
  startTime : Time;
  firstAudio : Time;
  bufferSize : Z;
  bufferUsed : Z;
  lastDownloadTime : Time;
  lastDownloadBytes : Z;
  successfulRequests : Z;
  failedRequests : Z;
  requestTimes : list Duration;
  lastRequestTime : Time
}.

Definition set_stats (sa : StreamAnalyzer) (s : StreamStats) : StreamAnalyzer :=
  mkStreamAnalyzer s (ctx sa) (downloadData sa) (startTime sa) (firstAudio sa)
    (bufferSize sa) (bufferUsed sa) (lastDownloadTime sa) (lastDownloadBytes sa)
    (successfulRequests sa) (failedRequests sa) (requestTimes sa)
    (lastRequestTime sa).

(** [context.WithCancel(context.Background())]: a new, uncancelled context. *)
Definition withCancel (rt : Runtime) : nat * Runtime :=
  (List.length (ctx_cancelled rt),
   mkRuntime (ctx_cancelled rt ++ [false]) (goroutines rt)).

Definition NewStreamAnalyzer (rt : Runtime) : StreamAnalyzer * Runtime :=
  let '(c, rt') := withCancel rt in
  (mkStreamAnalyzer zeroStats c 0 0 0 (1024 * 1024) 0 0 0 0 0 [] 0, rt').

Fixpoint set_nth {A} (n : nat) (x : A) (l : list A) : list A :=
  match l, n with
  | [], _ => []
  | _ :: t, O => x :: t
  | h :: t, S n' => h :: set_nth n' x t
  end.

Definition is_cancelled (rt : Runtime) (c : nat) : bool :=
  nth c (ctx_cancelled rt) false.

(** [sa.cancel()] *)
Definition StopAnalysis (sa : StreamAnalyzer) (rt : Runtime) : Runtime :=
  mkRuntime (set_nth (ctx sa) true (ctx_cancelled rt)) (goroutines rt).

(** [StartAnalysis] always returns a nil error; the result is the analyzer
    after the resets and the runtime with the four goroutines started.  The
    goroutines read [sa.ctx], which [StartAnalysis] does not assign. *)
Definition StartAnalysis (sa : StreamAnalyzer) (url : string) (now : Time)
    (rt : Runtime) : StreamAnalyzer * Runtime :=
  let st := stats sa in
  let st' :=
    mkStreamStats (Bitrate st) (SampleRate st) (Codec st) (DownloadSpeed st)
      (BufferHealth st) (Latency st) (NetworkQuality st) (LastUpdated st)
      0%float 0 100%float 0 now in
  let sa' :=
    mkStreamAnalyzer st' (ctx sa) 0 now (firstAudio sa) (bufferSize sa) 0 now 0
      0 0 [] 0 in
  (sa',
   mkRuntime (ctx_cancelled rt)
     (goroutines rt ++
        [(TExtractMetadata url, ctx sa'); (TMonitorDownloadSpeed url, ctx sa');
         (TMonitorBuffer, ctx sa'); (TMonitorNetworkQuality url, ctx sa')])).

(** [updateStats]: apply the closure, then recompute the quality label. *)
Definition updateStats (updateFunc : StreamStats -> StreamStats)
    (sa : StreamAnalyzer) : StreamAnalyzer :=
  let s := updateFunc (stats sa) in
  set_stats sa
    (mkStreamStats (Bitrate s) (SampleRate s) (Codec s) (DownloadSpeed s)
       (BufferHealth s) (Latency s) (assessNetworkQuality s) (LastUpdated s)
       (PacketLoss s) (Jitter s) (ConnectionStability s) (TotalBytes s)
       (StartTime s)).

Definition set_metadata (codec : string) (bitrate sampleRate : Z)
    (s : StreamStats) : StreamStats :=
  mkStreamStats bitrate sampleRate codec (DownloadSpeed s) (BufferHealth s)
    (Latency s) (NetworkQuality s) (LastUpdated s) (PacketLoss s) (Jitter s)
    (ConnectionStability s) (TotalBytes s) (StartTime s).

(** *** Metadata extraction *)

Module FFProbe.

Record Stream := mkStream {
  Index : Z;
  CodecName : string;
  CodecType : string;
  BitRate : string;
  SampleRate : string;
  Channels : Z;
  Duration : string;
  StartTime : string
}.

(** What [cmd.Output()] followed by [json.Unmarshal] can yield. *)
Inductive Outcome :=
  | ProbeFailed                       (* ffprobe returned an error *)
  | ParseFailed                       (* its output is not the expected JSON *)
  | Parsed (streams : list Stream).

Fixpoint firstAudioStream (streams : list Stream) : option Stream :=
  match streams with
  | [] => None
  | s :: rest =>
      if String.eqb (CodecType s) "audio" then Some s
      else firstAudioStream rest
  end.

End FFProbe.

Section ExtractMetadata.

(** [fmt.Sscanf(s, "%d", &v)] from the Go library: [Some n] when one integer
    was scanned (then [v = n]), [None] when it failed ([v] keeps its value). *)
Variable sscan_int : string -> option Z.

Definition scan_or_default (default : Z) (s : string) : Z :=
  if String.eqb s "" then default
  else match sscan_int s with
       | Some n => n
       | None => default
       end.

Definition extractMetadata (probe : FFProbe.Outcome) (sa : StreamAnalyzer)
    : StreamAnalyzer :=
  match probe with
  | FFProbe.ProbeFailed => updateStats (set_metadata "Unknown" 0 0) sa
  | FFProbe.ParseFailed => updateStats (set_metadata "AAC" 128000 44100) sa
  | FFProbe.Parsed streams =>
      match FFProbe.firstAudioStream streams with
      | None => updateStats (set_metadata "Unknown" 128000 44100) sa
      | Some audioStream =>
          let bitrate := scan_or_default 128000 (FFProbe.BitRate audioStream) in
          let sampleRate :=
            scan_or_default 44100 (FFProbe.SampleRate audioStream) in
          updateStats
            (set_metadata (FFProbe.CodecName audioStream) bitrate sampleRate) sa
      end
  end.

End ExtractMetadata.

(** *** Jitter and connection stability *)

Definition sum_durations (requestTimes : list Duration) : Duration :=
  fold_left (fun sum rt => Int64.add sum rt) requestTimes 0.

Definition len (requestTimes : list Duration) : Z :=
  Z.of_nat (List.length requestTimes).

Definition calculateJitter (requestTimes : list Duration) : Duration :=
  if len requestTimes <? 2 then 0
  else
    let sum := sum_durations requestTimes in
    let avg := Int64.quot sum (len requestTimes) in
    let variance :=
      fold_left
        (fun variance rt =>
           let diff := Int64.sub rt avg in
           Int64.add variance (Int64.mul diff diff))
        requestTimes 0 in
    let variance := Int64.quot variance (len requestTimes) in
    F64.to_int (F64.of_int variance * 0.5)%float.

Definition clamp_0_100 (stability : float) : float :=
  let stability := if (stability <? 0)%float then 0%float else stability in
  if gtb stability 100 then 100%float else stability.

Definition calculateConnectionStability (sa : StreamAnalyzer) : float :=
  let totalRequests := Int64.add (successfulRequests sa) (failedRequests sa) in
  if totalRequests =? 0 then 100.0%float
  else
    let successRate :=
      (F64.of_int (successfulRequests sa) / F64.of_int totalRequests)%float in
    let stability := (successRate * 100)%float in
    let stability :=
      if len (requestTimes sa) >? 1 then
        let avgRequestTime :=
          Int64.quot (sum_durations (requestTimes sa)) (len (requestTimes sa)) in
        if avgRequestTime >? 2 * Second then (stability * 0.8)%float
        else stability
      else stability in
    clamp_0_100 stability.

(** *** The three periodic monitors *)

(** One turn of [for { select { case <-sa.ctx.Done(): return;
    case <-ticker.C: ... } }].  When both channels are ready Go picks either;
    [pick_tick] is that choice. *)
Inductive SelectOutcome := LoopReturn | LoopTick | LoopBlocked.

Definition monitor_select (cancelled ticker_ready pick_tick : bool)
    : SelectOutcome :=
  match cancelled, ticker_ready with
  | true, true => if pick_tick then LoopTick else LoopReturn
  | true, false => LoopReturn
  | false, true => LoopTick
  | false, false => LoopBlocked
  end.

Definition keep_last_10 (requestTimes : list Duration) : list Duration :=
  if len requestTimes >? 10 then tl requestTimes else requestTimes.

(** The [ticker.C] case of [monitorDownloadSpeed] takes the lock three
    times: to count the request, to read the bitrate, and (in [updateStats])
    to publish.  Other tasks can get the lock in between. *)

(** [sa.mu.Lock() ... sa.mu.Unlock()]; [head_ok] tells whether the HEAD
    request succeeded. *)
Definition downloadCount (head_ok : bool) (requestStart : Time)
    (requestDuration : Duration) (sa : StreamAnalyzer) : StreamAnalyzer :=
  if head_ok then
    mkStreamAnalyzer (stats sa) (ctx sa) (downloadData sa) (startTime sa)
      (firstAudio sa) (bufferSize sa) (bufferUsed sa) (lastDownloadTime sa)
      (lastDownloadBytes sa) (Int64.add (successfulRequests sa) 1)
      (failedRequests sa)
      (keep_last_10 (requestTimes sa ++ [requestDuration])) requestStart
  else
    mkStreamAnalyzer (stats sa) (ctx sa) (downloadData sa) (startTime sa)
      (firstAudio sa) (bufferSize sa) (bufferUsed sa) (lastDownloadTime sa)
      (lastDownloadBytes sa) (successfulRequests sa)
      (Int64.add (failedRequests sa) 1) (requestTimes sa)
      (lastRequestTime sa).

(** [sa.mu.RLock(); estimatedSpeed := float64(sa.stats.Bitrate) / 8;
    sa.mu.RUnlock()] *)
Definition downloadEstimate (sa : StreamAnalyzer) : float :=
  (F64.of_int (Bitrate (stats sa)) / 8)%float.

(** [sa.updateStats(func(s) { s.DownloadSpeed = estimatedSpeed;
    s.LastUpdated = now })] *)
Definition downloadPublish (estimatedSpeed : float) (now : Time)
    (sa : StreamAnalyzer) : StreamAnalyzer :=
  updateStats
    (fun s =>
       mkStreamStats (Bitrate s) (SampleRate s) (Codec s) estimatedSpeed
         (BufferHealth s) (Latency s) (NetworkQuality s) now (PacketLoss s)
         (Jitter s) (ConnectionStability s) (TotalBytes s) (StartTime s))
    sa.

(** The whole case, when no other task gets the lock in between. *)
Definition downloadSpeedTick (head_ok : bool) (requestStart : Time)
    (requestDuration : Duration) (now : Time) (sa : StreamAnalyzer)
    : StreamAnalyzer :=
  let sa := downloadCount head_ok requestStart requestDuration sa in
  let estimatedSpeed := downloadEstimate sa in
  downloadPublish estimatedSpeed now sa.

(** [t.Sub(u)] saturates, [d.Seconds()] splits whole seconds from the rest. *)
Definition time_sub (t u : Time) : Duration :=
  Z.max Int64.min_signed (Z.min Int64.max_signed (t - u)).

Definition seconds (d : Duration) : float :=
  (F64.of_int (Z.quot d Second) + F64.of_int (Z.rem d Second) / 1e9)%float.

(** The [ticker.C] case of [monitorBuffer] takes the lock twice: to fill the
    buffer and compute its health, and (in [updateStats]) to publish. *)

(** [sa.mu.Lock() ... sa.mu.Unlock()]; gives the state and [bufferHealth]. *)
Definition bufferFill (now : Time) (sa : StreamAnalyzer)
    : StreamAnalyzer * float :=
  let timeDiff := seconds (time_sub now (lastDownloadTime sa)) in
  let sa :=
    if gtb timeDiff 0 then
      let bytesPerSecond := (F64.of_int (Bitrate (stats sa)) / 8)%float in
      let bufferIncrease := F64.to_int (bytesPerSecond * timeDiff * 0.1)%float in
      let used := Int64.add (bufferUsed sa) bufferIncrease in
      let used := if used >? bufferSize sa then bufferSize sa else used in
      mkStreamAnalyzer (stats sa) (ctx sa) (downloadData sa) (startTime sa)
        (firstAudio sa) (bufferSize sa) used now (lastDownloadBytes sa)
        (successfulRequests sa) (failedRequests sa) (requestTimes sa)
        (lastRequestTime sa)
    else sa in
  let bufferHealth :=
    (F64.of_int (bufferUsed sa) / F64.of_int (bufferSize sa) * 100)%float in
  (sa, bufferHealth).

(** [sa.updateStats(func(s) { s.BufferHealth = bufferHealth;
    if sa.firstAudio.IsZero() { ... } })]; [now'] is the clock read inside. *)
Definition bufferPublish (bufferHealth : float) (now' : Time)
    (sa : StreamAnalyzer) : StreamAnalyzer :=
  let first := firstAudio sa =? 0 in
  let sa :=
    if first then
      mkStreamAnalyzer (stats sa) (ctx sa) (downloadData sa) (startTime sa)
        now' (bufferSize sa) (bufferUsed sa) (lastDownloadTime sa)
        (lastDownloadBytes sa) (successfulRequests sa) (failedRequests sa)
        (requestTimes sa) (lastRequestTime sa)
    else sa in
  updateStats
    (fun s =>
       mkStreamStats (Bitrate s) (SampleRate s) (Codec s) (DownloadSpeed s)
         bufferHealth
         (if first then time_sub (firstAudio sa) (startTime sa) else Latency s)
         (NetworkQuality s) (LastUpdated s) (PacketLoss s) (Jitter s)
         (ConnectionStability s) (TotalBytes s) (StartTime s))
    sa.

(** The whole case, when no other task gets the lock in between; [now] and
    [now'] are the two readings of the clock. *)
Definition bufferTick (now now' : Time) (sa : StreamAnalyzer) : StreamAnalyzer :=
  let '(sa, bufferHealth) := bufferFill now sa in
  bufferPublish bufferHealth now' sa.

(** The [ticker.C] case of [monitorNetworkQuality] reads the analyzer four
    times: the total and the ring under [RLock], then [sa.failedRequests]
    without the lock, then the three fields again inside
    [calculateConnectionStability], and it publishes in [updateStats]. *)

(** [sa.mu.RLock(); totalRequests := ...; copy(requestTimes, ...);
    sa.mu.RUnlock()] *)
Definition qualitySnapshot (sa : StreamAnalyzer) : Z * list Duration :=
  (Int64.add (successfulRequests sa) (failedRequests sa), requestTimes sa).

(** [packetLoss], from the total of the snapshot and [sa.failedRequests] as
    it is read afterwards. *)
Definition packetLossOf (totalRequests failedRequests : Z) : float :=
  if totalRequests >? 0 then
    (F64.of_int failedRequests / F64.of_int totalRequests * 100)%float
  else 0.0%float.

(** [sa.updateStats(func(s) { s.PacketLoss = packetLoss; s.Jitter = jitter;
    s.ConnectionStability = stability })] *)
Definition qualityPublish (packetLoss : float) (jitter : Duration)
    (stability : float) (sa : StreamAnalyzer) : StreamAnalyzer :=
  updateStats
    (fun s =>
       mkStreamStats (Bitrate s) (SampleRate s) (Codec s) (DownloadSpeed s)
         (BufferHealth s) (Latency s) (NetworkQuality s) (LastUpdated s)
         packetLoss jitter stability (TotalBytes s) (StartTime s))
    sa.

(** The whole case, when no other task gets the lock between the reads and
    the publication. *)
Definition networkQualityTick (sa : StreamAnalyzer) : StreamAnalyzer :=
  let '(totalRequests, requestTimes) := qualitySnapshot sa in
  let packetLoss := packetLossOf totalRequests (failedRequests sa) in
  let jitter := calculateJitter requestTimes in
  let stability := calculateConnectionStability sa in
  qualityPublish packetLoss jitter stability sa.

(** ** Formatting of [%f] *)

Module Fmt.

(** Nearest integer to [num / den] ([den > 0]), ties to the even one. *)
Definition round_half_even (num den : Z) : Z :=
  let q := num / den in
  let r := num mod den in
  match 2 * r ?= den with
  | Lt => q
  | Gt => q + 1
  | Eq => if Z.even q then q else q + 1
  end.

Definition decimal (n : Z) : string :=
  NilZero.string_of_uint (N.to_uint (Z.to_N n)).

(** Digits of [n] in six places, [0 <= n < 10^6]. *)
Definition six_digits (n : Z) : string :=
  match decimal (1000000 + n) with
  | String _ rest => rest
  | EmptyString => EmptyString
  end.

(** [fmt.Sprintf("%f", x)]: six digits after the point, the exact binary
    value rounded to nearest with ties to even, sign kept on negative zero. *)
Definition sprintf_f (x : float) : string :=
  match Prim2SF x with
  | S754_nan => "NaN"
  | S754_infinity s => if s then "-Inf" else "+Inf"
  | S754_zero s => (if s then "-" else "") ++ "0.000000"
  | S754_finite s m e =>
      let scaled :=
        match e with
        | Zneg k => round_half_even (Zpos m * 1000000) (2 ^ Zpos k)
        | _ => Zpos m * 2 ^ e * 1000000
        end in
      (if s then "-" else "") ++ decimal (scaled / 1000000) ++ "."
        ++ six_digits (scaled mod 1000000)
  end%string.

End Fmt.

(** ** Player *)

Inductive error :=
  | ErrAlreadyRunning              (* "player already running" *)
  | ErrResolve                     (* what [resolvePlayableURL] returned *)
  | ErrSpawn                       (* what [cmd.Start] returned *)
  | ErrSignal.                     (* what [Process.Signal] returned *)

(** [exec.Cmd]: the arguments and, once started, the process. *)
Record Cmd := mkCmd {
  Args : list string;
  Process : option nat
}.

Record Player := mkPlayer {
  cmd : option Cmd;
  currentStation : Z;
  volumePercent : Z;
  isStopped : bool;
  visualization : bool;
  analyzer : StreamAnalyzer;
  showStats : bool
}.

(** The controller with what it shares with the outside: contexts and
    goroutines of the analyzer, the processes it spawned ([true] while a
    process is alive; a process is named by its position) and the reaper
    goroutines of [Start], each blocked in [cmd.Wait()] on its process. *)
Record System := mkSystem {
  player : Player;
  runtime : Runtime;
  procs : list bool;
  reapers : list nat
}.

Definition NewPlayer (rt : Runtime) : Player * Runtime :=
  let '(sa, rt') := NewStreamAnalyzer rt in
  (mkPlayer None 0 70 false false sa false, rt').

Definition initial : System :=
  let '(p, rt) := NewPlayer emptyRuntime in mkSystem p rt [] [].

Definition SetVolume (percent : Z) (p : Player) : Player :=
  let percent := if percent <? 0 then 0 else percent in
  let percent := if percent >? 100 then 100 else percent in
  mkPlayer (cmd p) (currentStation p) percent (isStopped p) (visualization p)
    (analyzer p) (showStats p).

(** The two summands of [volDb] in [ffplayArgs]. *)
Definition volDb_first (volumePercent : Z) : float :=
  (F64.of_int volumePercent / 100 * 0)%float.

Definition volDb_second (volumePercent : Z) : float :=
  (20 * (1 - F64.of_int volumePercent / 100))%float.

Definition volDb (volumePercent : Z) : float :=
  (volDb_first volumePercent - volDb_second volumePercent)%float.

Definition volFilter (volumePercent : Z) : string :=
  ("volume=" ++ Fmt.sprintf_f (volDb volumePercent) ++ "dB")%string.

Definition ffplayArgs (p : Player) (url : string) : list string :=
  ["-nodisp"; "-autoexit"; "-loglevel"; "warning"; "-hide_banner"; "-af";
   volFilter (volumePercent p); url]%string.

(** [p.cmd != nil && p.cmd.Process != nil] *)
Definition hasProcess (p : Player) : bool :=
  match cmd p with
  | Some c => match Process c with Some _ => true | None => false end
  | None => false
  end.

Definition set_cmd (c : option Cmd) (stopped : bool) (sa : StreamAnalyzer)
    (p : Player) : Player :=
  mkPlayer c (currentStation p) (volumePercent p) stopped (visualization p) sa
    (showStats p).

(** [Start], run under the lock.  [resolved] is the result of
    [resolvePlayableURL] ([None]: it failed), [spawn_ok] that of [cmd.Start]. *)
Definition Start (resolved : option string) (spawn_ok : bool) (now : Time)
    (sys : System) : option error * System :=
  let p := player sys in
  if hasProcess p then (Some ErrAlreadyRunning, sys)
  else
    match resolved with
    | None => (Some ErrResolve, sys)
    | Some url =>
        let '(sa, rt) := StartAnalysis (analyzer p) url now (runtime sys) in
        let args := ffplayArgs p url in
        if spawn_ok then
          let pid := List.length (procs sys) in
          (None,
           mkSystem (set_cmd (Some (mkCmd args (Some pid))) false sa p) rt
             (procs sys ++ [true]) (reapers sys ++ [pid]))
        else
          (Some ErrSpawn,
           mkSystem (set_cmd None (isStopped p) sa p) rt (procs sys)
             (reapers sys))
    end.

(** [Stop], run under the lock.  [signal_ok]: [Process.Signal(SIGTERM)]
    returned nil; [exited]: the process ended before the two seconds did
    (otherwise it is killed). *)
Definition Stop (signal_ok exited : bool) (sys : System)
    : option error * System :=
  let p := player sys in
  let rt := StopAnalysis (analyzer p) (runtime sys) in
  match cmd p with
  | Some (mkCmd args (Some pid)) =>
      let p := set_cmd (cmd p) true (analyzer p) p in
      if signal_ok then
        if exited then
          (None,
           mkSystem (set_cmd None true (analyzer p) p) rt
             (set_nth pid false (procs sys)) (reapers sys))
        else
          (None,
           mkSystem (set_cmd None true (analyzer p) p) rt
             (set_nth pid false (procs sys)) (reapers sys))
      else (Some ErrSignal, mkSystem p rt (procs sys) (reapers sys))
  | _ =>
      (None,
       mkSystem (set_cmd (cmd p) true (analyzer p) p) rt (procs sys)
         (reapers sys))
  end.

(** [Restart] when nothing else runs between its [Stop] and its [Start]. *)
Definition Restart (signal_ok exited : bool) (resolved : option string)
    (spawn_ok : bool) (now : Time) (sys : System) : option error * System :=
  Start resolved spawn_ok now (snd (Stop signal_ok exited sys)).

(** The goroutine started by [Start]: once [cmd.Wait()] has returned it takes
    the lock and clears [p.cmd], whatever [p.cmd] holds by then. *)
Definition reap (sys : System) : System :=
  mkSystem (set_cmd None (isStopped (player sys)) (analyzer (player sys))
              (player sys))
    (runtime sys) (procs sys) (reapers sys).

Fixpoint remove_first (x : nat) (l : list nat) : list nat :=
  match l with
  | [] => []
  | y :: t => if Nat.eqb x y then t else y :: remove_first x t
  end.

Definition alive (sys : System) (pid : nat) : bool := nth pid (procs sys) false.

(** What can happen next: each is one critical section of the lock, or an
    event of the operating system. *)
Inductive Event :=
  | EvStart (resolved : option string) (spawn_ok : bool) (now : Time)
  | EvStop (signal_ok exited : bool)
  | EvReap (pid : nat)     (* a reaper whose process has ended gets the lock *)
  | EvExit (pid : nat).    (* a process ends by itself *)

Definition step (sys : System) (ev : Event) : option System :=
  match ev with
  | EvStart resolved spawn_ok now => Some (snd (Start resolved spawn_ok now sys))
  | EvStop signal_ok exited => Some (snd (Stop signal_ok exited sys))
  | EvReap pid =>
      if existsb (Nat.eqb pid) (reapers sys) && negb (alive sys pid) then
        let sys' := reap sys in
        Some (mkSystem (player sys') (runtime sys') (procs sys')
                (remove_first pid (reapers sys')))
      else None
  | EvExit pid =>
      if alive sys pid then
        Some (mkSystem (player sys) (runtime sys)
                (set_nth pid false (procs sys)) (reapers sys))
      else None
  end.

Fixpoint run (sys : System) (trace : list Event) : option System :=
  match trace with
  | [] => Some sys
  | ev :: rest =>
      match step sys ev with
      | Some sys' => run sys' rest
      | None => None
      end
  end.

Fixpoint live_from (pid : nat) (flags : list bool) : list nat :=
  match flags with
  | [] => []
  | b :: rest =>
      if b then pid :: live_from (S pid) rest else live_from (S pid) rest
  end.

(** The processes spawned by the controller that are still running. *)
Definition live (sys : System) : list nat := live_from 0 (procs sys).

(** ** The specification's words *)

Module Spec.

Section Scorer.

Open Scope float_scope.

(** "Speed ratio = downloadSpeed / (bitrate/8), mapped: >=1.2 -> 40,
    >=1.0 -> 35, >=0.8 -> 25, >=0.6 -> 15, else -> 5." *)
Definition speedFactor (ratio : float) : float :=
  if geb ratio 1.2 then 40
  else if geb ratio 1.0 then 35
  else if geb ratio 0.8 then 25
  else if geb ratio 0.6 then 15
  else 5.

(** "Buffer health: >80 -> 20, >60 -> 15, >40 -> 10, else -> 5." *)
Definition bufferFactor (health : float) : float :=
  if gtb health 80 then 20
  else if gtb health 60 then 15
  else if gtb health 40 then 10
  else 5.

(** "Connection stability: stability x 0.25." *)
Definition stabilityFactor (stability : float) : float := stability * 0.25.

(** "Packet loss: <1% -> 10, <5% -> 5, <10% -> 2, else -> 0." *)
Definition packetLossFactor (loss : float) : float :=
  if loss <? 1 then 10 else if loss <? 5 then 5 else if loss <? 10 then 2
  else 0.

(** "Jitter: <100ms -> 5, <500ms -> 3, <1s -> 1, else -> 0." *)
Definition jitterFactor (jitter : Duration) : float :=
  if (jitter <? 100 * Millisecond)%Z then 5
  else if (jitter <? 500 * Millisecond)%Z then 3
  else if (jitter <? 1 * Second)%Z then 1
  else 0.

Definition totalScore (s : StreamStats) : float :=
  speedFactor (DownloadSpeed s / (F64.of_int (Bitrate s) / 8))
  + bufferFactor (BufferHealth s)
  + stabilityFactor (ConnectionStability s)
  + packetLossFactor (PacketLoss s)
  + jitterFactor (Jitter s).

(** ">=90 Excellent, >=75 Good, >=60 Fair, >=40 Poor, else Very Poor." *)
Definition label (score : float) : string :=
  if geb score 90 then "Excellent"%string
  else if geb score 75 then "Good"%string
  else if geb score 60 then "Fair"%string
  else if geb score 40 then "Poor"%string
  else "Very Poor"%string.

(** "If bitrate or downloadSpeed is zero, label is Unknown regardless of
    score." *)
Definition qualityLabel (s : StreamStats) : string :=
  if (Bitrate s =? 0)%Z || (DownloadSpeed s =? 0) then "Unknown"%string
  else label (totalScore s).

(** Success rate x 100, times 0.8 when [penalised], kept within [0,100]. *)
Definition stability (successful failed : Z) (penalised : bool) : float :=
  let rate := F64.of_int successful / F64.of_int (Int64.add successful failed) in
  let base := rate * 100 in
  let scaled := if penalised then base * 0.8 else base in
  if scaled <? 0 then 0 else if 100 <? scaled then 100 else scaled.

End Scorer.

(** Mean and population variance of the durations, in integers. *)
Definition total (requestTimes : list Duration) : Z :=
  fold_right Z.add 0 requestTimes.

Definition mean (requestTimes : list Duration) : Z :=
  Z.quot (total requestTimes) (len requestTimes).

Definition popVariance (requestTimes : list Duration) : Z :=
  Z.quot
    (total (map (fun rt => (rt - mean requestTimes) * (rt - mean requestTimes))
              requestTimes))
    (len requestTimes).

End Spec.

(** The penalty test of [calculateConnectionStability]. *)
Definition slowRequests (requestTimes : list Duration) : bool :=
  (len requestTimes >? 1)
  && (Int64.quot (sum_durations requestTimes) (len requestTimes) >? 2 * Second).

(** ** Concrete runs *)

(** A first session is stopped, then a second one is started, as
    [Player.Restart] does. *)
Definition second_session : StreamAnalyzer * Runtime :=
  let '(sa, rt) := NewStreamAnalyzer emptyRuntime in
  let '(sa, rt) := StartAnalysis sa "http://radio/a" 1000 rt in
  let sa := bufferTick 1500 1501 sa in
  let rt := StopAnalysis sa rt in
  StartAnalysis sa "http://radio/b" 9000 rt.

(** A process is running and cannot be signalled. *)
Definition playing : System :=
  snd (Start (Some "http://radio/a"%string) true 1000 initial).

(** Two station switches; the reaper of the first process gets the lock only
    after the [Start] of the first [Restart]. *)
Definition two_restarts : list Event :=
  [EvStart (Some "http://radio/a"%string) true 1000;
   EvStop true true; EvStart (Some "http://radio/b"%string) true 2000;
   EvReap 0;
   EvStop true true; EvStart (Some "http://radio/c"%string) true 3000].

(** What the metadata task publishes. *)
Definition metadata (sa : StreamAnalyzer) : string * Z * Z :=
  (Codec (stats sa), Bitrate (stats sa), SampleRate (stats sa)).

(** A probe result without audio entry. *)
Definition video_only : list FFProbe.Stream :=
  [FFProbe.mkStream 0 "h264" "video" "2500000" "" 0 "" ""].

(** One fast and one slow HEAD request. *)
Definition ring_1s_9s : list Duration := [1 * Second; 9 * Second].

Definition one_slow_request : StreamAnalyzer :=
  mkStreamAnalyzer zeroStats 0 0 0 0 (1024 * 1024) 0 0 0 1 0 [3 * Second] 0.

(** ** Classes of binary64 values *)

Definition SF_is_nan (x : spec_float) : bool :=
  match x with S754_nan => true | _ => false end.

Definition SF_finite (x : spec_float) : bool :=
  match x with S754_finite _ _ _ => true | _ => false end.

Definition SF_finite_or_zero (x : spec_float) : bool :=
  match x with S754_finite _ _ _ | S754_zero _ => true | _ => false end.

(** Three successes, one failure, two requests of three seconds. *)
Definition slow_session : StreamAnalyzer :=
  mkStreamAnalyzer zeroStats 0 0 0 0 (1024 * 1024) 0 0 0 3 1
    [3 * Second; 3 * Second] 0.

(** ** More of the controller and the analyzer *)

(** *** [%d] and [%.Nf] *)

Module Sprintf.

(** [fmt.Sprintf("%d", z)] *)
Definition int_d (z : Z) : string :=
  if z <? 0 then ("-" ++ Fmt.decimal (- z))%string else Fmt.decimal z.

(** The [prec] digits of [n], [0 <= n < 10^prec]. *)
Definition padded (prec : nat) (n : Z) : string :=
  match Fmt.decimal (10 ^ Z.of_nat prec + n) with
  | String _ rest => rest
  | EmptyString => EmptyString
  end.

Definition body (prec : nat) (s : bool) (scaled : Z) : string :=
  let scale := 10 ^ Z.of_nat prec in
  ((if s then "-" else "") ++ Fmt.decimal (scaled / scale)
   ++ match prec with
      | O => ""
      | _ => "." ++ padded prec (scaled mod scale)
      end)%string.

(** [fmt.Sprintf("%.<prec>f", x)]: the exact binary value rounded to [prec]
    decimals, ties to even. *)
Definition fixed (prec : nat) (x : float) : string :=
  let scale := 10 ^ Z.of_nat prec in
  match Prim2SF x with
  | S754_nan => "NaN"%string
  | S754_infinity s => if s then "-Inf"%string else "+Inf"%string
  | S754_zero s => body prec s 0
  | S754_finite s m e =>
      body prec s
        match e with
        | Zneg k => Fmt.round_half_even (Zpos m * scale) (2 ^ Zpos k)
        | _ => Zpos m * 2 ^ e * scale
        end
  end.

End Sprintf.

(** *** [formatBytes] *)

(** How a call ends: with a value, with a run-time panic, or (for a loop
    given fuel) without an answer within the fuel. *)
Inductive Run (A : Type) :=
  | Returned (a : A)
  | Panicked
  | OutOfFuel.
Arguments Returned {A} a.
Arguments Panicked {A}.
Arguments OutOfFuel {A}.

Definition unit : Z := 1024.

(** [for n := bytes / unit; n >= unit; n /= unit { div *= unit; exp++ }] *)
Fixpoint formatBytes_loop (fuel : nat) (n div exp : Z) : option (Z * Z) :=
  if n >=? unit then
    match fuel with
    | O => None
    | S fuel' =>
        formatBytes_loop fuel' (Int64.quot n unit) (Int64.mul div unit)
          (Int64.add exp 1)
    end
  else Some (div, exp).

(** [s[i]], which panics outside the string. *)
Definition byte_at (s : string) (i : Z) : option ascii :=
  if i <? 0 then None else String.get (Z.to_nat i) s.

Definition formatBytes_unit (bytes : Z) : option (Z * Z) :=
  formatBytes_loop 64 (Int64.quot bytes unit) unit 0.

Definition formatBytes (bytes : Z) : Run string :=
  if bytes <? unit then Returned (Sprintf.int_d bytes ++ " B")%string
  else
    match formatBytes_unit bytes with
    | None => OutOfFuel
    | Some (div, exp) =>
        match byte_at "KMGTPE" exp with
        | None => Panicked
        | Some c =>
            Returned
              (Sprintf.fixed 1 (F64.of_int bytes / F64.of_int div)%float
               ++ " " ++ String c "B")%string
        end
    end.

(** *** [GetQualityAlerts] *)

Section Alerts.

(** [fmt.Sprintf("%v", d)] for a [time.Duration], from the Go library. *)
Variable fmt_duration : Duration -> string.

Definition GetQualityAlerts (sa : StreamAnalyzer) : Run (list string) :=
  let stats := stats sa in
  let alerts : list string := [] in
  let alerts :=
    if gtb (PacketLoss stats) 5 then
      alerts ++ ["High packet loss: " ++ Sprintf.fixed 2 (PacketLoss stats)
                 ++ "% - Check network connection"]%string
    else alerts in
  let alerts :=
    if Jitter stats >? 500 * Millisecond then
      alerts ++ ["High network jitter: " ++ fmt_duration (Jitter stats)
                 ++ " - Network may be unstable"]%string
    else alerts in
  let alerts :=
    if (ConnectionStability stats <? 70)%float then
      alerts ++ ["Low connection stability: "
                 ++ Sprintf.fixed 1 (ConnectionStability stats)
                 ++ "% - Consider switching networks"]%string
    else alerts in
  let alerts :=
    if (BufferHealth stats <? 30)%float then
      alerts ++ ["Low buffer health: " ++ Sprintf.fixed 1 (BufferHealth stats)
                 ++ "% - Stream may stutter"]%string
    else alerts in
  let alerts :=
    if String.eqb (NetworkQuality stats) "Poor"
       || String.eqb (NetworkQuality stats) "Very Poor" then
      alerts ++ ["Poor network quality: " ++ NetworkQuality stats
                 ++ " - Try a different station or check connection"]%string
    else alerts in
  let alerts :=
    if Latency stats >? 5 * Second then
      alerts ++ ["High latency: " ++ fmt_duration (Latency stats)
                 ++ " - Stream may be slow to start"]%string
    else alerts in
  if Bitrate stats >? 0 then
    let requiredSpeed := (F64.of_int (Bitrate stats) / 8)%float in
    if (DownloadSpeed stats <? requiredSpeed * 0.8)%float then
      match formatBytes (F64.to_int (DownloadSpeed stats)) with
      | Returned have =>
          match formatBytes (F64.to_int requiredSpeed) with
          | Returned needs =>
              Returned
                (alerts ++ ["Slow download speed: " ++ have ++ "/s (needs "
                            ++ needs ++ "/s) - Check bandwidth"]%string)
          | Panicked => Panicked
          | OutOfFuel => OutOfFuel
          end
      | Panicked => Panicked
      | OutOfFuel => OutOfFuel
      end
    else Returned alerts
  else Returned alerts.

End Alerts.

(** Does an alert of this kind occur in the list? *)
Definition mentions (kind : string) (alerts : list string) : bool :=
  existsb (String.prefix kind) alerts.

(** *** What the tasks of a session write, in the order they get the lock *)

(** One event is one critical section that writes to the analyzer.  What a
    monitor publishes was computed from what it read before, possibly before
    other tasks wrote, so it comes with the event. *)
Inductive AnalyzerEvent :=
  | AeMetadata (probe : FFProbe.Outcome)
  | AeDownloadCount (head_ok : bool) (requestStart : Time)
      (requestDuration : Duration)
  | AeDownloadPublish (estimatedSpeed : float) (now : Time)
  | AeBufferFill (now : Time)
  | AeBufferPublish (bufferHealth : float) (now' : Time)
  | AeQualityPublish (packetLoss : float) (jitter : Duration)
      (stability : float).

Section AnalyzerRuns.

Variable sscan_int : string -> option Z.

Definition analyzer_step (sa : StreamAnalyzer) (ev : AnalyzerEvent)
    : StreamAnalyzer :=
  match ev with
  | AeMetadata probe => extractMetadata sscan_int probe sa
  | AeDownloadCount head_ok requestStart requestDuration =>
      downloadCount head_ok requestStart requestDuration sa
  | AeDownloadPublish estimatedSpeed now =>
      downloadPublish estimatedSpeed now sa
  | AeBufferFill now => fst (bufferFill now sa)
  | AeBufferPublish bufferHealth now' => bufferPublish bufferHealth now' sa
  | AeQualityPublish packetLoss jitter stability =>
      qualityPublish packetLoss jitter stability sa
  end.

Definition analyzer_run (sa : StreamAnalyzer) (evs : list AnalyzerEvent)
    : StreamAnalyzer :=
  fold_left analyzer_step evs sa.

End AnalyzerRuns.

(** The durations of the successful HEAD requests of a run, oldest first. *)
Definition ok_durations (evs : list AnalyzerEvent) : list Duration :=
  flat_map (fun ev => match ev with
                      | AeDownloadCount true _ d => [d]
                      | _ => []
                      end) evs.

Definition count_failed (evs : list AnalyzerEvent) : nat :=
  List.length (filter (fun ev => match ev with
                                 | AeDownloadCount false _ _ => true
                                 | _ => false
                                 end) evs).

Definition last_n {A} (n : nat) (l : list A) : list A :=
  skipn (List.length l - n) l.

Definition is_metadata (ev : AnalyzerEvent) : bool :=
  match ev with AeMetadata _ => true | _ => false end.

(** *** [isYouTubeURL] and [resolvePlayableURL] *)

Module YouTube.

Definition lower (c : ascii) : ascii :=
  let n := nat_of_ascii c in
  if (65 <=? n)%nat && (n <=? 90)%nat then ascii_of_nat (n + 32) else c.

(** One literal of the pattern under [(?i)]: the letter in either case, and
    for [s] also U+017F (bytes C5 BF), which Go folds to it. *)
Definition strip_char (pc : ascii) (s : string) : option string :=
  match s with
  | EmptyString => None
  | String c rest =>
      if Ascii.eqb (lower c) pc then Some rest
      else if Ascii.eqb pc "s" then
        match rest with
        | String c2 rest2 =>
            if (nat_of_ascii c =? 197)%nat && (nat_of_ascii c2 =? 191)%nat
            then Some rest2 else None
        | EmptyString => None
        end
      else None
  end.

Fixpoint strip (pat s : string) : option string :=
  match pat with
  | EmptyString => Some s
  | String pc pat' =>
      match strip_char pc s with
      | Some rest => strip pat' rest
      | None => None
      end
  end.

Definition opt_list (o : option string) : list string :=
  match o with Some r => [r] | None => [] end.

(** [^(https?://)?] *)
Definition after_scheme (u : string) : list string :=
  u :: opt_list (strip "http://" u) ++ opt_list (strip "https://" u).

(** [(www\.)?] *)
Definition after_www (r : string) : list string :=
  r :: opt_list (strip "www." r).

(** [(youtube\.com|youtu\.be)] *)
Definition after_host (r : string) : list string :=
  opt_list (strip "youtube.com" r) ++ opt_list (strip "youtu.be" r).

(** [ytRegexp.MatchString(u)] *)
Definition isYouTubeURL (u : string) : bool :=
  existsb (fun r => match strip "/" r with Some _ => true | None => false end)
    (flat_map after_host (flat_map after_www (after_scheme u))).

(** Letter case folded the way [(?i)] compares with the letters of this
    pattern: ASCII capitals become small letters, and U+017F (bytes C5 BF),
    which Go folds with [s], becomes [s]. *)
Fixpoint fold_case (s : string) : string :=
  match s with
  | EmptyString => EmptyString
  | String c rest =>
      match rest with
      | String c2 rest2 =>
          if (nat_of_ascii c =? 197)%nat && (nat_of_ascii c2 =? 191)%nat
          then String "s" (fold_case rest2)
          else String (lower c) (fold_case rest)
      | EmptyString => String (lower c) EmptyString
      end
  end.

(** The twelve ways to write what the pattern asks for, in small letters. *)
Definition prefixes : list string :=
  ["youtube.com/"; "youtu.be/"; "www.youtube.com/"; "www.youtu.be/";
   "http://youtube.com/"; "http://youtu.be/";
   "http://www.youtube.com/"; "http://www.youtu.be/";
   "https://youtube.com/"; "https://youtu.be/";
   "https://www.youtube.com/"; "https://www.youtu.be/"]%string.

(** No byte C5 in the pattern. *)
Fixpoint plain (pat : string) : bool :=
  match pat with
  | EmptyString => true
  | String c rest => negb (nat_of_ascii c =? 197)%nat && plain rest
  end.

End YouTube.

(** What [cmd.Run()] gave: an error, or the captured output. *)
Inductive RunResult :=
  | RunFailed (stderr : string)
  | RunOutput (stdout stderr : string).

Inductive ResolveError :=
  | YtDlpFailed (stderr : string)      (* "yt-dlp failed: ..., stderr: ..." *)
  | NoMediaURL (stderr : string).      (* "yt-dlp did not return a media URL" *)

(** [strings.Split(s, "\n")[0]] *)
Fixpoint first_line (s : string) : string :=
  match s with
  | EmptyString => EmptyString
  | String c rest =>
      if Ascii.eqb c "010" then EmptyString else String c (first_line rest)
  end.

Section Resolve.

(** [strings.TrimSpace] from the Go library. *)
Variable trimSpace : string -> string.

(** Running a command line. *)
Variable exec_run : list string -> RunResult.

Definition resolvePlayableURL (ytdlpBinary originalURL : string)
    : ResolveError + string :=
  if negb (YouTube.isYouTubeURL originalURL) then inr originalURL
  else
    match exec_run [ytdlpBinary; "-g"; "-f"; "bestaudio/best"; originalURL]%string with
    | RunFailed stderr => inl (YtDlpFailed stderr)
    | RunOutput stdout stderr =>
        let output := trimSpace stdout in
        if String.eqb output "" then inl (NoMediaURL stderr)
        else inr (trimSpace (first_line output))
    end.

(** [Player.Start(url)] with its call of [resolvePlayableURL]. *)
Definition StartURL (ytdlpBinary url : string) (spawn_ok : bool) (now : Time)
    (sys : System) : option error * System :=
  if hasProcess (player sys) then (Some ErrAlreadyRunning, sys)
  else
    Start match resolvePlayableURL ytdlpBinary url with
          | inr resolved => Some resolved
          | inl _ => None
          end spawn_ok now sys.

End Resolve.

(** *** Runs of the controller in which no reaper is late *)

Definition handle_pid (p : Player) : option nat :=
  match cmd p with
  | Some c => Process c
  | None => None
  end.

(** A reaper is late when the handle already belongs to another process. *)
Definition late_reaper (sys : System) (ev : Event) : bool :=
  match ev with
  | EvReap pid =>
      match handle_pid (player sys) with
      | Some pid' => negb (Nat.eqb pid' pid)
      | None => false
      end
  | _ => false
  end.

Fixpoint run_timely (sys : System) (trace : list Event) : option System :=
  match trace with
  | [] => Some sys
  | ev :: rest =>
      if late_reaper sys ev then None
      else match step sys ev with
           | Some sys' => run_timely sys' rest
           | None => None
           end
  end.

(** Checks over [0 .. n-1]. *)
Fixpoint all_below (n : nat) (f : nat -> bool) : bool :=
  match n with
  | O => true
  | S k => f k && all_below k f
  end.


(** *** The command loop *)

Record Station := mkStation {
  Name : string;
  URL : string;
  Description : string
}.

Definition defaultStations : list Station :=
  [mkStation "Lofi Hip Hop Radio - beats to relax/study to"
     "https://www.youtube.com/watch?v=jfKfPfyJRdk"
     "The most popular lofi radio station";
   mkStation "ChilledCow - Lofi Hip Hop Radio"
     "https://www.youtube.com/watch?v=5qap5aO4i9A"
     "Classic lofi beats for studying";
   mkStation "Lofi Girl - 24/7 lofi hip hop radio"
     "https://www.youtube.com/watch?v=DWcJFNfaw9c"
     "24/7 lofi hip hop radio stream";
   mkStation "Chillhop Music - Lofi Hip Hop Radio"
     "https://www.youtube.com/watch?v=7NOSDKb0HlU"
     "Chillhop lofi radio";
   mkStation "Lofi Hip Hop Radio - Beats to sleep/chill to"
     "https://www.youtube.com/watch?v=rUxyKA_-grg"
     "Relaxing lofi beats for sleep"]%string.

(** What the outside answers during one [Stop] and one [Start]. *)
Record World := mkWorld {
  w_signal_ok : bool;
  w_exited : bool;
  w_spawn_ok : bool;
  w_now : Time
}.

Definition with_player (f : Player -> Player) (sys : System) : System :=
  mkSystem (f (player sys)) (runtime sys) (procs sys) (reapers sys).

Definition set_station (idx : Z) (p : Player) : Player :=
  mkPlayer (cmd p) idx (volumePercent p) (isStopped p) (visualization p)
    (analyzer p) (showStats p).

Definition toggle_visualization (p : Player) : Player :=
  mkPlayer (cmd p) (currentStation p) (volumePercent p) (isStopped p)
    (negb (visualization p)) (analyzer p) (showStats p).

Definition ToggleStats (p : Player) : Player :=
  mkPlayer (cmd p) (currentStation p) (volumePercent p) (isStopped p)
    (visualization p) (analyzer p) (negb (showStats p)).

(** [stations[i]], which panics outside the slice. *)
Definition station_at (stations : list Station) (i : Z) : option Station :=
  if i <? 0 then None else nth_error stations (Z.to_nat i).

Definition count (stations : list Station) : Z :=
  Z.of_nat (List.length stations).

(** How one turn of the loop ends. *)
Inductive Loop :=
  | Continue (sys : System)
  | Return (sys : System).

(** [int(input[0] - '1')], a byte subtraction. *)
Definition digit_index (input : string) : option Z :=
  match input with
  | String c _ => Some ((Z.of_nat (nat_of_ascii c) - 49) mod 256)
  | EmptyString => None
  end.

Section Interactive.

Variable trimSpace : string -> string.
Variable exec_run : list string -> RunResult.
Variable sscan_int : string -> option Z.
Variable ytdlpBinary : string.

(** [Restart] while nothing else gets the lock in between. *)
Definition RestartURL (w : World) (url : string) (sys : System)
    : option error * System :=
  StartURL trimSpace exec_run ytdlpBinary url (w_spawn_ok w) (w_now w)
    (snd (Stop (w_signal_ok w) (w_exited w) sys)).

(** One [switch input] of [interactiveMode]; [vline] is the line read by
    the [v] command.  What is printed is not part of the state. *)
Definition command (stations : list Station) (w : World) (input vline : string)
    (sys : System) : Run Loop :=
  if String.eqb input "q" then
    Returned (Return (snd (Stop (w_signal_ok w) (w_exited w) sys)))
  else if String.eqb input "h" then Returned (Continue sys)
  else if String.eqb input "s" then
    Returned (Continue (snd (Stop (w_signal_ok w) (w_exited w) sys)))
  else if String.eqb input "v" then
    let v := match sscan_int (trimSpace vline) with
             | Some n => n
             | None => 0
             end in
    let sys := with_player (SetVolume v) sys in
    if negb (isStopped (player sys)) then
      match station_at stations (currentStation (player sys)) with
      | None => Panicked
      | Some st => Returned (Continue (snd (RestartURL w (URL st) sys)))
      end
    else Returned (Continue sys)
  else if String.eqb input "l" then Returned (Continue sys)
  else if String.eqb input "viz" then
    Returned (Continue (with_player toggle_visualization sys))
  else if String.eqb input "stats" then
    Returned (Continue (with_player ToggleStats sys))
  else if String.eqb input "show" then Returned (Continue sys)
  else if existsb (String.eqb input) ["1"; "2"; "3"; "4"; "5"]%string then
    match digit_index input with
    | None => Panicked
    | Some idx =>
        if (idx >=? 0) && (idx <? count stations) then
          let sys := with_player (set_station idx) sys in
          match station_at stations (currentStation (player sys)) with
          | None => Panicked
          | Some now => Returned (Continue (snd (RestartURL w (URL now) sys)))
          end
        else Returned (Continue sys)
    end
  else Returned (Continue sys).

(** What happens while the loop runs: a line is typed, a reaper gets the
    lock, a process ends, or the signal handler calls [Stop]. *)
Inductive Happening :=
  | Typed (w : World) (line vline : string)
  | Reaped (pid : nat)
  | Exited (pid : nat)
  | Interrupted (signal_ok exited : bool).

Definition background (sys : System) (ev : Event) : System :=
  match step sys ev with
  | Some sys' => sys'
  | None => sys
  end.

(** The [for] loop; it returns when the input ends. *)
Fixpoint interactive_loop (stations : list Station) (hs : list Happening)
    (sys : System) : Run System :=
  match hs with
  | [] => Returned sys
  | Typed w line vline :: rest =>
      match command stations w (trimSpace line) vline sys with
      | Returned (Continue sys') => interactive_loop stations rest sys'
      | Returned (Return sys') => Returned sys'
      | Panicked => Panicked
      | OutOfFuel => OutOfFuel
      end
  | Reaped pid :: rest =>
      interactive_loop stations rest (background sys (EvReap pid))
  | Exited pid :: rest =>
      interactive_loop stations rest (background sys (EvExit pid))
  | Interrupted signal_ok exited :: rest =>
      interactive_loop stations rest
        (background sys (EvStop signal_ok exited))
  end.

Definition interactiveMode (stations : list Station) (startIdx : Z)
    (w : World) (hs : list Happening) (sys : System) : Run System :=
  let startIdx :=
    if (startIdx <? 0) || (startIdx >=? count stations) then 0
    else startIdx in
  let sys := with_player (set_station startIdx) sys in
  match station_at stations (currentStation (player sys)) with
  | None => Panicked
  | Some now =>
      interactive_loop stations hs
        (snd (StartURL trimSpace exec_run ytdlpBinary (URL now) (w_spawn_ok w)
                (w_now w) sys))
  end.

(** [main] once the dependencies are found, without [-list], with [-i]. *)
Definition main_interactive (flagStation flagVolume : Z) (w : World)
    (hs : list Happening) : Run System :=
  let '(p, rt) := NewPlayer emptyRuntime in
  let p := SetVolume flagVolume p in
  let startIdx := Int64.sub flagStation 1 in
  let startIdx :=
    if (startIdx <? 0) || (startIdx >=? count defaultStations) then 0
    else startIdx in
  interactiveMode defaultStations startIdx w hs (mkSystem p rt [] []).

End Interactive.

(** The typed line is one of the station keys. *)
Definition station_key (trimSpace : string -> string) (h : Happening) : bool :=
  match h with
  | Typed _ line _ =>
      existsb (String.eqb (trimSpace line)) ["1"; "2"; "3"; "4"; "5"]%string
  | _ => false
  end.

(** *** Sessions, traces and invariants used below *)

Definition measured_session : StreamAnalyzer :=
  bufferTick 1500 1501
    (fst (StartAnalysis (fst (NewStreamAnalyzer emptyRuntime)) "u" 1000
            emptyRuntime)).

Definition known_bitrate : StreamAnalyzer :=
  extractMetadata (fun _ => None) FFProbe.ParseFailed
    (fst (StartAnalysis (fst (NewStreamAnalyzer emptyRuntime)) "u" 1000
            emptyRuntime)).

Definition clean_link : StreamAnalyzer :=
  analyzer_run (fun _ => None) known_bitrate
    [AeDownloadCount true 2000 250; AeDownloadCount true 3000 260].

Definition dead_link : StreamAnalyzer :=
  analyzer_run (fun _ => None) known_bitrate
    [AeDownloadCount false 2000 0; AeDownloadCount false 3000 0].

(** Every running process is the one the handle names. *)
Definition tracked (sys : System) : Prop :=
  forall pid, alive sys pid = true -> handle_pid (player sys) = Some pid.

Definition timely_restart : list Event :=
  [EvStart (Some "http://radio/a"%string) true 1000;
   EvStop true true; EvReap 0;
   EvStart (Some "http://radio/b"%string) true 2000].

(** The analyzer of the controller keeps the one context it was made with,
    and every goroutine it ever started selects on it. *)
Definition one_context (sys : System) : Prop :=
  ctx (analyzer (player sys)) = 0%nat
  /\ List.length (ctx_cancelled (runtime sys)) = 1%nat
  /\ Forall (fun g => snd g = 0%nat) (goroutines (runtime sys)).

(** The station index and the volume are usable. *)
Definition settings_ok (n : Z) (sys : System) : Prop :=
  0 <= currentStation (player sys) < n
  /\ 0 <= volumePercent (player sys) <= 100.

(** Playback is stopped and nothing has been started since. *)
Definition stopped_as (sys0 sys : System) : Prop :=
  isStopped (player sys) = true
  /\ List.length (procs sys) = List.length (procs sys0)
  /\ goroutines (runtime sys) = goroutines (runtime sys0).

Definition audio_after_video : list FFProbe.Stream :=
  [FFProbe.mkStream 0 "h264" "video" "2500000" "" 0 "" "";
   FFProbe.mkStream 1 "opus" "audio" "" "48000" 2 "" "";
   FFProbe.mkStream 2 "aac" "audio" "128000" "44100" 2 "" ""].

(** * Properties *)

(** ** Facts about binary64 used below *)

Section FloatFacts.

Open Scope float_scope.

Lemma Prim2SF_0 : Prim2SF 0 = S754_zero false.
Proof. reflexivity. Qed.

(** Adding [+0] does not change how a score compares with a threshold. *)
Lemma leb_add_0 (c z : float) : (c <=? z + 0) = (c <=? z).
Proof.
  rewrite !FloatAxioms.leb_spec, FloatAxioms.add_spec, Prim2SF_0.
  destruct (Prim2SF z) as [[|]|[|]| |[|] m e]; destruct (Prim2SF c) as [[|]|[|]| |[|] mc ec];
    reflexivity.
Qed.

(** Adding [+0] before a finite non-zero summand is invisible. *)
Lemma add_0_add (x d : float) sd md ed :
  Prim2SF d = S754_finite sd md ed -> x + 0 + d = x + d.
Proof.
  intros Hd. apply Prim2SF_inj.
  rewrite !FloatAxioms.add_spec, Prim2SF_0, Hd.
  destruct (Prim2SF x) as [[|]|[|]| |[|] m e]; reflexivity.
Qed.

Lemma label_add_0 (z : float) : Spec.label (z + 0) = Spec.label z.
Proof. unfold Spec.label, geb. now rewrite !leb_add_0. Qed.

End FloatFacts.

(** ** Order and rounding of binary64 *)

Section BinaryRounding.

Lemma compare_cont_Eq_antisym (p q : positive) :
  Pos.compare_cont Eq q p = CompOpp (Pos.compare_cont Eq p q).
Proof. now rewrite Pos.compare_cont_antisym. Qed.

Lemma SFcompare_antisym x y :
  SFcompare y x = option_map CompOpp (SFcompare x y).
Proof.
  destruct x as [[|]|[|]| |[|] m1 e1], y as [[|]|[|]| |[|] m2 e2];
    try reflexivity; unfold SFcompare, option_map; f_equal;
    rewrite (Z.compare_antisym e1 e2), (compare_cont_Eq_antisym m1 m2);
    destruct (e1 ?= e2); simpl; try reflexivity.
Qed.

Lemma SFcompare_None x y :
  SFcompare x y = None -> x = S754_nan \/ y = S754_nan.
Proof.
  destruct x as [[|]|[|]| |[|] m1 e1], y as [[|]|[|]| |[|] m2 e2];
    simpl; intros H; try discriminate H; auto.
Qed.

Lemma ltb_false_leb (x y : float) :
  Prim2SF x <> S754_nan -> Prim2SF y <> S754_nan ->
  (x <? y)%float = false -> (y <=? x)%float = true.
Proof.
  intros Hx Hy.
  rewrite FloatAxioms.ltb_spec, FloatAxioms.leb_spec.
  unfold SFltb, SFleb. rewrite (SFcompare_antisym (Prim2SF x) (Prim2SF y)).
  destruct (SFcompare (Prim2SF x) (Prim2SF y)) as [[| |]|] eqn:E; simpl;
    try reflexivity; try discriminate.
  destruct (SFcompare_None _ _ E); contradiction.
Qed.

Lemma clamp_0_100_bounds (x : float) :
  Prim2SF x <> S754_nan ->
  (0 <=? clamp_0_100 x)%float = true /\ (clamp_0_100 x <=? 100)%float = true.
Proof.
  intros Hx. unfold clamp_0_100, gtb.
  destruct (x <? 0)%float eqn:E0.
  - vm_compute. split; reflexivity.
  - destruct (100 <? x)%float eqn:E1.
    + vm_compute. split; reflexivity.
    + split; apply ltb_false_leb; try assumption; vm_compute; discriminate.
Qed.

(** Right shifts of the rounding procedure. *)

Lemma shr_1_div2 r : 0 <= shr_m r -> shr_m (shr_1 r) = shr_m r / 2.
Proof.
  destruct r as [[|[p|p|]|p] rr s]; cbn [shr_1 shr_m]; intros H;
    try reflexivity; try lia.
  - apply Z.div_unique with (r := 1); lia.
  - apply Z.div_unique with (r := 0); lia.
Qed.

Lemma pow2_xO p : 2 ^ Z.pos p~0 = 2 ^ Z.pos p * 2 ^ Z.pos p.
Proof.
  rewrite (Pos2Z.inj_xO p).
  replace (2 * Z.pos p) with (Z.pos p + Z.pos p) by lia.
  apply Z.pow_add_r; lia.
Qed.

Lemma pow2_xI p : 2 ^ Z.pos p~1 = 2 * (2 ^ Z.pos p * 2 ^ Z.pos p).
Proof.
  rewrite (Pos2Z.inj_xI p).
  replace (2 * Z.pos p + 1) with (1 + (Z.pos p + Z.pos p)) by lia.
  rewrite !Z.pow_add_r by lia. reflexivity.
Qed.

Lemma iter_pos_shr_1 p : forall r,
  0 <= shr_m r -> shr_m (iter_pos shr_1 p r) = shr_m r / 2 ^ Z.pos p.
Proof.
  induction p as [p IH|p IH|]; intros r Hr; cbn [iter_pos].
  - assert (H1 : 0 <= shr_m (shr_1 r)).
    { rewrite shr_1_div2 by assumption. apply Z.div_pos; lia. }
    assert (H2 : 0 <= shr_m (iter_pos shr_1 p (shr_1 r))).
    { rewrite IH by assumption. apply Z.div_pos; lia. }
    rewrite IH, IH, shr_1_div2 by assumption.
    rewrite !Z.div_div by lia.
    now rewrite pow2_xI, !Z.mul_assoc.
  - assert (H2 : 0 <= shr_m (iter_pos shr_1 p r)).
    { rewrite IH by assumption. apply Z.div_pos; lia. }
    rewrite IH, IH by assumption.
    rewrite !Z.div_div by lia.
    now rewrite pow2_xO.
  - rewrite shr_1_div2 by assumption. reflexivity.
Qed.

Lemma shr_m_of_loc m l : shr_m (shr_record_of_loc m l) = m.
Proof. destruct l as [|[| |]]; reflexivity. Qed.

Lemma digits2_pos_size m : digits2_pos m = Pos.size m.
Proof. induction m; simpl; congruence. Qed.

Lemma Zdigits2_log2 m : 0 < m -> Zdigits2 m = Z.log2 m + 1.
Proof.
  destruct m as [|p|p]; try lia. intros _.
  simpl. rewrite digits2_pos_size. destruct p; simpl; lia.
Qed.


Lemma Zdigits2_le m n : 0 < m -> m <= n -> Zdigits2 m <= Zdigits2 n.
Proof.
  intros Hm Hn. rewrite !Zdigits2_log2 by lia.
  pose proof (Z.log2_le_mono m n Hn). lia.
Qed.

Lemma Zdigits2_succ m : 0 < m -> Zdigits2 (m + 1) <= Zdigits2 m + 1.
Proof.
  intros Hm. rewrite !Zdigits2_log2 by lia.
  pose proof (Z.log2_succ_le m). unfold Z.succ in *. lia.
Qed.

Lemma Zdigits2_lt_pow2 m k : 0 < m -> m < 2 ^ k -> Zdigits2 m <= k.
Proof.
  intros Hm Hk. rewrite Zdigits2_log2 by lia.
  apply Z.log2_lt_pow2 in Hk; lia.
Qed.

Lemma pow2_digits_le m : 0 < m -> 2 ^ (Zdigits2 m - 1) <= m.
Proof.
  intros Hm. rewrite Zdigits2_log2 by lia.
  replace (Z.log2 m + 1 - 1) with (Z.log2 m) by lia.
  apply Z.log2_spec; assumption.
Qed.

Lemma lt_pow2_digits m : 0 < m -> m < 2 ^ Zdigits2 m.
Proof.
  intros Hm. rewrite Zdigits2_log2 by lia.
  apply (Z.log2_spec m Hm).
Qed.

(** A positive mantissa at an exponent not below [emin] stays positive
    when it is shifted to its canonical exponent. *)
Lemma shr_fexp_pos m e l :
  0 < m -> emin <= e ->
  0 < shr_m (fst (shr_fexp prec emax m e l)) <= m
  /\ e <= snd (shr_fexp prec emax m e l) <= e + Z.max 0 (Zdigits2 m - prec).
Proof.
  intros Hm He. unfold shr_fexp, shr.
  pose proof (pow2_digits_le m Hm) as Hd.
  assert (Hd1 : 1 <= Zdigits2 m) by (rewrite Zdigits2_log2 by lia; pose proof (Z.log2_nonneg m); lia).
  destruct (fexp prec emax (Zdigits2 m + e) - e) as [|p|p] eqn:En;
    cbn [fst snd]; rewrite ?shr_m_of_loc; try lia.
  assert (Hp : Z.pos p = Zdigits2 m - prec).
  { revert En. unfold fexp, SpecFloat.emin, prec, emax in *. lia. }
  rewrite iter_pos_shr_1 by (rewrite shr_m_of_loc; lia).
  rewrite shr_m_of_loc.
  assert (Hpow : 2 ^ Z.pos p <= m).
  { apply Z.le_trans with (2 ^ (Zdigits2 m - 1)); [|assumption].
    apply Z.pow_le_mono_r; unfold prec in Hp; lia. }
  assert (0 < 2 ^ Z.pos p) by (apply Z.pow_pos_nonneg; lia).
  repeat split; try lia.
  - apply Z.lt_le_trans with 1; [lia|].
    apply Z.div_le_lower_bound; lia.
  - apply Z.div_le_upper_bound; nia.
Qed.

Lemma shr_fexp_nonneg m e l :
  0 <= m -> 0 <= shr_m (fst (shr_fexp prec emax m e l)).
Proof.
  intros Hm. unfold shr_fexp, shr.
  destruct (fexp prec emax (Zdigits2 m + e) - e) as [|p|p];
    cbn [fst]; rewrite ?iter_pos_shr_1; rewrite ?shr_m_of_loc; try lia.
  apply Z.div_pos; [lia|]. apply Z.pow_pos_nonneg; lia.
Qed.

Lemma round_nearest_even_bounds m l :
  m <= round_nearest_even m l <= m + 1.
Proof.
  unfold round_nearest_even.
  destruct l as [|[| |]]; try destruct (Z.even m); lia.
Qed.

Lemma binary_round_aux_not_nan sx m e l :
  0 <= m -> binary_round_aux prec emax sx m e l <> S754_nan.
Proof.
  intros Hm. unfold binary_round_aux.
  pose proof (shr_fexp_nonneg m e l Hm) as H1.
  destruct (shr_fexp prec emax m e l) as [r1 e1]. cbn [fst] in H1.
  pose proof (round_nearest_even_bounds (shr_m r1) (loc_of_shr_record r1)) as Hr.
  set (m2 := round_nearest_even (shr_m r1) (loc_of_shr_record r1)) in *.
  pose proof (shr_fexp_nonneg m2 e1 loc_Exact ltac:(lia)) as H2.
  destruct (shr_fexp prec emax m2 e1 loc_Exact) as [r2 e2]. cbn [fst] in H2.
  destruct (shr_m r2) as [|p|p]; try lia; try discriminate.
  destruct (e2 <=? emax - prec); discriminate.
Qed.

Lemma binary_round_aux_finite sx m e l :
  0 < m -> emin <= e ->
  e + 2 * Z.max 0 (Zdigits2 m + 1 - prec) <= emax - prec ->
  exists m' e', binary_round_aux prec emax sx m e l = S754_finite sx m' e'.
Proof.
  intros Hm He Hb. unfold binary_round_aux.
  pose proof (shr_fexp_pos m e l Hm He) as [H1 H1e].
  destruct (shr_fexp prec emax m e l) as [r1 e1]. cbn [fst snd] in H1, H1e.
  pose proof (round_nearest_even_bounds (shr_m r1) (loc_of_shr_record r1)) as Hr.
  set (m2 := round_nearest_even (shr_m r1) (loc_of_shr_record r1)) in *.
  assert (Hd2 : Zdigits2 m2 <= Zdigits2 m + 1).
  { apply Z.le_trans with (Zdigits2 (m + 1)).
    - apply Zdigits2_le; lia.
    - apply Zdigits2_succ; lia. }
  pose proof (shr_fexp_pos m2 e1 loc_Exact ltac:(lia) ltac:(lia)) as [H2 H2e].
  destruct (shr_fexp prec emax m2 e1 loc_Exact) as [r2 e2]. cbn [fst snd] in H2, H2e.
  destruct (shr_m r2) as [|p|p]; try lia.
  assert (Hle : (e2 <=? emax - prec) = true) by (apply Z.leb_le; lia).
  rewrite Hle. eauto.
Qed.

(** Shape of [float64(n)]. *)

Lemma of_uint63_zero n :
  to_Z n = 0 -> Prim2SF (of_uint63 n) = S754_zero false.
Proof. intros H. rewrite FloatAxioms.of_uint63_spec, H. reflexivity. Qed.

Lemma of_uint63_finite n :
  to_Z n <> 0 -> exists m e, Prim2SF (of_uint63 n) = S754_finite false m e.
Proof.
  intros H. rewrite FloatAxioms.of_uint63_spec.
  pose proof (to_Z_bounded n) as Hb.
  destruct (to_Z n) as [|p|p]; try lia. clear H.
  assert (Hp : Z.pos p < 2 ^ 63) by (change (2 ^ 63) with wB; lia).
  unfold binary_normalize, binary_round.
  pose proof (Zdigits2_lt_pow2 (Z.pos p) 63 ltac:(lia) Hp) as Hd.
  pose proof (pow2_digits_le (Z.pos p) ltac:(lia)) as Hlow.
  assert (Hd1 : 1 <= Zdigits2 (Z.pos p)).
  { rewrite Zdigits2_log2 by lia. pose proof (Z.log2_nonneg (Z.pos p)). lia. }
  cbn [Zdigits2] in Hd, Hlow, Hd1.
  unfold shl_align.
  destruct (fexp prec emax (Z.pos (digits2_pos p) + 0) - 0) as [|q|q] eqn:Eq.
  - apply binary_round_aux_finite; try lia.
    + unfold SpecFloat.emin, prec, emax; lia.
    + cbn [Zdigits2]. unfold prec, emax. lia.
  - apply binary_round_aux_finite; try lia.
    + unfold SpecFloat.emin, prec, emax; lia.
    + cbn [Zdigits2]. unfold prec, emax. lia.
  - assert (Hq : Z.pos q = prec - Z.pos (digits2_pos p)).
    { revert Eq. unfold fexp, SpecFloat.emin, prec, emax. lia. }
    assert (Hf : fexp prec emax (Z.pos (digits2_pos p) + 0)
                 = Z.pos (digits2_pos p) - prec).
    { revert Eq. unfold fexp, SpecFloat.emin, prec, emax. lia. }
    rewrite Hf.
    assert (Hm : Z.pos (Pos.iter xO p q) < 2 ^ prec).
    { change (Pos.iter xO p q) with (shift_pos q p).
      rewrite shift_pos_correct, Z.pow_pos_fold.
      replace prec with (Z.pos q + Z.pos (digits2_pos p)) by lia.
      rewrite Z.pow_add_r by lia.
      apply Z.mul_lt_mono_pos_l; [apply Z.pow_pos_nonneg; lia|].
      apply (lt_pow2_digits (Z.pos p)). lia. }
    apply binary_round_aux_finite; try lia.
    + unfold SpecFloat.emin, prec, emax in *; lia.
    + assert (Hdz : Zdigits2 (Z.pos (Pos.iter xO p q)) <= prec).
      { apply Zdigits2_lt_pow2; [lia|exact Hm]. }
      cbn [Zdigits2] in *. unfold prec, emax in *. lia.
Qed.


Lemma of_uint63_finite_or_zero n :
  SF_finite_or_zero (Prim2SF (of_uint63 n)) = true.
Proof.
  destruct (Z.eq_dec (to_Z n) 0) as [H|H].
  - now rewrite of_uint63_zero.
  - destruct (of_uint63_finite n H) as (m & e & ->). reflexivity.
Qed.

Lemma SFopp_finite_or_zero x :
  SF_finite_or_zero (SFopp x) = SF_finite_or_zero x.
Proof. destruct x; reflexivity. Qed.

Lemma SFopp_finite x : SF_finite (SFopp x) = SF_finite x.
Proof. destruct x; reflexivity. Qed.

Lemma of_int_finite_or_zero z :
  SF_finite_or_zero (Prim2SF (F64.of_int z)) = true.
Proof.
  unfold F64.of_int.
  destruct (z =? Int64.min_signed); [reflexivity|].
  destruct (z <? 0).
  - rewrite FloatAxioms.opp_spec, SFopp_finite_or_zero. apply of_uint63_finite_or_zero.
  - apply of_uint63_finite_or_zero.
Qed.

Lemma of_int_finite z :
  Int64.in_range z -> z <> 0 -> SF_finite (Prim2SF (F64.of_int z)) = true.
Proof.
  unfold Int64.in_range, Int64.min_signed, Int64.max_signed, Int64.half_modulus.
  intros Hr Hz. unfold F64.of_int.
  destruct (z =? Int64.min_signed) eqn:Emin; [reflexivity|].
  apply Z.eqb_neq in Emin.
  unfold Int64.min_signed, Int64.half_modulus in Emin.
  assert (Hfin : forall k, 0 < k < 2 ^ 63 ->
                 SF_finite (Prim2SF (of_uint63 (of_Z k))) = true).
  { intros k Hk.
    destruct (of_uint63_finite (of_Z k)) as (m & e & ->); [|reflexivity].
    rewrite of_Z_spec. change wB with (2 ^ 63).
    rewrite Z.mod_small; lia. }
  destruct (z <? 0) eqn:Eneg.
  - apply Z.ltb_lt in Eneg. rewrite FloatAxioms.opp_spec, SFopp_finite. apply Hfin. lia.
  - apply Z.ltb_ge in Eneg. apply Hfin. lia.
Qed.

Lemma SF64div_not_nan x y :
  SF_finite_or_zero x = true -> SF_finite y = true ->
  SF_is_nan (SF64div x y) = false.
Proof.
  destruct x as [sx|sx| |sx mx ex]; try discriminate;
    destruct y as [sy|sy| |sy my ey]; try discriminate; intros _ _;
    [reflexivity|].
  unfold SF64div, SFdiv, SFdiv_core_binary.
  set (m' := match _ - _ with Z0 => _ | Z.pos _ => _ | Z.neg _ => _ end).
  assert (Hm' : 0 <= m').
  { unfold m'. destruct (_ - _); try lia. apply Z.shiftl_nonneg. lia. }
  pose proof (Z.div_pos m' (Z.pos my) Hm' ltac:(lia)) as Hq.
  unfold Z.div in Hq.
  destruct (Z.div_eucl m' (Z.pos my)) as [q r]. cbn [fst] in Hq.
  match goal with
  | |- SF_is_nan ?t = false =>
      pose proof (binary_round_aux_not_nan (xorb sx sy) q
                    (Z.min (fexp prec emax (Zdigits2 (Z.pos mx) + ex - (Zdigits2 (Z.pos my) + ey))) (ex - ey))
                    (new_location (Z.pos my) r) Hq) as Hn;
      destruct t eqn:Et
  end; try reflexivity.
  now elim Hn.
Qed.

Lemma SF64mul_not_nan x y :
  SF_is_nan x = false -> SF_finite y = true ->
  SF_is_nan (SF64mul x y) = false.
Proof.
  destruct x as [sx|sx| |sx mx ex]; try discriminate;
    destruct y as [sy|sy| |sy my ey]; try discriminate; intros _ _;
    try reflexivity.
  unfold SF64mul, SFmul.
  pose proof (binary_round_aux_not_nan (xorb sx sy) (Z.pos (mx * my)) (ex + ey)
                loc_Exact ltac:(lia)) as Hn.
  destruct (binary_round_aux prec emax (xorb sx sy) (Z.pos (mx * my)) (ex + ey)
              loc_Exact); try reflexivity.
  now elim Hn.
Qed.

Lemma SF_is_nan_false x : SF_is_nan x = false -> x <> S754_nan.
Proof. intros H ->. discriminate H. Qed.

Lemma wrap_in_range z : Int64.in_range (Int64.wrap z).
Proof.
  unfold Int64.in_range, Int64.wrap, Int64.min_signed, Int64.max_signed.
  pose proof (Z.mod_pos_bound (z + Int64.half_modulus) Int64.modulus
                ltac:(reflexivity)).
  unfold Int64.modulus, Int64.half_modulus in *. lia.
Qed.

End BinaryRounding.

(** ** QualityScorer *)

Section ScorerProperties.

Open Scope float_scope.

Lemma addSpeed_0 (r : float) : addSpeed r 0 = Spec.speedFactor r.
Proof.
  unfold addSpeed, Spec.speedFactor.
  repeat match goal with |- context [if ?c then _ else _] => destruct c end;
    reflexivity.
Qed.

Lemma addBuffer_factor (h score : float) :
  addBuffer h score = score + Spec.bufferFactor h.
Proof.
  unfold addBuffer, Spec.bufferFactor.
  repeat match goal with |- context [if ?c then _ else _] => destruct c end;
    reflexivity.
Qed.

Lemma labelOfScore_label (score : float) : labelOfScore score = Spec.label score.
Proof. reflexivity. Qed.

(** The last two blocks add nothing in their [else] case, where the
    specification adds a factor of zero: the label cannot tell. *)
Lemma label_loss_jitter (loss : float) (jitter : Duration) (score : float) :
  Spec.label (addJitter jitter (addPacketLoss loss score))
  = Spec.label (score + Spec.packetLossFactor loss + Spec.jitterFactor jitter).
Proof.
  unfold addJitter, addPacketLoss, Spec.packetLossFactor, Spec.jitterFactor.
  repeat match goal with |- context [if ?c then _ else _] => destruct c end;
    try reflexivity;
    rewrite ?label_add_0;
    try reflexivity;
    (erewrite add_0_add by reflexivity); reflexivity.
Qed.

(** C4, as the code computes it: in the scenario bitrate 128000, download
    speed 6400, buffer health 20, stability 50, packet loss 8, jitter 600ms
    the score is 5 + 5 + 12.5 + 2 + 1 = 25.5 (a jitter below one second earns
    one point) and the label is "Very Poor". *)
Theorem scenario_poor_score :
  (speedRatio scenario_poor <? 0.6) = true
  /\ qualityScore scenario_poor = 5 + 5 + 12.5 + 2 + 1
  /\ qualityScore scenario_poor = 25.5
  /\ assessNetworkQuality scenario_poor = "Very Poor"%string.
Proof. repeat split; vm_compute; reflexivity. Qed.

(** C4, as stated: the score of the scenario is not 24.5. *)
Lemma score_24_5_refuted :
  ~ (qualityScore scenario_poor = 5 + 5 + 12.5 + 2 + 0
     /\ assessNetworkQuality scenario_poor = "Very Poor"%string).
Proof.
  intros [H _].
  assert (E : (qualityScore scenario_poor =? 24.5) = true).
  { rewrite H. vm_compute. reflexivity. }
  vm_compute in E. discriminate E.
Qed.

(** C5: for every snapshot the label is "Unknown" when the bitrate or the
    download speed is zero, and otherwise the label that the thresholds 90,
    75, 60, 40 give to the sum of the five factors of the specification. *)
Theorem quality_label_from_weighted_score (s : StreamStats) :
  assessNetworkQuality s = Spec.qualityLabel s
  /\ (if (Bitrate s =? 0)%Z || (DownloadSpeed s =? 0)
      then assessNetworkQuality s = "Unknown"%string
      else assessNetworkQuality s = Spec.label (Spec.totalScore s)).
Proof.
  assert (E : assessNetworkQuality s = Spec.qualityLabel s).
  { unfold assessNetworkQuality, Spec.qualityLabel.
    destruct ((Bitrate s =? 0)%Z || (DownloadSpeed s =? 0)); [reflexivity|].
    rewrite labelOfScore_label.
    unfold qualityScore, Spec.totalScore, addStability, Spec.stabilityFactor.
    cbv zeta. rewrite label_loss_jitter, addBuffer_factor, addSpeed_0.
    reflexivity. }
  split; [exact E|].
  rewrite E. unfold Spec.qualityLabel.
  destruct ((Bitrate s =? 0)%Z || (DownloadSpeed s =? 0)); reflexivity.
Qed.

End ScorerProperties.

(** ** Volume filter *)

Section VolumeFilter.

Open Scope float_scope.

Lemma volDb_upto_100 (n : nat) :
  (n <= 100)%nat ->
  volDb_first (Z.of_nat n) = 0
  /\ (volDb (Z.of_nat n) =? -20 * (1 - F64.of_int (Z.of_nat n) / 100)) = true.
Proof.
  intros Hn.
  do 101 (destruct n as [|n]; [vm_compute; split; reflexivity|]).
  lia.
Qed.

(** C6: for every volume percentage in [0,100] the first summand of the
    formula is zero, the filter passed to ffplay is "volume=<X>dB" with X
    equal (as float64 values) to -20 x (1 - percent/100), and the filters for
    70, 0 and 100 percent read -6.000000, -20.000000 and 0.000000 dB. *)
Theorem volume_filter_formula (p : Player) (url : string) :
  (0 <= volumePercent p <= 100)%Z ->
  let percent := volumePercent p in
  volDb_first percent = 0
  /\ (volDb percent =? -20 * (1 - F64.of_int percent / 100)) = true
  /\ ffplayArgs p url =
       ["-nodisp"; "-autoexit"; "-loglevel"; "warning"; "-hide_banner"; "-af";
        "volume=" ++ Fmt.sprintf_f (volDb percent) ++ "dB"; url]%string
  /\ volFilter 70 = "volume=-6.000000dB"%string
  /\ volFilter 0 = "volume=-20.000000dB"%string
  /\ volFilter 100 = "volume=0.000000dB"%string.
Proof.
  intros H percent.
  destruct (volDb_upto_100 (Z.to_nat percent)) as [H1 H2]; [unfold percent; lia|].
  rewrite Z2Nat.id in H1, H2 by (unfold percent; lia).
  repeat split; try assumption; vm_compute; reflexivity.
Qed.

Lemma volume_filter_formula_witness :
  (0 <= volumePercent (fst (NewPlayer emptyRuntime)) <= 100)%Z
  /\ volDb_first 70 = 0
  /\ (volDb 70 =? -20 * (1 - F64.of_int 70 / 100)) = true
  /\ volFilter 70 = "volume=-6.000000dB"%string.
Proof.
  split; [vm_compute; split; discriminate|].
  destruct (volume_filter_formula (fst (NewPlayer emptyRuntime)) "u") as (A & B & _ & C & _).
  - vm_compute; split; discriminate.
  - exact (conj A (conj B C)).
Defined.

(** [SetVolume] keeps the percentage in the range of the formula. *)
Lemma SetVolume_range (percent : Z) (p : Player) :
  (0 <= volumePercent (SetVolume percent p) <= 100)%Z.
Proof.
  unfold SetVolume; simpl.
  destruct (percent <? 0)%Z eqn:E1.
  - simpl. lia.
  - destruct (percent >? 100)%Z eqn:E2; lia.
Qed.

End VolumeFilter.

(** ** Metadata extraction *)

Section MetadataProperties.

Variable sscan_int : string -> option Z.

(** C3, as the code behaves: a parse failure publishes ("AAC", 128000,
    44100), a stream list without audio entry ("Unknown", 128000, 44100), a
    failed probe ("Unknown", 0, 0); in each case the task only writes the
    snapshot, the request counters are untouched. *)
Theorem extractMetadata_fallbacks (sa : StreamAnalyzer)
    (streams : list FFProbe.Stream) :
  FFProbe.firstAudioStream streams = None ->
  metadata (extractMetadata sscan_int FFProbe.ParseFailed sa)
    = ("AAC"%string, 128000, 44100)
  /\ metadata (extractMetadata sscan_int (FFProbe.Parsed streams) sa)
    = ("Unknown"%string, 128000, 44100)
  /\ metadata (extractMetadata sscan_int FFProbe.ProbeFailed sa)
    = ("Unknown"%string, 0, 0)
  /\ forall probe,
       failedRequests (extractMetadata sscan_int probe sa) = failedRequests sa
       /\ successfulRequests (extractMetadata sscan_int probe sa)
          = successfulRequests sa
       /\ NetworkQuality (stats (extractMetadata sscan_int probe sa))
          = assessNetworkQuality (stats (extractMetadata sscan_int probe sa)).
Proof.
  intros Hnone. repeat split.
  - unfold extractMetadata. rewrite Hnone. reflexivity.
  - destruct probe as [| |l]; simpl; try reflexivity.
    destruct (FFProbe.firstAudioStream l); reflexivity.
  - destruct probe as [| |l]; simpl; try reflexivity.
    destruct (FFProbe.firstAudioStream l); reflexivity.
  - destruct probe as [| |l]; simpl; try reflexivity.
    destruct (FFProbe.firstAudioStream l); reflexivity.
Qed.

End MetadataProperties.

Lemma extractMetadata_fallbacks_witness :
  FFProbe.firstAudioStream video_only = None
  /\ metadata (extractMetadata (fun _ => None) (FFProbe.Parsed video_only)
                 (fst (NewStreamAnalyzer emptyRuntime)))
     = ("Unknown"%string, 128000, 44100).
Proof.
  split; [reflexivity|].
  apply (extractMetadata_fallbacks (fun _ => None)
           (fst (NewStreamAnalyzer emptyRuntime)) video_only).
  reflexivity.
Defined.

(** C3, as stated: after a failed probe the published bitrate and sample
    rate are not 128000 and 44100. *)
Lemma probe_failure_publishes_zero :
  ~ (Bitrate (stats (extractMetadata (fun _ => None) FFProbe.ProbeFailed
                       (fst (NewStreamAnalyzer emptyRuntime)))) = 128000
     /\ SampleRate (stats (extractMetadata (fun _ => None) FFProbe.ProbeFailed
                             (fst (NewStreamAnalyzer emptyRuntime)))) = 44100).
Proof. intros [H _]. vm_compute in H. discriminate H. Qed.

(** ** Playback controller *)

Section PlayerProperties.

(** C2, as the code behaves: [Stop] returns an error exactly when a process
    is running and the termination signal fails, and the process handle is
    present afterwards exactly in that case; when no process runs, when the
    process exits in the grace period and when it is killed after it, the
    handle is empty on return. *)
Theorem Stop_clears_handle_unless_signal_fails (signal_ok exited : bool)
    (sys : System) :
  let failed := hasProcess (player sys) && negb signal_ok in
  hasProcess (player (snd (Stop signal_ok exited sys))) = failed
  /\ fst (Stop signal_ok exited sys) = (if failed then Some ErrSignal else None)
  /\ (failed = true ->
      cmd (player (snd (Stop signal_ok exited sys))) = cmd (player sys)
      /\ procs (snd (Stop signal_ok exited sys)) = procs sys).
Proof.
  unfold Stop, hasProcess.
  destruct (cmd (player sys)) as [[args [pid|]]|] eqn:E; simpl;
    destruct signal_ok, exited; simpl; rewrite ?E;
    repeat split; try reflexivity; try discriminate.
Qed.

Lemma Stop_clears_handle_unless_signal_fails_witness :
  hasProcess (player playing) && negb false = true
  /\ cmd (player (snd (Stop false true playing))) = cmd (player playing)
  /\ procs (snd (Stop false true playing)) = procs playing.
Proof.
  split; [reflexivity|].
  apply (Stop_clears_handle_unless_signal_fails false true playing).
  reflexivity.
Defined.

(** C2, as stated: with a process running and a failing termination signal,
    the handle is still there when [Stop] returns. *)
Lemma Stop_signal_failure_keeps_handle :
  hasProcess (player playing) = true
  /\ fst (Stop false true playing) = Some ErrSignal
  /\ hasProcess (player (snd (Stop false true playing))) <> false.
Proof. repeat split; vm_compute; discriminate. Qed.

(** A second [Start] while the handle is present changes nothing. *)
Lemma Start_already_running resolved spawn_ok now (sys : System) :
  hasProcess (player sys) = true ->
  Start resolved spawn_ok now sys = (Some ErrAlreadyRunning, sys).
Proof. unfold Start. intros ->. reflexivity. Qed.

(** C9 on the code: after [Start], [Restart], the reaper of the first
    process, and a second [Restart], every step being enabled, the second
    and the third process are both running; the second [Stop] found the
    handle empty although the second process was alive. *)
Theorem two_restarts_two_live_processes :
  exists mid final,
    run initial (firstn 4 two_restarts) = Some mid
    /\ hasProcess (player mid) = false /\ live mid = [1%nat]
    /\ run mid (skipn 4 two_restarts) = Some final
    /\ run initial two_restarts = Some final
    /\ live final = [1%nat; 2%nat]
    /\ List.length (live final) = 2%nat.
Proof.
  eexists; eexists.
  split; [vm_compute; reflexivity|].
  repeat split; vm_compute; reflexivity.
Qed.

End PlayerProperties.

(** ** Analyzer sessions *)

Section SessionProperties.

(** [StartAnalysis] resets the counters, the ring, the buffer accumulator
    and the start times; it keeps the context and the first-audio time. *)
Lemma StartAnalysis_resets sa url now rt :
  let sa' := fst (StartAnalysis sa url now rt) in
  successfulRequests sa' = 0 /\ failedRequests sa' = 0
  /\ requestTimes sa' = [] /\ bufferUsed sa' = 0
  /\ startTime sa' = now /\ lastDownloadTime sa' = now
  /\ lastRequestTime sa' = 0 /\ StartTime (stats sa') = now
  /\ ctx sa' = ctx sa /\ firstAudio sa' = firstAudio sa
  /\ ctx_cancelled (snd (StartAnalysis sa url now rt)) = ctx_cancelled rt.
Proof. repeat split. Qed.

Lemma StartAnalysis_goroutines sa url now rt :
  goroutines (snd (StartAnalysis sa url now rt))
  = goroutines rt ++
      [(TExtractMetadata url, ctx sa); (TMonitorDownloadSpeed url, ctx sa);
       (TMonitorBuffer, ctx sa); (TMonitorNetworkQuality url, ctx sa)].
Proof. reflexivity. Qed.

(** C1 on the code: in the session started after [StopAnalysis] the four
    goroutines select on the one context made by [NewStreamAnalyzer], which
    is cancelled, so each monitor loop returns at its first [select]; the
    first-audio time of the earlier session is kept as well. *)
Theorem second_session_runs_on_cancelled_context :
  let '(sa, rt) := second_session in
  ctx sa = ctx (fst (NewStreamAnalyzer emptyRuntime))
  /\ List.length (ctx_cancelled rt) = 1%nat
  /\ is_cancelled rt (ctx sa) = true
  /\ map snd (skipn 4 (goroutines rt)) = [ctx sa; ctx sa; ctx sa; ctx sa]
  /\ (forall pick,
        monitor_select (is_cancelled rt (ctx sa)) false pick = LoopReturn)
  /\ firstAudio sa = 1501
  /\ successfulRequests sa = 0 /\ failedRequests sa = 0
  /\ requestTimes sa = [] /\ bufferUsed sa = 0.
Proof.
  vm_compute. repeat split.
Qed.

(** C10: with no completed request (both counters zero) the stability is
    exactly 100; and [StartAnalysis], on any analyzer, used or not, leaves a
    snapshot with stability 100 and both counters at zero, for which the
    stability is computed as 100 again. *)
Theorem fresh_session_stability_100
    (sa : StreamAnalyzer) (url : string) (now : Time) (rt : Runtime) :
  (successfulRequests sa = 0 -> failedRequests sa = 0 ->
   calculateConnectionStability sa = 100%float)
  /\ (let sa' := fst (StartAnalysis sa url now rt) in
      ConnectionStability (stats sa') = 100%float
      /\ successfulRequests sa' = 0 /\ failedRequests sa' = 0
      /\ calculateConnectionStability sa' = 100%float).
Proof.
  split.
  - intros Hs Hf. unfold calculateConnectionStability. rewrite Hs, Hf.
    reflexivity.
  - repeat split.
Qed.

Lemma fresh_session_stability_100_witness :
  successfulRequests (fst (NewStreamAnalyzer emptyRuntime)) = 0
  /\ failedRequests (fst (NewStreamAnalyzer emptyRuntime)) = 0
  /\ calculateConnectionStability (fst (NewStreamAnalyzer emptyRuntime))
     = 100%float
  /\ successfulRequests slow_session = 3
  /\ failedRequests slow_session = 1
  /\ ConnectionStability
       (stats (fst (StartAnalysis slow_session "http://radio/b" 9000
                      emptyRuntime)))
     = 100%float
  /\ calculateConnectionStability
       (fst (StartAnalysis slow_session "http://radio/b" 9000 emptyRuntime))
     = 100%float.
Proof.
  split; [reflexivity|]. split; [reflexivity|].
  split.
  { apply (fresh_session_stability_100 (fst (NewStreamAnalyzer emptyRuntime))
             "http://radio/a" 1000 emptyRuntime); reflexivity. }
  split; [reflexivity|]. split; [reflexivity|].
  destruct (fresh_session_stability_100 slow_session "http://radio/b" 9000
              emptyRuntime) as [_ (Hstats & _ & _ & Hcalc)].
  split; [exact Hstats|exact Hcalc].
Defined.

End SessionProperties.

(** ** Connection stability *)

Section StabilityProperties.

Open Scope float_scope.

(** The success rate, scaled or not, is a number. *)
Lemma success_rate_not_nan (s t : Z) :
  Int64.in_range t -> t <> 0%Z ->
  SF_is_nan (Prim2SF (F64.of_int s / F64.of_int t * 100)) = false
  /\ SF_is_nan (Prim2SF (F64.of_int s / F64.of_int t * 100 * 0.8)) = false.
Proof.
  intros Hr Ht.
  assert (H1 : SF_is_nan (Prim2SF (F64.of_int s / F64.of_int t * 100)) = false).
  { rewrite FloatAxioms.mul_spec. apply SF64mul_not_nan; [|reflexivity].
    rewrite FloatAxioms.div_spec. apply SF64div_not_nan.
    - apply of_int_finite_or_zero.
    - apply of_int_finite; assumption. }
  split; [exact H1|].
  rewrite FloatAxioms.mul_spec. apply SF64mul_not_nan; [exact H1|reflexivity].
Qed.

(** C7, as the code behaves: with at least one completed request the
    stability is the success rate x 100, multiplied by 0.8 when at least
    two durations are recorded and their average exceeds two seconds, kept
    within [0,100]; and for all counts the stability lies in [0,100]. *)
Theorem connection_stability_formula_and_range (sa : StreamAnalyzer) :
  (Int64.add (successfulRequests sa) (failedRequests sa) <> 0%Z ->
   calculateConnectionStability sa
   = Spec.stability (successfulRequests sa) (failedRequests sa)
       (slowRequests (requestTimes sa)))
  /\ (0 <=? calculateConnectionStability sa) = true
  /\ (calculateConnectionStability sa <=? 100) = true.
Proof.
  unfold calculateConnectionStability, Spec.stability, slowRequests.
  set (t := Int64.add (successfulRequests sa) (failedRequests sa)).
  split.
  - intros Ht. apply Z.eqb_neq in Ht. rewrite Ht.
    unfold clamp_0_100, gtb.
    destruct (len (requestTimes sa) >? 1)%Z; cbn [andb];
      [destruct (_ >? 2 * Second)%Z|];
      match goal with |- context [if (?x <? 0) then _ else _] =>
        destruct (x <? 0) end; reflexivity.
  - destruct (t =? 0)%Z eqn:Et; [split; reflexivity|].
    apply Z.eqb_neq in Et.
    destruct (success_rate_not_nan (successfulRequests sa) t
                (wrap_in_range _) Et) as [H1 H2].
    apply clamp_0_100_bounds.
    destruct (len (requestTimes sa) >? 1)%Z;
      [destruct (_ >? 2 * Second)%Z|]; now apply SF_is_nan_false.
Qed.

Lemma connection_stability_formula_and_range_witness :
  Int64.add (successfulRequests slow_session) (failedRequests slow_session)
    <> 0%Z
  /\ calculateConnectionStability slow_session = Spec.stability 3 1 true.
Proof.
  split; [vm_compute; discriminate|].
  apply (connection_stability_formula_and_range slow_session).
  vm_compute; discriminate.
Defined.

(** C7, as stated: one recorded request of three seconds has an average
    above two seconds, yet the stability is 100 and not 100 x 0.8. *)
Lemma one_slow_request_not_penalised :
  (Spec.mean (requestTimes one_slow_request) >? 2 * Second)%Z = true
  /\ calculateConnectionStability one_slow_request = 100
  /\ calculateConnectionStability one_slow_request
     <> F64.of_int 1 / F64.of_int (1 + 0) * 100 * 0.8.
Proof.
  repeat split; try (vm_compute; reflexivity).
  intros H.
  assert (E : (calculateConnectionStability one_slow_request =? 100) = true)
    by (vm_compute; reflexivity).
  rewrite H in E. vm_compute in E. discriminate E.
Qed.

End StabilityProperties.

(** ** Jitter *)

Section JitterProperties.

Lemma wrap_id z : Int64.in_range z -> Int64.wrap z = z.
Proof.
  unfold Int64.in_range, Int64.wrap, Int64.min_signed, Int64.max_signed,
    Int64.modulus, Int64.half_modulus.
  intros H. rewrite Z.mod_small; lia.
Qed.

Lemma quot_nonneg_id x n :
  0 <= x <= Int64.max_signed -> 0 < n ->
  Int64.quot x n = Z.quot x n /\ 0 <= Z.quot x n <= x.
Proof.
  intros Hx Hn.
  assert (H : 0 <= Z.quot x n <= x).
  { rewrite Z.quot_div_nonneg by lia. split.
    - apply Z.div_pos; lia.
    - apply Z.div_le_upper_bound; nia. }
  split; [|exact H].
  apply wrap_id. unfold Int64.in_range, Int64.min_signed, Int64.max_signed,
    Int64.half_modulus in *. lia.
Qed.

Lemma total_cons x l : Spec.total (x :: l) = x + Spec.total l.
Proof. reflexivity. Qed.

Lemma total_nonneg rts : Forall (fun rt => 0 <= rt) rts -> 0 <= Spec.total rts.
Proof.
  induction 1 as [|x l Hx Hl IH]; [reflexivity|]. rewrite total_cons. lia.
Qed.

Lemma total_squares_nonneg avg rts :
  0 <= Spec.total (map (fun rt => (rt - avg) * (rt - avg)) rts).
Proof.
  apply total_nonneg, Forall_forall. intros x Hx.
  apply in_map_iff in Hx as (y & <- & _). apply Z.square_nonneg.
Qed.

Lemma le_total rts rt :
  Forall (fun rt => 0 <= rt) rts -> In rt rts -> 0 <= rt <= Spec.total rts.
Proof.
  induction 1 as [|x l Hx Hl IH]; [contradiction|].
  pose proof (total_nonneg l Hl). rewrite total_cons.
  intros [->|Hin]; [lia|]. specialize (IH Hin). lia.
Qed.

Lemma fold_add_total rts : forall acc,
  0 <= acc -> Forall (fun rt => 0 <= rt) rts ->
  acc + Spec.total rts <= Int64.max_signed ->
  fold_left (fun sum rt => Int64.add sum rt) rts acc = acc + Spec.total rts.
Proof.
  induction rts as [|rt rts IH]; intros acc Hacc Hall Hb.
  - cbn [fold_left]. change (Spec.total []) with 0. lia.
  - inversion Hall as [|? ? Hrt Hrest]; subst.
    pose proof (total_nonneg rts Hrest).
    rewrite total_cons in *. cbn [fold_left].
    assert (E : Int64.add acc rt = acc + rt).
    { apply wrap_id. unfold Int64.in_range, Int64.min_signed, Int64.max_signed,
        Int64.half_modulus in *. lia. }
    rewrite E, IH; try assumption; lia.
Qed.

Lemma fold_squares rts avg : forall acc,
  0 <= acc ->
  Forall (fun rt => Int64.in_range (rt - avg)) rts ->
  acc + Spec.total (map (fun rt => (rt - avg) * (rt - avg)) rts)
    <= Int64.max_signed ->
  fold_left
    (fun variance rt =>
       Int64.add variance (Int64.mul (Int64.sub rt avg) (Int64.sub rt avg)))
    rts acc
  = acc + Spec.total (map (fun rt => (rt - avg) * (rt - avg)) rts).
Proof.
  induction rts as [|rt rts IH]; intros acc Hacc Hall Hb.
  - cbn [fold_left map]. change (Spec.total []) with 0. lia.
  - inversion Hall as [|? ? Hrt Hrest]; subst.
    pose proof (total_squares_nonneg avg rts) as Hsq.
    cbn [map fold_left] in *. rewrite total_cons in *.
    assert (E1 : Int64.sub rt avg = rt - avg) by (apply wrap_id; assumption).
    pose proof (Z.square_nonneg (rt - avg)) as Hd.
    set (d := (rt - avg) * (rt - avg)) in *.
    assert (E2 : Int64.mul (rt - avg) (rt - avg) = d).
    { apply wrap_id. unfold Int64.in_range, Int64.min_signed, Int64.max_signed,
        Int64.half_modulus in *. lia. }
    assert (E3 : Int64.add acc d = acc + d).
    { apply wrap_id. unfold Int64.in_range, Int64.min_signed, Int64.max_signed,
        Int64.half_modulus in *. lia. }
    rewrite E1, E2, E3, IH; try assumption; lia.
Qed.

Lemma calculateJitter_short rts : len rts < 2 -> calculateJitter rts = 0.
Proof.
  intros H. unfold calculateJitter.
  apply Z.ltb_lt in H. now rewrite H.
Qed.

(** As long as the sum of the durations and the sum of the squared
    deviations fit in 64 bits, the jitter is half the population variance
    (the variance converted to float64 and the half truncated again). *)
Lemma calculateJitter_no_overflow rts :
  Forall (fun rt => 0 <= rt) rts ->
  Spec.total rts <= Int64.max_signed ->
  Spec.total (map (fun rt => (rt - Spec.mean rts) * (rt - Spec.mean rts)) rts)
    <= Int64.max_signed ->
  calculateJitter rts
  = if len rts <? 2 then 0
    else F64.to_int (F64.of_int (Spec.popVariance rts) * 0.5)%float.
Proof.
  intros Hall Hsum Hsq. unfold calculateJitter.
  destruct (len rts <? 2) eqn:Elen; [reflexivity|].
  apply Z.ltb_ge in Elen.
  pose proof (total_nonneg rts Hall) as H0.
  assert (Es : sum_durations rts = Spec.total rts).
  { unfold sum_durations. rewrite fold_add_total; try assumption; lia. }
  rewrite Es.
  destruct (quot_nonneg_id (Spec.total rts) (len rts)) as [Eq Hq]; try lia.
  rewrite Eq. fold (Spec.mean rts) in *.
  rewrite fold_squares; try lia.
  - assert (Hsq0 : 0 <= Spec.total
        (map (fun rt => (rt - Spec.mean rts) * (rt - Spec.mean rts)) rts)).
    { apply total_nonneg. apply Forall_forall. intros x Hx.
      apply in_map_iff in Hx as (y & <- & _). apply Z.square_nonneg. }
    rewrite Z.add_0_l.
    destruct (quot_nonneg_id _ (len rts) (conj Hsq0 Hsq)) as [Eq' _]; try lia.
    rewrite Eq'. reflexivity.
  - apply Forall_forall. intros rt Hin.
    pose proof (le_total rts rt Hall Hin).
    unfold Int64.in_range, Int64.min_signed, Int64.max_signed,
      Int64.half_modulus in *. lia.
Qed.

(** Two requests of 100ms and 300ms: nothing wraps, the jitter is half of
    the variance of 10^16 ns^2. *)
Example calculateJitter_100ms_300ms :
  calculateJitter [100 * Millisecond; 300 * Millisecond]
  = Spec.popVariance [100 * Millisecond; 300 * Millisecond] / 2
  /\ calculateJitter [100 * Millisecond; 300 * Millisecond]
     = 5000000000000000.
Proof.
  rewrite calculateJitter_no_overflow.
  - split; vm_compute; reflexivity.
  - repeat constructor; vm_compute; discriminate.
  - vm_compute; discriminate.
  - vm_compute; discriminate.
Qed.

(** C8 on the code: for the ring of a one-second and a nine-second request
    the population variance is 16 x 10^18 ns^2, half of it fits a duration,
    but the squared deviations wrap around in 64 bits and the jitter
    returned is negative. *)
Theorem jitter_wraps_on_wide_spread :
  Spec.mean ring_1s_9s = 5 * Second
  /\ Spec.popVariance ring_1s_9s = 16000000000000000000
  /\ Spec.popVariance ring_1s_9s / 2 <= Int64.max_signed
  /\ calculateJitter ring_1s_9s = -1223372036854775808
  /\ calculateJitter ring_1s_9s <> Spec.popVariance ring_1s_9s / 2.
Proof. repeat split; vm_compute; discriminate. Qed.

End JitterProperties.

(** ** [formatBytes] *)

Section FormatBytesProperties.

Lemma pow1024_pos k : 0 <= k -> 0 < 1024 ^ k.
Proof. intros. apply Z.pow_pos_nonneg; lia. Qed.

Lemma formatBytes_loop_spec fuel : forall n div exp,
  0 <= n < 1024 ^ (Z.of_nat fuel + 1) ->
  0 < div -> div * n <= Int64.max_signed ->
  0 <= exp -> exp + Z.of_nat fuel <= Int64.max_signed ->
  exists k : nat,
    (k <= fuel)%nat
    /\ formatBytes_loop fuel n div exp
       = Some (div * 1024 ^ Z.of_nat k, exp + Z.of_nat k)
    /\ n < 1024 ^ (Z.of_nat k + 1)
    /\ (k = 0%nat \/ 1024 ^ Z.of_nat k <= n).
Proof.
  induction fuel as [|fuel IH]; intros n div exp Hn Hdiv Hmax Hexp Hexpmax.
  - exists 0%nat. cbn [formatBytes_loop]. unfold unit.
    change (1024 ^ (Z.of_nat 0 + 1)) with 1024 in *.
    destruct (n >=? 1024) eqn:E; [apply Z.geb_le in E; lia|].
    repeat split; try lia. f_equal. f_equal; cbn; lia.
  - cbn [formatBytes_loop]. unfold unit.
    destruct (n >=? 1024) eqn:E.
    + apply Z.geb_le in E.
      assert (Hmax' : Int64.max_signed = 2 ^ 63 - 1) by reflexivity.
      destruct (quot_nonneg_id n 1024) as [Eq Hq]; [nia|lia|].
      rewrite Eq, Z.quot_div_nonneg in * by lia.
      assert (Em : Int64.mul div 1024 = div * 1024).
      { apply wrap_id. unfold Int64.in_range, Int64.min_signed,
          Int64.half_modulus. nia. }
      assert (Ea : Int64.add exp 1 = exp + 1).
      { apply wrap_id. unfold Int64.in_range, Int64.min_signed,
          Int64.half_modulus. lia. }
      rewrite Em, Ea.
      assert (Hn' : 0 <= n / 1024 < 1024 ^ (Z.of_nat fuel + 1)).
      { split; [apply Z.div_pos; lia|].
        apply Z.div_lt_upper_bound; [lia|].
        replace (Z.of_nat (S fuel) + 1) with (Z.succ (Z.of_nat fuel + 1)) in Hn by lia.
        rewrite Z.pow_succ_r in Hn by lia. lia. }
      pose proof (Z.mul_div_le n 1024 ltac:(lia)) as Hmd.
      destruct (IH (n / 1024) (div * 1024) (exp + 1)) as (k & Hk & Hloop & Hlt & Hge);
        try lia; [nia|].
      exists (S k). rewrite Hloop.
      replace (Z.of_nat (S k)) with (Z.succ (Z.of_nat k)) by lia.
      rewrite !Z.pow_succ_r by lia.
      pose proof (pow1024_pos (Z.of_nat k) ltac:(lia)) as Hp.
      repeat split; try lia.
      * f_equal. f_equal; lia.
      * replace (Z.succ (Z.of_nat k) + 1) with (Z.succ (Z.of_nat k + 1)) by lia.
        rewrite Z.pow_succ_r by lia.
        pose proof (Z.mod_pos_bound n 1024 ltac:(lia)).
        pose proof (Z.div_mod n 1024 ltac:(lia)). lia.
      * right. destruct Hge as [->|Hge]; [cbn; lia|]. lia.
    + exists 0%nat. rewrite Z.geb_leb in E. apply Z.leb_gt in E.
      repeat split; try lia.
      f_equal. f_equal; cbn; lia.
Qed.

Lemma formatBytes_unit_spec (bytes : Z) :
  Int64.in_range bytes -> 1024 <= bytes ->
  exists k : nat,
    (k <= 5)%nat
    /\ formatBytes_unit bytes = Some (1024 * 1024 ^ Z.of_nat k, Z.of_nat k)
    /\ 1024 * 1024 ^ Z.of_nat k <= bytes < 1024 * (1024 * 1024 ^ Z.of_nat k).
Proof.
  intros Hr Hb. unfold Int64.in_range, Int64.min_signed, Int64.max_signed,
    Int64.half_modulus in Hr.
  unfold formatBytes_unit, unit.
  destruct (quot_nonneg_id bytes 1024) as [Eq Hq];
    [unfold Int64.max_signed, Int64.half_modulus; lia|lia|].
  rewrite Eq, Z.quot_div_nonneg in * by lia.
  pose proof (Z.mul_div_le bytes 1024 ltac:(lia)) as Hmd.
  pose proof (Z.mod_pos_bound bytes 1024 ltac:(lia)) as Hmod.
  pose proof (Z.div_mod bytes 1024 ltac:(lia)) as Hdm.
  destruct (formatBytes_loop_spec 64 (bytes / 1024) 1024 0)
    as (k & Hk & Hloop & Hlt & Hge).
  { split; [lia|]. apply Z.div_lt_upper_bound; [lia|].
    change (1024 ^ (Z.of_nat 64 + 1)) with (2 ^ 650).
    assert (2 ^ 63 < 1024 * 2 ^ 650) by (vm_compute; reflexivity). lia. }
  { lia. }
  { unfold Int64.max_signed, Int64.half_modulus. lia. }
  { lia. }
  { unfold Int64.max_signed, Int64.half_modulus. lia. }
  assert (Hlow : 1024 * 1024 ^ Z.of_nat k <= bytes).
  { destruct Hge as [->|Hge]; [cbn; lia|lia]. }
  assert (Hk5 : (k <= 5)%nat).
  { destruct (le_lt_dec k 5) as [|Hgt]; [assumption|exfalso].
    assert (1024 ^ 6 <= 1024 ^ Z.of_nat k)
      by (apply Z.pow_le_mono_r; lia).
    assert (2 ^ 63 < 1024 * 1024 ^ 6) by (vm_compute; reflexivity). lia. }
  assert (Hup : bytes < 1024 * (1024 * 1024 ^ Z.of_nat k)).
  { replace (Z.of_nat k + 1) with (Z.succ (Z.of_nat k)) in Hlt by lia.
    rewrite Z.pow_succ_r in Hlt by lia. lia. }
  exists k. rewrite Hloop. repeat split; try lia.
Qed.

Lemma byte_at_KMGTPE (k : nat) :
  (k <= 5)%nat -> exists c, byte_at "KMGTPE" (Z.of_nat k) = Some c.
Proof.
  intros Hk. do 6 (destruct k as [|k]; [eexists; reflexivity|]). lia.
Qed.

(** [formatBytes] returns for every 64-bit integer.  Below 1024, negative
    values included, the result is the number followed by " B"; from 1024 on
    the loop stops with [div = 1024^(exp+1)], [div <= bytes < 1024 * div] and
    [exp <= 5], so the index into "KMGTPE" is in range. *)
Theorem formatBytes_returns (bytes : Z) :
  Int64.in_range bytes ->
  (bytes < 1024 ->
   formatBytes bytes = Returned (Sprintf.int_d bytes ++ " B")%string)
  /\ (1024 <= bytes ->
      exists div exp c,
        formatBytes_unit bytes = Some (div, exp)
        /\ 0 <= exp <= 5 /\ div = 1024 ^ (exp + 1)
        /\ div <= bytes < 1024 * div
        /\ byte_at "KMGTPE" exp = Some c
        /\ formatBytes bytes
           = Returned (Sprintf.fixed 1 (F64.of_int bytes / F64.of_int div)%float
                       ++ " " ++ String c "B")%string).
Proof.
  intros Hr. split; intros Hb.
  - unfold formatBytes, unit. apply Z.ltb_lt in Hb. now rewrite Hb.
  - destruct (formatBytes_unit_spec bytes Hr Hb) as (k & Hk & Hunit & Hrange).
    destruct (byte_at_KMGTPE k Hk) as [c Hc].
    exists (1024 * 1024 ^ Z.of_nat k), (Z.of_nat k), c.
    unfold formatBytes, unit. rewrite Hunit, Hc.
    replace (bytes <? 1024) with false by (symmetry; apply Z.ltb_ge; lia).
    repeat split; try lia.
    replace (Z.of_nat k + 1) with (Z.succ (Z.of_nat k)) by lia.
    now rewrite Z.pow_succ_r by lia.
Qed.

Lemma formatBytes_returns_witness :
  Int64.in_range 1536
  /\ 1024 <= 1536
  /\ exists div exp c,
       formatBytes_unit 1536 = Some (div, exp)
       /\ 0 <= exp <= 5 /\ div = 1024 ^ (exp + 1)
       /\ div <= 1536 < 1024 * div
       /\ byte_at "KMGTPE" exp = Some c
       /\ formatBytes 1536
          = Returned (Sprintf.fixed 1 (F64.of_int 1536 / F64.of_int div)%float
                      ++ " " ++ String c "B")%string.
Proof.
  assert (Hr : Int64.in_range 1536) by (vm_compute; split; discriminate).
  split; [exact Hr|]. split; [lia|].
  apply (formatBytes_returns 1536 Hr). lia.
Defined.

End FormatBytesProperties.

(** ** Runs of a session *)

Section RunProperties.

Variable sscan_int : string -> option Z.

Lemma analyzer_run_snoc sa evs ev :
  analyzer_run sscan_int sa (evs ++ [ev])
  = analyzer_step sscan_int (analyzer_run sscan_int sa evs) ev.
Proof. unfold analyzer_run. now rewrite fold_left_app. Qed.

Lemma analyzer_run_app sa evs1 evs2 :
  analyzer_run sscan_int sa (evs1 ++ evs2)
  = analyzer_run sscan_int (analyzer_run sscan_int sa evs1) evs2.
Proof. unfold analyzer_run. now rewrite fold_left_app. Qed.

(** A tick in which no other task gets the lock is the sequence of its
    critical sections, each publishing what the tick has just read. *)
Lemma downloadSpeedTick_events ok rs d now sa :
  analyzer_run sscan_int sa
    [AeDownloadCount ok rs d;
     AeDownloadPublish (downloadEstimate (downloadCount ok rs d sa)) now]
  = downloadSpeedTick ok rs d now sa.
Proof. reflexivity. Qed.

Lemma bufferTick_events now now' sa :
  analyzer_run sscan_int sa
    [AeBufferFill now; AeBufferPublish (snd (bufferFill now sa)) now']
  = bufferTick now now' sa.
Proof.
  unfold bufferTick, analyzer_run. cbn [fold_left analyzer_step].
  now destruct (bufferFill now sa).
Qed.

Lemma networkQualityTick_events sa :
  analyzer_run sscan_int sa
    [AeQualityPublish
       (packetLossOf (fst (qualitySnapshot sa)) (failedRequests sa))
       (calculateJitter (snd (qualitySnapshot sa)))
       (calculateConnectionStability sa)]
  = networkQualityTick sa.
Proof. reflexivity. Qed.

Lemma extractMetadata_preserves probe sa :
  let sa' := extractMetadata sscan_int probe sa in
  requestTimes sa' = requestTimes sa
  /\ successfulRequests sa' = successfulRequests sa
  /\ failedRequests sa' = failedRequests sa
  /\ bufferUsed sa' = bufferUsed sa /\ bufferSize sa' = bufferSize sa
  /\ firstAudio sa' = firstAudio sa
  /\ Latency (stats sa') = Latency (stats sa).
Proof.
  destruct probe as [| |l]; cbn; try (repeat split; reflexivity).
  destruct (FFProbe.firstAudioStream l); repeat split; reflexivity.
Qed.

(** The first section of the buffer monitor writes [bufferUsed] and
    [lastDownloadTime] only. *)
Lemma bufferFill_preserves now sa :
  let sa' := fst (bufferFill now sa) in
  stats sa' = stats sa
  /\ requestTimes sa' = requestTimes sa
  /\ successfulRequests sa' = successfulRequests sa
  /\ failedRequests sa' = failedRequests sa
  /\ bufferSize sa' = bufferSize sa
  /\ firstAudio sa' = firstAudio sa.
Proof.
  unfold bufferFill. destruct (gtb _ 0); cbn; repeat split; reflexivity.
Qed.

(** Its second section writes the statistics and [firstAudio] only. *)
Lemma bufferPublish_preserves bufferHealth now' sa :
  let sa' := bufferPublish bufferHealth now' sa in
  requestTimes sa' = requestTimes sa
  /\ successfulRequests sa' = successfulRequests sa
  /\ failedRequests sa' = failedRequests sa
  /\ bufferUsed sa' = bufferUsed sa /\ bufferSize sa' = bufferSize sa
  /\ Bitrate (stats sa') = Bitrate (stats sa)
  /\ NetworkQuality (stats sa') = assessNetworkQuality (stats sa').
Proof.
  unfold bufferPublish.
  destruct (firstAudio sa =? 0); cbn; repeat split; reflexivity.
Qed.

(** The first section of the download monitor leaves the statistics, the
    buffer and the first-audio time alone. *)
Lemma downloadCount_preserves ok rs d sa :
  let sa' := downloadCount ok rs d sa in
  stats sa' = stats sa
  /\ bufferUsed sa' = bufferUsed sa /\ bufferSize sa' = bufferSize sa
  /\ firstAudio sa' = firstAudio sa.
Proof. destruct ok; cbn; repeat split; reflexivity. Qed.

(** What one event does to the ring and the two counters. *)
Lemma analyzer_step_requests sa ev :
  let sa' := analyzer_step sscan_int sa ev in
  requestTimes sa'
  = match ev with
    | AeDownloadCount true _ d => keep_last_10 (requestTimes sa ++ [d])
    | _ => requestTimes sa
    end
  /\ successfulRequests sa'
     = match ev with
       | AeDownloadCount true _ _ => Int64.add (successfulRequests sa) 1
       | _ => successfulRequests sa
       end
  /\ failedRequests sa'
     = match ev with
       | AeDownloadCount false _ _ => Int64.add (failedRequests sa) 1
       | _ => failedRequests sa
       end.
Proof.
  destruct ev as [probe|ok rs d|est now|now|health now'|loss jitter stability];
    cbn [analyzer_step].
  - destruct (extractMetadata_preserves probe sa) as (A & B & C & _). auto.
  - destruct ok; cbn; auto.
  - cbn; auto.
  - destruct (bufferFill_preserves now sa) as (_ & A & B & C & _). auto.
  - destruct (bufferPublish_preserves health now' sa) as (A & B & C & _). auto.
  - cbn; auto.
Qed.

Lemma skipn_S_tl {A} (k : nat) : forall l : list A,
  skipn (S k) l = tl (skipn k l).
Proof.
  induction k as [|k IH]; intros l.
  - destruct l; reflexivity.
  - destruct l as [|x l]; [reflexivity|].
    change (skipn (S (S k)) (x :: l)) with (skipn (S k) l).
    change (skipn (S k) (x :: l)) with (skipn k l). apply IH.
Qed.

Lemma last_n_snoc (l : list Duration) (d : Duration) :
  last_n 10 (l ++ [d]) = keep_last_10 (last_n 10 l ++ [d]).
Proof.
  unfold last_n, keep_last_10, len.
  rewrite length_app. cbn [List.length].
  destruct (le_lt_dec 10 (List.length l)) as [Hge|Hlt].
  - replace (List.length l + 1 - 10)%nat with (S (List.length l - 10)) by lia.
    rewrite skipn_S_tl, skipn_app.
    replace (List.length l - 10 - List.length l)%nat with 0%nat by lia.
    cbn [skipn]. rewrite length_app, length_skipn. cbn [List.length].
    replace (Z.of_nat (List.length l - (List.length l - 10) + 1) >? 10)
      with true; [reflexivity|].
    symmetry. rewrite Z.gtb_ltb. apply Z.ltb_lt. lia.
  - replace (List.length l + 1 - 10)%nat with 0%nat by lia.
    replace (List.length l - 10)%nat with 0%nat by lia.
    cbn [skipn]. rewrite length_app. cbn [List.length].
    replace (Z.of_nat (List.length l + 1) >? 10) with false; [reflexivity|].
    symmetry. rewrite Z.gtb_ltb. apply Z.ltb_ge. lia.
Qed.

Lemma count_failed_app evs1 evs2 :
  count_failed (evs1 ++ evs2) = (count_failed evs1 + count_failed evs2)%nat.
Proof. unfold count_failed. now rewrite filter_app, length_app. Qed.

Lemma ok_durations_app evs1 evs2 :
  ok_durations (evs1 ++ evs2) = ok_durations evs1 ++ ok_durations evs2.
Proof. unfold ok_durations. apply flat_map_app. Qed.

Lemma add_1_in_range z :
  Int64.in_range z -> z < Int64.max_signed -> Int64.add z 1 = z + 1.
Proof.
  intros Hr Hz. unfold Int64.add. apply wrap_id.
  unfold Int64.in_range, Int64.min_signed, Int64.max_signed,
    Int64.half_modulus in *. lia.
Qed.

(** The counters after a run, from any state, while they do not wrap. *)
Lemma analyzer_run_counters sa evs :
  Int64.in_range (successfulRequests sa) ->
  Int64.in_range (failedRequests sa) ->
  successfulRequests sa + Z.of_nat (List.length evs) <= Int64.max_signed ->
  failedRequests sa + Z.of_nat (List.length evs) <= Int64.max_signed ->
  successfulRequests (analyzer_run sscan_int sa evs)
  = successfulRequests sa + Z.of_nat (List.length (ok_durations evs))
  /\ failedRequests (analyzer_run sscan_int sa evs)
     = failedRequests sa + Z.of_nat (count_failed evs)
  /\ (List.length (ok_durations evs) + count_failed evs
      <= List.length evs)%nat.
Proof.
  intros Hrs Hrf.
  induction evs as [|ev evs IH] using rev_ind; intros Hs Hf.
  - cbn. repeat split; lia.
  - rewrite length_app in Hs, Hf. cbn [List.length] in Hs, Hf.
    destruct IH as (IHs & IHf & IHc); [lia|lia|].
    rewrite analyzer_run_snoc.
    destruct (analyzer_step_requests (analyzer_run sscan_int sa evs) ev)
      as (_ & Es & Ef).
    rewrite Es, Ef, IHs, IHf.
    rewrite ok_durations_app, count_failed_app, !length_app.
    unfold Int64.in_range, Int64.min_signed, Int64.max_signed,
      Int64.half_modulus in Hrs, Hrf.
    assert (Hadd : forall z, Int64.min_signed <= z < Int64.max_signed ->
              Int64.add z 1 = z + 1).
    { intros z Hz. apply add_1_in_range; [|lia].
      unfold Int64.in_range. lia. }
    unfold Int64.min_signed, Int64.max_signed, Int64.half_modulus in *.
    destruct ev as [probe|[|] rs d|est t|t|health t'|loss jitter stability];
      cbn [ok_durations count_failed flat_map filter app List.length];
      rewrite ?Hadd by lia; repeat split; lia.
Qed.

(** From [StartAnalysis] on, whatever the four tasks do and in whatever
    order, the ring holds the durations of the last ten successful HEAD
    requests, oldest first, and each counter holds the number of requests
    of its kind. *)
Theorem session_ring_and_counters sa url now rt (evs : list AnalyzerEvent) :
  Z.of_nat (List.length evs) <= Int64.max_signed ->
  let sa' := analyzer_run sscan_int (fst (StartAnalysis sa url now rt)) evs in
  requestTimes sa' = last_n 10 (ok_durations evs)
  /\ (List.length (requestTimes sa') <= 10)%nat
  /\ successfulRequests sa' = Z.of_nat (List.length (ok_durations evs))
  /\ failedRequests sa' = Z.of_nat (count_failed evs).
Proof.
  set (sa0 := fst (StartAnalysis sa url now rt)).
  assert (Hall : forall evs, Z.of_nat (List.length evs) <= Int64.max_signed ->
    requestTimes (analyzer_run sscan_int sa0 evs) = last_n 10 (ok_durations evs)
    /\ successfulRequests (analyzer_run sscan_int sa0 evs)
       = Z.of_nat (List.length (ok_durations evs))
    /\ failedRequests (analyzer_run sscan_int sa0 evs)
       = Z.of_nat (count_failed evs)
    /\ (List.length (ok_durations evs) + count_failed evs
        <= List.length evs)%nat).
  { clear evs. induction evs as [|ev evs IH] using rev_ind; intros Hlen.
    - repeat split; cbn; lia.
    - rewrite length_app in Hlen. cbn [List.length] in Hlen.
      destruct IH as (Hring & Hs & Hf & Hcount); [lia|].
      rewrite analyzer_run_snoc.
      destruct (analyzer_step_requests (analyzer_run sscan_int sa0 evs) ev)
        as (Er & Es & Ef).
      rewrite Er, Es, Ef, Hring, Hs, Hf.
      unfold ok_durations, count_failed in *.
      rewrite flat_map_app, filter_app, !length_app. cbn [flat_map filter].
      assert (Hadd : forall n : nat, Z.of_nat n < Int64.max_signed ->
                Int64.add (Z.of_nat n) 1 = Z.of_nat (n + 1)).
      { intros n Hn. unfold Int64.add. rewrite wrap_id; [lia|].
        unfold Int64.in_range, Int64.min_signed, Int64.max_signed,
          Int64.half_modulus in *. lia. }
      destruct ev as [probe|[|] rs d|est t|t|health t'|loss jitter stability];
        cbn [app List.length];
        rewrite ?app_nil_r, ?Nat.add_0_r; repeat split; try lia.
      + symmetry. apply last_n_snoc.
      + apply Hadd. lia.
      + apply Hadd. lia. }
  intros Hlen sa'. subst sa'.
  destruct (Hall evs Hlen) as (Hring & Hs & Hf & _).
  repeat split; try assumption.
  rewrite Hring. unfold last_n. rewrite length_skipn. lia.
Qed.

Lemma analyzer_step_buffer sa ev :
  bufferUsed sa <= bufferSize sa ->
  bufferUsed (analyzer_step sscan_int sa ev)
    <= bufferSize (analyzer_step sscan_int sa ev)
  /\ bufferSize (analyzer_step sscan_int sa ev) = bufferSize sa.
Proof.
  intros H.
  destruct ev as [probe|ok rs d|est now|now|health now'|loss jitter stability];
    cbn [analyzer_step].
  - destruct (extractMetadata_preserves probe sa) as (_ & _ & _ & -> & -> & _).
    auto.
  - destruct (downloadCount_preserves ok rs d sa) as (_ & -> & -> & _). auto.
  - cbn. auto.
  - unfold bufferFill. destruct (gtb _ 0); cbn; auto.
    destruct (Int64.add _ _ >? bufferSize sa) eqn:E; split; try reflexivity;
      try lia; rewrite Z.gtb_ltb in E; apply Z.ltb_ge in E; lia.
  - destruct (bufferPublish_preserves health now' sa)
      as (_ & _ & _ & -> & -> & _). auto.
  - cbn. auto.
Qed.

(** The simulated buffer never holds more than its capacity: in a session
    started on an analyzer of non-negative capacity, after any events of the
    tasks, [bufferUsed <= bufferSize], and the capacity is the initial one. *)
Theorem buffer_within_capacity sa url now rt (evs : list AnalyzerEvent) :
  0 <= bufferSize sa ->
  let sa' := analyzer_run sscan_int (fst (StartAnalysis sa url now rt)) evs in
  bufferUsed sa' <= bufferSize sa' /\ bufferSize sa' = bufferSize sa.
Proof.
  intros Hsize.
  induction evs as [|ev evs IH] using rev_ind.
  - cbn. auto.
  - cbn zeta in *. rewrite analyzer_run_snoc.
    destruct IH as [IH1 IH2].
    destruct (analyzer_step_buffer _ ev IH1) as [H1 H2].
    split; [exact H1|congruence].
Qed.

(** Only the metadata task writes the bitrate. *)
Lemma analyzer_step_bitrate sa ev :
  is_metadata ev = false ->
  Bitrate (stats (analyzer_step sscan_int sa ev)) = Bitrate (stats sa).
Proof.
  destruct ev as [probe|ok rs d|est now|now|health now'|loss jitter stability];
    cbn [analyzer_step is_metadata]; intros H; try discriminate H.
  - destruct (downloadCount_preserves ok rs d sa) as (-> & _). reflexivity.
  - reflexivity.
  - destruct (bufferFill_preserves now sa) as (-> & _). reflexivity.
  - apply bufferPublish_preserves.
  - reflexivity.
Qed.

Lemma analyzer_run_bitrate sa evs :
  forallb (fun ev => negb (is_metadata ev)) evs = true ->
  Bitrate (stats (analyzer_run sscan_int sa evs)) = Bitrate (stats sa).
Proof.
  induction evs as [|ev evs IH] using rev_ind; intros Hev; [reflexivity|].
  rewrite forallb_app in Hev. apply andb_prop in Hev as [Hevs Hev].
  cbn in Hev. rewrite andb_true_r in Hev. apply negb_true_iff in Hev.
  rewrite analyzer_run_snoc, analyzer_step_bitrate by exact Hev.
  now apply IH.
Qed.

(** An event either leaves the statistics as they are or recomputes the
    label from them. *)
Lemma analyzer_step_label sa ev :
  stats (analyzer_step sscan_int sa ev) = stats sa
  \/ NetworkQuality (stats (analyzer_step sscan_int sa ev))
     = assessNetworkQuality (stats (analyzer_step sscan_int sa ev)).
Proof.
  destruct ev as [probe|ok rs d|est now|now|health now'|loss jitter stability];
    cbn [analyzer_step].
  - right. destruct probe as [| |l]; cbn; try reflexivity.
    destruct (FFProbe.firstAudioStream l); reflexivity.
  - left. apply downloadCount_preserves.
  - right. reflexivity.
  - left. apply bufferFill_preserves.
  - right. apply bufferPublish_preserves.
  - right. reflexivity.
Qed.

Lemma assess_without_bitrate s :
  Bitrate s = 0 -> assessNetworkQuality s = "Unknown"%string.
Proof. unfold assessNetworkQuality. now intros ->. Qed.

Section AlertsOfUnknown.

Variable fmt_duration : Duration -> string.

Lemma alerts_without_bitrate sa :
  Bitrate (stats sa) = 0 ->
  NetworkQuality (stats sa) = "Unknown"%string ->
  exists alerts,
    GetQualityAlerts fmt_duration sa = Returned alerts
    /\ mentions "Poor network quality" alerts = false
    /\ mentions "Slow download speed" alerts = false.
Proof.
  intros Hb Hq. unfold GetQualityAlerts. rewrite Hb, Hq.
  cbn [String.eqb Ascii.eqb Bool.eqb orb Z.gtb Z.compare].
  destruct (gtb (PacketLoss (stats sa)) 5),
    (Jitter (stats sa) >? 500 * Millisecond),
    (ConnectionStability (stats sa) <? 70)%float,
    (BufferHealth (stats sa) <? 30)%float,
    (Latency (stats sa) >? 5 * Second);
    eexists; (split; [reflexivity|split; reflexivity]).
Qed.

(** When ffprobe fails, the label is "Unknown" from then on, whatever the
    three monitors publish, and [GetQualityAlerts] reports neither poor
    network quality nor slow download speed. *)
Theorem failed_probe_hides_quality sa (evs : list AnalyzerEvent) :
  forallb (fun ev => negb (is_metadata ev)) evs = true ->
  let sa' := analyzer_run sscan_int
               (extractMetadata sscan_int FFProbe.ProbeFailed sa) evs in
  Bitrate (stats sa') = 0
  /\ NetworkQuality (stats sa') = "Unknown"%string
  /\ exists alerts,
       GetQualityAlerts fmt_duration sa' = Returned alerts
       /\ mentions "Poor network quality" alerts = false
       /\ mentions "Slow download speed" alerts = false.
Proof.
  intros Hev sa'.
  assert (H : Bitrate (stats sa') = 0
              /\ NetworkQuality (stats sa') = "Unknown"%string).
  { subst sa'. induction evs as [|ev evs IH] using rev_ind.
    - split; reflexivity.
    - rewrite forallb_app in Hev. apply andb_prop in Hev as [Hevs Hev].
      cbn in Hev. rewrite andb_true_r in Hev. apply negb_true_iff in Hev.
      destruct (IH Hevs) as [Hb Hq].
      rewrite analyzer_run_snoc.
      assert (Hb' := analyzer_step_bitrate
                       (analyzer_run sscan_int
                          (extractMetadata sscan_int FFProbe.ProbeFailed sa) evs)
                       ev Hev).
      rewrite Hb in Hb'. split; [exact Hb'|].
      destruct (analyzer_step_label
                  (analyzer_run sscan_int
                     (extractMetadata sscan_int FFProbe.ProbeFailed sa) evs) ev)
        as [Hsame|Hnew].
      + rewrite Hsame. exact Hq.
      + rewrite Hnew. now apply assess_without_bitrate. }
  destruct H as [Hb Hq]. repeat split; try assumption.
  now apply alerts_without_bitrate.
Qed.

End AlertsOfUnknown.

Lemma analyzer_step_latency sa ev :
  firstAudio sa <> 0 ->
  firstAudio (analyzer_step sscan_int sa ev) = firstAudio sa
  /\ Latency (stats (analyzer_step sscan_int sa ev)) = Latency (stats sa).
Proof.
  intros H. apply Z.eqb_neq in H.
  destruct ev as [probe|ok rs d|est now|now|health now'|loss jitter stability];
    cbn [analyzer_step].
  - destruct (extractMetadata_preserves probe sa) as (_ & _ & _ & _ & _ & -> & ->).
    auto.
  - destruct (downloadCount_preserves ok rs d sa) as (-> & _ & _ & ->). auto.
  - cbn. auto.
  - destruct (bufferFill_preserves now sa) as (-> & _ & _ & _ & _ & ->). auto.
  - unfold bufferPublish. rewrite H. cbn. auto.
  - cbn. auto.
Qed.

(** The latency is measured once per analyzer, not once per session: when a
    first-audio time has been recorded, a new [StartAnalysis] and everything
    its tasks do leave the published latency as it was. *)
Theorem latency_measured_once sa url now rt (evs : list AnalyzerEvent) :
  firstAudio sa <> 0 ->
  let sa' := analyzer_run sscan_int (fst (StartAnalysis sa url now rt)) evs in
  Latency (stats sa') = Latency (stats sa) /\ firstAudio sa' = firstAudio sa.
Proof.
  intros Hfirst.
  induction evs as [|ev evs IH] using rev_ind.
  - cbn. auto.
  - cbn zeta in *. rewrite analyzer_run_snoc.
    destruct IH as [IH1 IH2].
    destruct (analyzer_step_latency
                (analyzer_run sscan_int (fst (StartAnalysis sa url now rt)) evs) ev)
      as [H1 H2]; [congruence|].
    split; congruence.
Qed.

End RunProperties.

Lemma session_ring_and_counters_witness :
  Z.of_nat (List.length [AeDownloadCount true 1 250; AeDownloadPublish 0 2;
                         AeDownloadCount false 3 0; AeDownloadPublish 0 4])
    <= Int64.max_signed
  /\ requestTimes
       (analyzer_run (fun _ => None)
          (fst (StartAnalysis (fst (NewStreamAnalyzer emptyRuntime)) "u" 1
                  emptyRuntime))
          [AeDownloadCount true 1 250; AeDownloadPublish 0 2;
           AeDownloadCount false 3 0; AeDownloadPublish 0 4])
     = last_n 10 (ok_durations
                    [AeDownloadCount true 1 250; AeDownloadPublish 0 2;
                     AeDownloadCount false 3 0; AeDownloadPublish 0 4]).
Proof.
  split; [vm_compute; discriminate|].
  apply (session_ring_and_counters (fun _ => None)
           (fst (NewStreamAnalyzer emptyRuntime)) "u" 1 emptyRuntime
           [AeDownloadCount true 1 250; AeDownloadPublish 0 2;
            AeDownloadCount false 3 0; AeDownloadPublish 0 4]).
  vm_compute; discriminate.
Defined.

Lemma buffer_within_capacity_witness :
  0 <= bufferSize measured_session
  /\ bufferUsed (analyzer_run (fun _ => None)
                   (fst (StartAnalysis measured_session "v" 2000 emptyRuntime))
                   [AeBufferFill 2500; AeBufferPublish 0 2501])
     <= bufferSize (analyzer_run (fun _ => None)
                      (fst (StartAnalysis measured_session "v" 2000 emptyRuntime))
                      [AeBufferFill 2500; AeBufferPublish 0 2501]).
Proof.
  split; [vm_compute; discriminate|].
  apply (buffer_within_capacity (fun _ => None) measured_session "v" 2000
           emptyRuntime [AeBufferFill 2500; AeBufferPublish 0 2501]).
  vm_compute; discriminate.
Defined.

Lemma failed_probe_hides_quality_witness :
  forallb (fun ev => negb (is_metadata ev))
    [AeDownloadCount true 1 250; AeDownloadPublish 0 2;
     AeQualityPublish 0 0 100] = true
  /\ NetworkQuality
       (stats (analyzer_run (fun _ => None)
                 (extractMetadata (fun _ => None) FFProbe.ProbeFailed
                    measured_session)
                 [AeDownloadCount true 1 250; AeDownloadPublish 0 2;
                  AeQualityPublish 0 0 100]))
     = "Unknown"%string.
Proof.
  split; [reflexivity|].
  apply (failed_probe_hides_quality (fun _ => None) (fun _ => ""%string)
           measured_session
           [AeDownloadCount true 1 250; AeDownloadPublish 0 2;
            AeQualityPublish 0 0 100]).
  reflexivity.
Defined.

Lemma latency_measured_once_witness :
  firstAudio measured_session <> 0
  /\ Latency (stats (analyzer_run (fun _ => None)
                       (fst (StartAnalysis measured_session "v" 2000
                               emptyRuntime))
                       [AeBufferFill 2500; AeBufferPublish 0 2501]))
     = Latency (stats measured_session).
Proof.
  split; [vm_compute; discriminate|].
  apply (latency_measured_once (fun _ => None) measured_session "v" 2000
           emptyRuntime [AeBufferFill 2500; AeBufferPublish 0 2501]).
  vm_compute; discriminate.
Defined.

(** ** Exact quotients in binary64 *)

Section ExactQuotients.

Lemma div_eucl_exact (a b : Z) :
  0 < b -> Z.div_eucl (a * b) b = (a, 0).
Proof.
  intros Hb.
  pose proof (Z.div_mul a b ltac:(lia)) as Hq.
  pose proof (Z.mod_mul a b ltac:(lia)) as Hr.
  unfold Z.div, Z.modulo in Hq, Hr.
  destruct (Z.div_eucl (a * b) b) as [q r]. cbn in Hq, Hr. congruence.
Qed.

Lemma new_location_0 n : new_location n 0 = loc_Exact.
Proof.
  unfold new_location, new_location_even, new_location_odd.
  destruct (Z.even n); reflexivity.
Qed.

(** A finite number divided by itself is one. *)
Lemma SF64div_self s m e :
  SF64div (S754_finite s m e) (S754_finite s m e) = Prim2SF 1.
Proof.
  unfold SF64div, SFdiv, SFdiv_core_binary.
  rewrite !Z.sub_diag.
  change (Z.min (fexp prec emax 0) 0) with (-53).
  change (0 - -53) with 53.
  rewrite Z.shiftl_mul_pow2 by lia.
  rewrite (Z.mul_comm (Z.pos m)), div_eucl_exact by lia.
  rewrite new_location_0.
  destruct s; vm_compute; reflexivity.
Qed.

Lemma div_self (x : float) :
  SF_finite (Prim2SF x) = true -> (x / x)%float = 1%float.
Proof.
  intros H. apply Prim2SF_inj. rewrite FloatAxioms.div_spec.
  destruct (Prim2SF x) as [| | |s m e]; try discriminate H.
  apply SF64div_self.
Qed.

Lemma binary_round_aux_finite_from sx m e l :
  0 < m -> emin <= e ->
  e + 2 * Z.max 0 (Zdigits2 m + 1 - prec) <= emax - prec ->
  exists m' e',
    binary_round_aux prec emax sx m e l = S754_finite sx m' e' /\ e <= e'.
Proof.
  intros Hm He Hb. unfold binary_round_aux.
  pose proof (shr_fexp_pos m e l Hm He) as [H1 H1e].
  destruct (shr_fexp prec emax m e l) as [r1 e1]. cbn [fst snd] in H1, H1e.
  pose proof (round_nearest_even_bounds (shr_m r1) (loc_of_shr_record r1)) as Hr.
  set (m2 := round_nearest_even (shr_m r1) (loc_of_shr_record r1)) in *.
  assert (Hd2 : Zdigits2 m2 <= Zdigits2 m + 1).
  { apply Z.le_trans with (Zdigits2 (m + 1)).
    - apply Zdigits2_le; lia.
    - apply Zdigits2_succ; lia. }
  pose proof (shr_fexp_pos m2 e1 loc_Exact ltac:(lia) ltac:(lia)) as [H2 H2e].
  destruct (shr_fexp prec emax m2 e1 loc_Exact) as [r2 e2].
  cbn [fst snd] in H2, H2e.
  destruct (shr_m r2) as [|p|p]; try lia.
  assert (Hle : (e2 <=? emax - prec) = true) by (apply Z.leb_le; lia).
  rewrite Hle. exists p, e2. split; [reflexivity|lia].
Qed.

(** [float64(n)] for a non-zero [n] is at least one in magnitude. *)
Lemma of_uint63_exponent n :
  to_Z n <> 0 ->
  exists m e, Prim2SF (of_uint63 n) = S754_finite false m e /\ -52 <= e.
Proof.
  intros H. rewrite FloatAxioms.of_uint63_spec.
  pose proof (to_Z_bounded n) as Hb.
  destruct (to_Z n) as [|p|p]; try lia. clear H.
  assert (Hp : Z.pos p < 2 ^ 63) by (change (2 ^ 63) with wB; lia).
  unfold binary_normalize, binary_round.
  pose proof (Zdigits2_lt_pow2 (Z.pos p) 63 ltac:(lia) Hp) as Hd.
  assert (Hd1 : 1 <= Zdigits2 (Z.pos p)).
  { rewrite Zdigits2_log2 by lia. pose proof (Z.log2_nonneg (Z.pos p)). lia. }
  cbn [Zdigits2] in Hd, Hd1.
  unfold shl_align.
  destruct (fexp prec emax (Z.pos (digits2_pos p) + 0) - 0) as [|q|q] eqn:Eq.
  - destruct (binary_round_aux_finite_from false (Z.pos p) 0 loc_Exact)
      as (m' & e' & -> & He); try lia.
    + unfold SpecFloat.emin, prec, emax; lia.
    + cbn [Zdigits2]. unfold prec, emax. lia.
    + exists m', e'. split; [reflexivity|lia].
  - destruct (binary_round_aux_finite_from false (Z.pos p) 0 loc_Exact)
      as (m' & e' & -> & He); try lia.
    + unfold SpecFloat.emin, prec, emax; lia.
    + cbn [Zdigits2]. unfold prec, emax. lia.
    + exists m', e'. split; [reflexivity|lia].
  - assert (Hq : Z.pos q = prec - Z.pos (digits2_pos p)).
    { revert Eq. unfold fexp, SpecFloat.emin, prec, emax. lia. }
    assert (Hf : fexp prec emax (Z.pos (digits2_pos p) + 0)
                 = Z.pos (digits2_pos p) - prec).
    { revert Eq. unfold fexp, SpecFloat.emin, prec, emax. lia. }
    rewrite Hf.
    assert (Hm : Z.pos (Pos.iter xO p q) < 2 ^ prec).
    { change (Pos.iter xO p q) with (shift_pos q p).
      rewrite shift_pos_correct, Z.pow_pos_fold.
      replace prec with (Z.pos q + Z.pos (digits2_pos p)) by lia.
      rewrite Z.pow_add_r by lia.
      apply Z.mul_lt_mono_pos_l; [apply Z.pow_pos_nonneg; lia|].
      apply (lt_pow2_digits (Z.pos p)). lia. }
    assert (Hdz : Zdigits2 (Z.pos (Pos.iter xO p q)) <= prec).
    { apply Zdigits2_lt_pow2; [lia|exact Hm]. }
    destruct (binary_round_aux_finite_from false (Z.pos (Pos.iter xO p q))
                (Z.pos (digits2_pos p) - prec) loc_Exact)
      as (m' & e' & -> & He); try lia.
    + unfold SpecFloat.emin, prec, emax in *; lia.
    + cbn [Zdigits2] in *. unfold prec, emax in *. lia.
    + exists m', e'. split; [reflexivity|]. unfold prec in *. lia.
Qed.

Lemma of_int_exponent z :
  Int64.in_range z -> z <> 0 ->
  exists s m e,
    Prim2SF (F64.of_int z) = S754_finite s m e /\ -52 <= e
    /\ (0 < z -> s = false).
Proof.
  unfold Int64.in_range, Int64.min_signed, Int64.max_signed, Int64.half_modulus.
  intros Hr Hz. unfold F64.of_int.
  destruct (z =? Int64.min_signed) eqn:Emin.
  - apply Z.eqb_eq in Emin. unfold Int64.min_signed, Int64.half_modulus in Emin.
    exists true, 4503599627370496%positive, 11.
    repeat split; try lia. 
  - apply Z.eqb_neq in Emin.
    unfold Int64.min_signed, Int64.half_modulus in Emin.
    assert (Hfin : forall k, 0 < k < 2 ^ 63 ->
                   exists m e, Prim2SF (of_uint63 (of_Z k))
                               = S754_finite false m e /\ -52 <= e).
    { intros k Hk. apply of_uint63_exponent.
      rewrite of_Z_spec. change wB with (2 ^ 63).
      rewrite Z.mod_small; lia. }
    destruct (z <? 0) eqn:Eneg.
    + apply Z.ltb_lt in Eneg.
      destruct (Hfin (- z)) as (m & e & Hm & He); [lia|].
      rewrite FloatAxioms.opp_spec, Hm. exists true, m, e.
      repeat split; try assumption. lia.
    + apply Z.ltb_ge in Eneg.
      destruct (Hfin z) as (m & e & Hm & He); [lia|].
      rewrite Hm. exists false, m, e. repeat split; assumption.
Qed.

(** A non-zero bitrate in bits per second gives a finite non-zero number of
    bytes per second. *)
Lemma of_int_div_8_finite z :
  Int64.in_range z -> z <> 0 ->
  SF_finite (Prim2SF (F64.of_int z / 8)%float) = true.
Proof.
  intros Hr Hz.
  destruct (of_int_exponent z Hr Hz) as (s & m & e & Hm & He & _).
  pose proof (Prim2SF_valid (F64.of_int z)) as Hv.
  rewrite Hm in Hv. cbn [valid_binary] in Hv.
  unfold bounded, canonical_mantissa in Hv.
  apply andb_prop in Hv as [Hc Hb].
  apply Z.eqb_eq in Hc. apply Z.leb_le in Hb.
  assert (Hd : Z.pos (digits2_pos m) = 53).
  { revert Hc. unfold fexp, SpecFloat.emin, prec, emax. lia. }
  rewrite FloatAxioms.div_spec, Hm.
  change (Prim2SF 8) with (S754_finite false 4503599627370496 (-49)).
  unfold SF64div, SFdiv, SFdiv_core_binary.
  cbn [Zdigits2]. rewrite Hd.
  change (Z.pos (digits2_pos 4503599627370496)) with 53.
  replace (Z.min (fexp prec emax (53 + e - (53 + -49))) (e - -49))
    with (e - 4)
    by (unfold fexp, SpecFloat.emin, prec, emax; lia).
  replace (e - -49 - (e - 4)) with 53 by lia.
  rewrite Z.shiftl_mul_pow2 by lia.
  replace (Z.pos m * 2 ^ 53) with (Z.pos m~0 * 4503599627370496)
    by (change (2 ^ 53) with (2 * 4503599627370496); lia).
  rewrite div_eucl_exact by lia.
  destruct (binary_round_aux_finite (xorb s false) (Z.pos m~0) (e - 4)
              (new_location 4503599627370496 0)) as (m' & e' & ->);
    try lia; try reflexivity.
  - unfold SpecFloat.emin, prec, emax. lia.
  - cbn [Zdigits2 digits2_pos]. rewrite Pos2Z.inj_succ, Hd.
    unfold prec, emax in *. lia.
Qed.

End ExactQuotients.

(** ** What the estimator and the counters make of clean and of dead links *)

Section TickValues.

Open Scope float_scope.

Lemma zero_div_positive (y : float) m e :
  Prim2SF y = S754_finite false m e -> 0 / y = 0.
Proof.
  intros Hy. apply Prim2SF_inj.
  rewrite FloatAxioms.div_spec, Hy. reflexivity.
Qed.

Lemma finite_not_zero (x : float) :
  SF_finite (Prim2SF x) = true -> (x =? 0) = false.
Proof.
  intros H. rewrite FloatAxioms.eqb_spec.
  destruct (Prim2SF x) as [| | |[|] m e]; try discriminate H; reflexivity.
Qed.

Lemma labelOfScore_known (score : float) :
  labelOfScore score <> "Unknown"%string.
Proof.
  unfold labelOfScore.
  repeat match goal with |- context [if ?c then _ else _] => destruct c end;
    discriminate.
Qed.

Variable sscan_int : string -> option Z.

(** A download monitor that read a known (non-zero) bitrate publishes a
    speed that makes the speed ratio exactly one, so that the speed factor
    is 35, never 40, and the label is not "Unknown": this holds whatever the
    other tasks write between the read and the publication, as long as the
    metadata task does not publish in between. *)
Theorem download_tick_speed_ratio_one
    (sa : StreamAnalyzer) (between : list AnalyzerEvent) (now : Time) :
  Int64.in_range (Bitrate (stats sa)) -> Bitrate (stats sa) <> 0%Z ->
  forallb (fun ev => negb (is_metadata ev)) between = true ->
  let estimatedSpeed := downloadEstimate sa in
  let s' := stats (downloadPublish estimatedSpeed now
                     (analyzer_run sscan_int sa between)) in
  DownloadSpeed s' = F64.of_int (Bitrate (stats sa)) / 8
  /\ speedRatio s' = 1
  /\ addSpeed (speedRatio s') 0 = 35
  /\ NetworkQuality s' = labelOfScore (qualityScore s')
  /\ NetworkQuality s' <> "Unknown"%string.
Proof.
  intros Hr Hz Hev estimatedSpeed s'.
  pose proof (of_int_div_8_finite _ Hr Hz) as Hfin.
  assert (Hs : DownloadSpeed s' = F64.of_int (Bitrate (stats sa)) / 8)
    by reflexivity.
  assert (Hb : Bitrate s' = Bitrate (stats sa)).
  { subst s'. cbn [downloadPublish updateStats set_stats stats Bitrate].
    now apply analyzer_run_bitrate. }
  assert (Hratio : speedRatio s' = 1).
  { unfold speedRatio, requiredSpeed. rewrite Hs, Hb. now apply div_self. }
  assert (Hq : NetworkQuality s' = assessNetworkQuality s') by reflexivity.
  assert (Hassess : assessNetworkQuality s' = labelOfScore (qualityScore s')).
  { unfold assessNetworkQuality. rewrite Hb, Hs.
    apply Z.eqb_neq in Hz. rewrite Hz, (finite_not_zero _ Hfin). reflexivity. }
  split; [exact Hs|]. split; [exact Hratio|].
  split; [rewrite Hratio; reflexivity|].
  split; [now rewrite Hq|].
  rewrite Hq, Hassess. apply labelOfScore_known.
Qed.

Lemma add_0_r_in_range z : Int64.in_range z -> Int64.add z 0 = z.
Proof. intros H. unfold Int64.add. rewrite Z.add_0_r. now apply wrap_id. Qed.


Lemma of_int_positive z :
  Int64.in_range z -> (0 < z)%Z ->
  exists m e, Prim2SF (F64.of_int z) = S754_finite false m e.
Proof.
  intros Hr Hpos.
  destruct (of_int_exponent _ Hr ltac:(lia)) as (s & m & e & Hm & _ & Hs).
  rewrite (Hs Hpos) in Hm. eauto.
Qed.

(** No failure counted: the stability is 100, or 80 with slow requests. *)
Lemma stability_all_succeeded (sa : StreamAnalyzer) :
  Int64.in_range (successfulRequests sa) ->
  (0 < successfulRequests sa)%Z -> failedRequests sa = 0%Z ->
  calculateConnectionStability sa
  = (if slowRequests (requestTimes sa) then 80 else 100).
Proof.
  intros Hr Hpos Hf.
  destruct (of_int_positive _ Hr Hpos) as (m & e & Hm).
  assert (Hfin : SF_finite (Prim2SF (F64.of_int (successfulRequests sa))) = true)
    by now rewrite Hm.
  unfold calculateConnectionStability, slowRequests.
  rewrite Hf, (add_0_r_in_range _ Hr).
  replace (successfulRequests sa =? 0)%Z with false
    by (symmetry; apply Z.eqb_neq; lia).
  rewrite (div_self _ Hfin).
  destruct (len (requestTimes sa) >? 1)%Z; cbn [andb];
    [destruct (_ >? 2 * Second)%Z|]; reflexivity.
Qed.


Lemma in_range_between z n :
  Int64.in_range z -> (0 <= n)%Z -> (z + n <= Int64.max_signed)%Z ->
  Int64.in_range (z + n).
Proof.
  unfold Int64.in_range, Int64.min_signed, Int64.max_signed,
    Int64.half_modulus. lia.
Qed.

(** While every HEAD request succeeds, a tick of the quality monitor
    publishes packet loss 0 and stability 100, or 80 when the requests in
    the ring are slow, whatever the tasks write between its snapshot
    ([evs1]), its unlocked read of [failedRequests] ([evs2]), its call of
    [calculateConnectionStability] ([evs3]) and its publication. *)
Theorem all_requests_succeeded
    (sa : StreamAnalyzer) (evs1 evs2 evs3 : list AnalyzerEvent) :
  Int64.in_range (successfulRequests sa) ->
  (0 < successfulRequests sa)%Z -> failedRequests sa = 0%Z ->
  count_failed (evs1 ++ evs2) = 0%nat ->
  (successfulRequests sa + Z.of_nat (List.length (evs1 ++ evs2))
   <= Int64.max_signed)%Z ->
  let totalRequests := fst (qualitySnapshot sa) in
  let jitter := calculateJitter (snd (qualitySnapshot sa)) in
  let sb := analyzer_run sscan_int sa evs1 in
  let packetLoss := packetLossOf totalRequests (failedRequests sb) in
  let sc := analyzer_run sscan_int sb evs2 in
  let stability := calculateConnectionStability sc in
  let sd := analyzer_run sscan_int sc evs3 in
  let s' := stats (qualityPublish packetLoss jitter stability sd) in
  PacketLoss s' = 0
  /\ ConnectionStability s'
     = (if slowRequests (requestTimes sc) then 80 else 100).
Proof.
  intros Hr Hpos Hf Hnone Hmax totalRequests jitter sb packetLoss sc stability
    sd s'.
  assert (Hrf : Int64.in_range (failedRequests sa))
    by (rewrite Hf; vm_compute; split; discriminate).
  rewrite count_failed_app in Hnone. rewrite length_app in Hmax.
  destruct (analyzer_run_counters sscan_int sa evs1 Hr Hrf)
    as (_ & Hfb & _); [lia|lia|].
  destruct (analyzer_run_counters sscan_int sa (evs1 ++ evs2) Hr Hrf)
    as (Hsc & Hfc & Hlen); [rewrite length_app; lia|rewrite length_app; lia|].
  rewrite count_failed_app, analyzer_run_app in Hfc.
  rewrite analyzer_run_app in Hsc. rewrite length_app in Hlen.
  fold sb in Hfb, Hsc, Hfc. fold sc in Hsc, Hfc.
  assert (Hloss : packetLoss = 0).
  { subst packetLoss totalRequests. unfold packetLossOf, qualitySnapshot.
    cbn [fst]. rewrite Hfb, Hf, (add_0_r_in_range _ Hr).
    replace (successfulRequests sa >? 0)%Z with true
      by (symmetry; rewrite Z.gtb_ltb; apply Z.ltb_lt; lia).
    destruct (of_int_positive _ Hr Hpos) as (m & e & Hm).
    replace (0 + Z.of_nat (count_failed evs1))%Z with 0%Z by lia.
    change (F64.of_int 0) with 0.
    now rewrite (zero_div_positive _ _ _ Hm). }
  assert (Hstab : stability
                  = (if slowRequests (requestTimes sc) then 80 else 100)).
  { subst stability. apply stability_all_succeeded.
    - rewrite Hsc. apply in_range_between; [exact Hr|lia|lia].
    - lia.
    - lia. }
  subst s'. cbn [qualityPublish updateStats set_stats stats PacketLoss
                 ConnectionStability].
  split; assumption.
Qed.


End TickValues.

(** A metadata task that publishes between the read and the publication of
    a download tick spoils the estimate: here the probe fails, the bitrate
    becomes 0 and the label "Unknown". *)
Example download_tick_stale_bitrate :
  let estimatedSpeed := downloadEstimate known_bitrate in
  let s' := stats (downloadPublish estimatedSpeed 2001
                     (analyzer_run (fun _ => None) known_bitrate
                        [AeMetadata FFProbe.ProbeFailed])) in
  Bitrate (stats known_bitrate) = 128000
  /\ DownloadSpeed s' = 16000%float /\ Bitrate s' = 0
  /\ NetworkQuality s' = "Unknown"%string.
Proof. repeat split. Qed.

Lemma download_tick_speed_ratio_one_witness :
  Int64.in_range (Bitrate (stats known_bitrate))
  /\ Bitrate (stats known_bitrate) <> 0
  /\ forallb (fun ev => negb (is_metadata ev))
       [AeBufferFill 2000; AeDownloadCount false 2000 0] = true
  /\ speedRatio
       (stats (downloadPublish (downloadEstimate known_bitrate) 2001
                 (analyzer_run (fun _ => None) known_bitrate
                    [AeBufferFill 2000; AeDownloadCount false 2000 0])))
     = 1%float.
Proof.
  assert (Hr : Int64.in_range (Bitrate (stats known_bitrate)))
    by (vm_compute; split; discriminate).
  assert (Hz : Bitrate (stats known_bitrate) <> 0)
    by (vm_compute; discriminate).
  split; [exact Hr|]. split; [exact Hz|]. split; [reflexivity|].
  apply (download_tick_speed_ratio_one (fun _ => None) known_bitrate
           [AeBufferFill 2000; AeDownloadCount false 2000 0] 2001 Hr Hz).
  reflexivity.
Defined.

Lemma all_requests_succeeded_witness :
  Int64.in_range (successfulRequests clean_link)
  /\ 0 < successfulRequests clean_link
  /\ failedRequests clean_link = 0
  /\ count_failed ([AeDownloadCount true 4000 240] ++ [AeBufferFill 4100]) = 0%nat
  /\ PacketLoss
       (stats
          (qualityPublish
             (packetLossOf (fst (qualitySnapshot clean_link))
                (failedRequests
                   (analyzer_run (fun _ => None) clean_link
                      [AeDownloadCount true 4000 240])))
             (calculateJitter (snd (qualitySnapshot clean_link)))
             (calculateConnectionStability
                (analyzer_run (fun _ => None)
                   (analyzer_run (fun _ => None) clean_link
                      [AeDownloadCount true 4000 240])
                   [AeBufferFill 4100]))
             (analyzer_run (fun _ => None)
                (analyzer_run (fun _ => None)
                   (analyzer_run (fun _ => None) clean_link
                      [AeDownloadCount true 4000 240])
                   [AeBufferFill 4100])
                [AeDownloadPublish 16000 4200])))
     = 0%float.
Proof.
  assert (Hr : Int64.in_range (successfulRequests clean_link))
    by (vm_compute; split; discriminate).
  split; [exact Hr|]. split; [reflexivity|]. split; [reflexivity|].
  split; [reflexivity|].
  apply (all_requests_succeeded (fun _ => None) clean_link
           [AeDownloadCount true 4000 240] [AeBufferFill 4100]
           [AeDownloadPublish 16000 4200] Hr);
    [reflexivity|reflexivity|reflexivity|vm_compute; discriminate].
Defined.


(** The same tick publishes a packet loss of 150: two failures at the
    snapshot, three at the unlocked read. *)
Example packet_loss_above_100 :
  PacketLoss
    (stats
       (qualityPublish
          (packetLossOf (fst (qualitySnapshot dead_link))
             (failedRequests
                (analyzer_run (fun _ => None) dead_link
                   [AeDownloadCount false 4000 0])))
          0 0 dead_link))
  = 150%float.
Proof. reflexivity. Qed.

(** ** Runs of the controller *)

Section ControllerRuns.

Lemma nth_set_nth {A} (x d : A) : forall l i j,
  nth i (set_nth j x l) d
  = if Nat.eqb i j && Nat.ltb j (List.length l) then x else nth i l d.
Proof.
  induction l as [|h t IH]; intros i j.
  - destruct i, j; cbn; rewrite ?andb_false_r; reflexivity.
  - destruct j as [|j], i as [|i]; cbn [set_nth nth List.length]; try reflexivity.
    rewrite IH. reflexivity.
Qed.

Lemma nth_snoc {A} (x d : A) l i :
  nth i (l ++ [x]) d = if Nat.eqb i (List.length l) then x else nth i l d.
Proof.
  destruct (Nat.eqb i (List.length l)) eqn:E.
  - apply Nat.eqb_eq in E. subst.
    rewrite app_nth2, Nat.sub_diag by lia. reflexivity.
  - apply Nat.eqb_neq in E.
    destruct (Nat.lt_ge_cases i (List.length l)).
    + now rewrite app_nth1.
    + rewrite !nth_overflow; try reflexivity; try lia.
      rewrite length_app. cbn. lia.
Qed.

Lemma set_nth_length {A} (x : A) : forall l j,
  List.length (set_nth j x l) = List.length l.
Proof.
  induction l as [|h t IH]; intros [|j]; cbn; try reflexivity.
  now rewrite IH.
Qed.

Lemma set_nth_twice {A} (x : A) : forall l j,
  set_nth j x (set_nth j x l) = set_nth j x l.
Proof.
  induction l as [|h t IH]; intros [|j]; cbn; try reflexivity.
  now rewrite IH.
Qed.

Lemma handle_hasProcess p pid :
  handle_pid p = Some pid -> hasProcess p = true.
Proof.
  unfold handle_pid, hasProcess.
  destruct (cmd p) as [[args [q|]]|]; cbn; intros H; try discriminate H.
  reflexivity.
Qed.

Lemma Start_tracked resolved spawn_ok now sys :
  tracked sys -> tracked (snd (Start resolved spawn_ok now sys)).
Proof.
  intros Ht. unfold Start.
  destruct (hasProcess (player sys)) eqn:Eh; [exact Ht|].
  destruct resolved as [url|]; [|exact Ht].
  assert (Hdead : forall pid, alive sys pid = false).
  { intros pid. destruct (alive sys pid) eqn:Ea; [|reflexivity].
    apply Ht, handle_hasProcess in Ea. congruence. }
  cbn [StartAnalysis]. destruct spawn_ok; cbn [snd]; intros pid Ha.
  - unfold alive in Ha. cbn [procs] in Ha. rewrite nth_snoc in Ha.
    destruct (Nat.eqb pid (List.length (procs sys))) eqn:E.
    + apply Nat.eqb_eq in E. subst. reflexivity.
    + fold (alive sys pid) in Ha. rewrite Hdead in Ha. discriminate Ha.
  - unfold alive in Ha. cbn [procs] in Ha. fold (alive sys pid) in Ha.
    rewrite Hdead in Ha. discriminate Ha.
Qed.

Lemma Stop_tracked signal_ok exited sys :
  tracked sys -> tracked (snd (Stop signal_ok exited sys)).
Proof.
  intros Ht. unfold Stop.
  destruct (cmd (player sys)) as [[args [pid|]]|] eqn:Ec.
  - assert (Hone : forall pid', alive sys pid' = true -> pid' = pid).
    { intros pid' Ha. apply Ht in Ha. unfold handle_pid in Ha.
      rewrite Ec in Ha. cbn in Ha. congruence. }
    assert (Hgone : forall pid',
              nth pid' (set_nth pid false (procs sys)) false = false).
    { intros pid'. rewrite nth_set_nth.
      destruct (Nat.eqb pid' pid && Nat.ltb pid (List.length (procs sys))) eqn:E;
        [reflexivity|].
      destruct (nth pid' (procs sys) false) eqn:Ea; [|reflexivity].
      pose proof (Hone pid' Ea). subst pid'.
      rewrite Nat.eqb_refl in E. cbn in E. apply Nat.ltb_ge in E.
      rewrite nth_overflow in Ea by lia. discriminate Ea. }
    destruct signal_ok; [destruct exited|]; cbn [snd]; intros pid' Ha.
    + unfold alive in Ha. cbn [procs] in Ha. rewrite Hgone in Ha. discriminate.
    + unfold alive in Ha. cbn [procs] in Ha. rewrite Hgone in Ha. discriminate.
    + unfold alive in Ha. cbn [procs] in Ha. apply Ht in Ha.
      unfold handle_pid in *. cbn. rewrite Ec in *. exact Ha.
  - cbn [snd]. intros pid' Ha. unfold alive in Ha. cbn [procs] in Ha.
    apply Ht in Ha. unfold handle_pid in *. cbn. rewrite Ec in *. exact Ha.
  - cbn [snd]. intros pid' Ha. unfold alive in Ha. cbn [procs] in Ha.
    apply Ht in Ha. unfold handle_pid in *. cbn. rewrite Ec in *. exact Ha.
Qed.

Lemma step_tracked sys ev sys' :
  tracked sys -> late_reaper sys ev = false -> step sys ev = Some sys' ->
  tracked sys'.
Proof.
  intros Ht Hlate Hstep.
  destruct ev as [resolved spawn_ok now|signal_ok exited|pid|pid];
    cbn [step] in Hstep.
  - injection Hstep as <-. now apply Start_tracked.
  - injection Hstep as <-. now apply Stop_tracked.
  - destruct (existsb (Nat.eqb pid) (reapers sys) && negb (alive sys pid)) eqn:E;
      [|discriminate Hstep].
    injection Hstep as <-.
    apply andb_prop in E as [_ Hdead]. apply negb_true_iff in Hdead.
    intros pid' Ha. unfold alive in Ha. cbn [procs reap] in Ha.
    fold (alive sys pid') in Ha. pose proof (Ht pid' Ha) as Hh.
    cbn [late_reaper] in Hlate. rewrite Hh in Hlate.
    apply negb_false_iff, Nat.eqb_eq in Hlate. subst pid'. congruence.
  - destruct (alive sys pid) eqn:E; [|discriminate Hstep].
    injection Hstep as <-.
    intros pid' Ha. unfold alive in Ha. cbn [procs] in Ha.
    rewrite nth_set_nth in Ha.
    destruct (Nat.eqb pid' pid && Nat.ltb pid (List.length (procs sys)));
      [discriminate Ha|].
    apply (Ht pid' Ha).
Qed.

Lemma run_timely_tracked trace : forall sys sys',
  tracked sys -> run_timely sys trace = Some sys' -> tracked sys'.
Proof.
  induction trace as [|ev trace IH]; intros sys sys' Ht Hrun; cbn in Hrun.
  - now injection Hrun as <-.
  - destruct (late_reaper sys ev) eqn:El; [discriminate Hrun|].
    destruct (step sys ev) as [sys1|] eqn:Es; [|discriminate Hrun].
    apply (IH sys1 sys'); [|exact Hrun].
    now apply (step_tracked sys ev).
Qed.

Lemma live_from_In flags : forall k pid,
  In pid (live_from k flags)
  <-> (k <= pid)%nat /\ nth (pid - k) flags false = true.
Proof.
  induction flags as [|b rest IH]; intros k pid; cbn [live_from].
  - split; [contradiction|]. intros [_ H]. now destruct (pid - k)%nat.
  - assert (Hrest : In pid (live_from (S k) rest)
                    <-> (S k <= pid)%nat /\ nth (pid - S k) rest false = true)
      by apply IH.
    destruct (Nat.lt_trichotomy pid k) as [Hlt|[->|Hgt]].
    + split.
      * intros H. assert (Hin : In pid (live_from (S k) rest)).
        { destruct b; [destruct H as [H|H]; [lia|exact H]|exact H]. }
        apply Hrest in Hin. lia.
      * intros [H _]. lia.
    + rewrite Nat.sub_diag. cbn [nth]. split.
      * intros H. split; [lia|]. destruct b; [reflexivity|].
        apply Hrest in H. lia.
      * intros [_ ->]. now left.
    + replace (pid - k)%nat with (S (pid - S k)) by lia. cbn [nth]. split.
      * intros H. assert (Hin : In pid (live_from (S k) rest)).
        { destruct b; [destruct H as [H|H]; [lia|exact H]|exact H]. }
        apply Hrest in Hin. split; [lia|apply Hin].
      * intros [_ H]. assert (Hin : In pid (live_from (S k) rest))
          by (apply Hrest; split; [lia|exact H]).
        destruct b; [now right|exact Hin].
Qed.

Lemma live_from_NoDup flags : forall k, NoDup (live_from k flags).
Proof.
  induction flags as [|b rest IH]; intros k; cbn [live_from].
  - constructor.
  - destruct b; [|apply IH]. constructor; [|apply IH].
    rewrite live_from_In. lia.
Qed.

Lemma live_alive sys pid : In pid (live sys) <-> alive sys pid = true.
Proof.
  unfold live, alive. rewrite live_from_In, Nat.sub_0_r.
  split; [intros [_ H]; exact H|intros H; split; [lia|exact H]].
Qed.

Lemma initial_tracked : tracked initial.
Proof. intros pid H. unfold alive in H. cbn in H. now destruct pid. Qed.

(** As long as no reaper clears a handle that belongs to another process,
    at most one player process runs, and it is the one the handle names:
    [Start], [Stop], [Restart], timely reapers and processes ending by
    themselves keep it so. *)
Theorem one_process_without_late_reaper (trace : list Event) (sys : System) :
  run_timely initial trace = Some sys ->
  (List.length (live sys) <= 1)%nat
  /\ forall pid, In pid (live sys) -> handle_pid (player sys) = Some pid.
Proof.
  intros Hrun.
  pose proof (run_timely_tracked trace initial sys initial_tracked Hrun) as Ht.
  assert (Hall : forall pid, In pid (live sys)
                             -> handle_pid (player sys) = Some pid).
  { intros pid H. apply Ht. now apply live_alive. }
  split; [|exact Hall].
  pose proof (live_from_NoDup (procs sys) 0) as Hnd. fold (live sys) in Hnd.
  destruct (live sys) as [|a [|b l]]; cbn; try lia.
  exfalso. inversion Hnd as [|? ? Hnotin _]; subst. apply Hnotin.
  assert (Ha := Hall a (or_introl eq_refl)).
  assert (Hb := Hall b (or_intror (or_introl eq_refl))).
  left. congruence.
Qed.

End ControllerRuns.

Lemma one_process_without_late_reaper_witness :
  exists sys,
    run_timely initial timely_restart = Some sys
    /\ (List.length (live sys) <= 1)%nat
    /\ live sys = [1%nat].
Proof.
  eexists. split; [vm_compute; reflexivity|].
  split; [|vm_compute; reflexivity].
  apply (one_process_without_late_reaper timely_restart).
  vm_compute. reflexivity.
Defined.

Section Cancellation.

Lemma run_app trace1 : forall sys trace2,
  run sys (trace1 ++ trace2)
  = match run sys trace1 with
    | Some sys1 => run sys1 trace2
    | None => None
    end.
Proof.
  induction trace1 as [|ev trace1 IH]; intros sys trace2; cbn; [reflexivity|].
  destruct (step sys ev); [apply IH|reflexivity].
Qed.

Lemma Start_one_context resolved spawn_ok now sys :
  one_context sys ->
  one_context (snd (Start resolved spawn_ok now sys))
  /\ ctx_cancelled (runtime (snd (Start resolved spawn_ok now sys)))
     = ctx_cancelled (runtime sys).
Proof.
  intros (Hc & Hl & Hg). unfold Start.
  destruct (hasProcess (player sys)); [repeat split; assumption|].
  destruct resolved as [url|]; [|repeat split; assumption].
  cbn [StartAnalysis]. destruct spawn_ok; cbn [snd]; unfold one_context; cbn;
    rewrite Hc; repeat split; try assumption;
    apply Forall_app; split; try assumption; repeat constructor.
Qed.

Lemma Stop_one_context signal_ok exited sys :
  one_context sys ->
  one_context (snd (Stop signal_ok exited sys))
  /\ is_cancelled (runtime (snd (Stop signal_ok exited sys))) 0 = true.
Proof.
  intros (Hc & Hl & Hg). unfold Stop, one_context, is_cancelled, StopAnalysis.
  rewrite Hc.
  destruct (ctx_cancelled (runtime sys)) as [|b [|b' l]] eqn:El;
    try discriminate Hl.
  destruct (cmd (player sys)) as [[args [pid|]]|];
    [destruct signal_ok; [destruct exited|]| |];
    cbn; rewrite ?El; cbn; repeat split; assumption.
Qed.

Lemma step_one_context sys ev sys' :
  one_context sys -> step sys ev = Some sys' ->
  one_context sys'
  /\ (is_cancelled (runtime sys) 0 = true
      -> is_cancelled (runtime sys') 0 = true)
  /\ (forall signal_ok exited, ev = EvStop signal_ok exited
      -> is_cancelled (runtime sys') 0 = true).
Proof.
  intros Hone Hstep.
  destruct ev as [resolved spawn_ok now|signal_ok exited|pid|pid];
    cbn [step] in Hstep.
  - injection Hstep as <-.
    destruct (Start_one_context resolved spawn_ok now sys Hone) as [H1 H2].
    split; [exact H1|]. split; [|discriminate].
    unfold is_cancelled. now rewrite H2.
  - injection Hstep as <-.
    destruct (Stop_one_context signal_ok exited sys Hone) as [H1 H2].
    split; [exact H1|]. split; intros; exact H2.
  - destruct (existsb (Nat.eqb pid) (reapers sys) && negb (alive sys pid));
      [|discriminate Hstep].
    injection Hstep as <-. split; [exact Hone|]. split; [auto|discriminate].
  - destruct (alive sys pid); [|discriminate Hstep].
    injection Hstep as <-. split; [exact Hone|]. split; [auto|discriminate].
Qed.

Lemma run_one_context trace : forall sys sys',
  one_context sys -> run sys trace = Some sys' ->
  one_context sys'
  /\ (is_cancelled (runtime sys) 0 = true
      -> is_cancelled (runtime sys') 0 = true).
Proof.
  induction trace as [|ev trace IH]; intros sys sys' Hone Hrun; cbn in Hrun.
  - injection Hrun as <-. auto.
  - destruct (step sys ev) as [sys1|] eqn:Es; [|discriminate Hrun].
    destruct (step_one_context sys ev sys1 Hone Es) as (H1 & H2 & _).
    destruct (IH sys1 sys' H1 Hrun) as [H3 H4]. auto.
Qed.

Lemma initial_one_context : one_context initial.
Proof. repeat split; constructor. Qed.

(** Cancelling is for good: once [Stop] has run, whatever the controller
    does afterwards, the context of the analyzer is cancelled, and with it
    the context of every monitoring goroutine, those of later sessions
    included. *)
Theorem cancelled_after_first_Stop
    (before after : list Event) (signal_ok exited : bool) (sys : System) :
  run initial (before ++ EvStop signal_ok exited :: after) = Some sys ->
  is_cancelled (runtime sys) (ctx (analyzer (player sys))) = true
  /\ Forall (fun g => is_cancelled (runtime sys) (snd g) = true)
       (goroutines (runtime sys)).
Proof.
  intros Hrun. rewrite run_app in Hrun.
  destruct (run initial before) as [sys1|] eqn:E1; [|discriminate Hrun].
  destruct (run_one_context before initial sys1 initial_one_context E1)
    as [Hone1 _].
  cbn [run] in Hrun.
  destruct (step sys1 (EvStop signal_ok exited)) as [sys2|] eqn:E2;
    [|discriminate Hrun].
  destruct (step_one_context sys1 _ sys2 Hone1 E2) as (Hone2 & _ & Hc2).
  specialize (Hc2 signal_ok exited eq_refl).
  destruct (run_one_context after sys2 sys Hone2 Hrun) as [(Hc & Hl & Hg) Hc3].
  specialize (Hc3 Hc2). rewrite Hc. split; [exact Hc3|].
  eapply Forall_impl; [|exact Hg]. cbn. intros g ->. exact Hc3.
Qed.

(** A [Stop] that returned nil has nothing left to do: a second [Stop]
    returns nil as well and changes nothing. *)
Theorem Stop_twice (s1 e1 s2 e2 : bool) (sys : System) :
  fst (Stop s1 e1 sys) = None ->
  Stop s2 e2 (snd (Stop s1 e1 sys)) = (None, snd (Stop s1 e1 sys)).
Proof.
  unfold Stop, StopAnalysis.
  destruct (cmd (player sys)) as [[args [pid|]]|] eqn:Ec;
    [destruct s1; [destruct e1|]| |]; cbn; intros H; try discriminate H;
    rewrite ?Ec; cbn; rewrite set_nth_twice; reflexivity.
Qed.

(** What [Start] leaves behind when it fails: nothing at all when a process
    is already running or the URL cannot be resolved; when the player cannot
    be spawned, no process and an empty handle, but the four goroutines of a
    new analysis session. *)
Theorem Start_failures resolved spawn_ok now (sys : System) :
  match fst (Start resolved spawn_ok now sys) with
  | None =>
      hasProcess (player sys) = false
      /\ handle_pid (player (snd (Start resolved spawn_ok now sys)))
         = Some (List.length (procs sys))
      /\ procs (snd (Start resolved spawn_ok now sys)) = procs sys ++ [true]
      /\ isStopped (player (snd (Start resolved spawn_ok now sys))) = false
  | Some ErrAlreadyRunning =>
      hasProcess (player sys) = true
      /\ snd (Start resolved spawn_ok now sys) = sys
  | Some ErrResolve =>
      resolved = None /\ snd (Start resolved spawn_ok now sys) = sys
  | Some ErrSpawn =>
      exists url,
        resolved = Some url
        /\ hasProcess (player (snd (Start resolved spawn_ok now sys))) = false
        /\ procs (snd (Start resolved spawn_ok now sys)) = procs sys
        /\ isStopped (player (snd (Start resolved spawn_ok now sys)))
           = isStopped (player sys)
        /\ List.length (goroutines (runtime (snd (Start resolved spawn_ok now sys))))
           = (List.length (goroutines (runtime sys)) + 4)%nat
        /\ ctx_cancelled (runtime (snd (Start resolved spawn_ok now sys)))
           = ctx_cancelled (runtime sys)
  | Some ErrSignal => False
  end.
Proof.
  unfold Start.
  destruct (hasProcess (player sys)) eqn:Eh; cbn [fst snd]; [auto|].
  destruct resolved as [url|]; cbn [fst snd]; [|auto].
  cbn [StartAnalysis]. destruct spawn_ok; cbn [fst snd].
  - repeat split.
  - exists url. repeat split. cbn. rewrite length_app. reflexivity.
Qed.

End Cancellation.

Lemma cancelled_after_first_Stop_witness :
  exists sys,
    run initial
      ([EvStart (Some "http://radio/a"%string) true 1000]
         ++ EvStop true true
         :: [EvReap 0; EvStart (Some "http://radio/b"%string) true 2000])
    = Some sys
    /\ is_cancelled (runtime sys) (ctx (analyzer (player sys))) = true.
Proof.
  eexists. split; [vm_compute; reflexivity|].
  apply (cancelled_after_first_Stop
           [EvStart (Some "http://radio/a"%string) true 1000]
           [EvReap 0; EvStart (Some "http://radio/b"%string) true 2000]
           true true).
  vm_compute. reflexivity.
Defined.

Lemma Stop_twice_witness :
  fst (Stop true false playing) = None
  /\ Stop true true (snd (Stop true false playing))
     = (None, snd (Stop true false playing)).
Proof.
  split; [reflexivity|].
  apply (Stop_twice true false true true playing). reflexivity.
Defined.

(** ** Volume *)

Section VolumeProperties.

Lemma all_below_spec n f :
  all_below n f = true -> forall k, (k < n)%nat -> f k = true.
Proof.
  induction n as [|n IH]; intros H k Hk; [lia|].
  cbn in H. apply andb_prop in H as [H1 H2].
  destruct (Nat.eq_dec k n) as [->|Hne]; [exact H1|].
  apply IH; [exact H2|lia].
Qed.

Lemma volDb_in_range_upto_100 :
  all_below 101
    (fun n => (-20 <=? volDb (Z.of_nat n))%float
              && (volDb (Z.of_nat n) <=? 0)%float) = true.
Proof. vm_compute. reflexivity. Qed.

Lemma volDb_increasing_upto_100 :
  all_below 101
    (fun a => all_below 101
       (fun b => if (a <? b)%nat
                 then (volDb (Z.of_nat a) <? volDb (Z.of_nat b))%float
                 else true)) = true.
Proof. vm_compute. reflexivity. Qed.

(** Whatever number is asked for, [SetVolume] stores it clamped to
    [0,100], and the gain then passed to ffplay lies between -20 dB and
    0 dB; setting the same volume again changes nothing. *)
Theorem SetVolume_clamps_gain (percent : Z) (p : Player) :
  let p' := SetVolume percent p in
  volumePercent p' = Z.max 0 (Z.min 100 percent)
  /\ (-20 <=? volDb (volumePercent p'))%float = true
  /\ (volDb (volumePercent p') <=? 0)%float = true
  /\ SetVolume percent p' = p'.
Proof.
  intros p'.
  assert (Hv : volumePercent p' = Z.max 0 (Z.min 100 percent)).
  { subst p'. unfold SetVolume; cbn.
    destruct (percent <? 0) eqn:E1.
    - apply Z.ltb_lt in E1. cbn. lia.
    - apply Z.ltb_ge in E1. destruct (percent >? 100) eqn:E2.
      + rewrite Z.gtb_ltb in E2. apply Z.ltb_lt in E2. lia.
      + rewrite Z.gtb_ltb in E2. apply Z.ltb_ge in E2. lia. }
  split; [exact Hv|].
  pose proof (all_below_spec _ _ volDb_in_range_upto_100
                (Z.to_nat (volumePercent p')) ltac:(lia)) as Hr.
  cbn beta in Hr. rewrite Z2Nat.id in Hr by lia.
  apply andb_prop in Hr as [H1 H2].
  split; [exact H1|]. split; [exact H2|].
  reflexivity.
Qed.

(** A higher percentage gives a strictly higher gain. *)
Theorem louder_percent_louder_gain (a b : Z) :
  0 <= a -> a < b -> b <= 100 ->
  (volDb a <? volDb b)%float = true.
Proof.
  intros Ha Hab Hb.
  pose proof (all_below_spec _ _ volDb_increasing_upto_100 (Z.to_nat a)
                ltac:(lia)) as H1.
  cbn beta in H1.
  pose proof (all_below_spec _ _ H1 (Z.to_nat b) ltac:(lia)) as H2.
  cbn beta in H2.
  replace (Z.to_nat a <? Z.to_nat b)%nat with true in H2
    by (symmetry; apply Nat.ltb_lt; lia).
  now rewrite !Z2Nat.id in H2 by lia.
Qed.

Lemma louder_percent_louder_gain_witness :
  0 <= 30 /\ 30 < 70 /\ 70 <= 100 /\ (volDb 30 <? volDb 70)%float = true.
Proof.
  split; [lia|]. split; [lia|]. split; [lia|].
  apply (louder_percent_louder_gain 30 70); lia.
Defined.

End VolumeProperties.

(** ** Steady requests *)

Section SteadyRing.

Lemma total_repeat d n : Spec.total (repeat d n) = Z.of_nat n * d.
Proof.
  induction n as [|n IH]; [reflexivity|].
  cbn [repeat]. rewrite total_cons, IH. lia.
Qed.

Lemma map_repeat {A B} (f : A -> B) x n : map f (repeat x n) = repeat (f x) n.
Proof. induction n; cbn; congruence. Qed.

(** When all recorded requests took the same time, the jitter is zero. *)
Theorem steady_requests_no_jitter (d : Duration) (n : nat) :
  0 <= d -> Z.of_nat n * d <= Int64.max_signed ->
  calculateJitter (repeat d n) = 0.
Proof.
  intros Hd Hmax.
  destruct (Z.ltb_spec (len (repeat d n)) 2) as [Hshort|Hlong].
  - now apply calculateJitter_short.
  - assert (Hn : (2 <= n)%nat).
    { unfold len in Hlong. rewrite repeat_length in Hlong. lia. }
    assert (Hmean : Spec.mean (repeat d n) = d).
    { unfold Spec.mean, len. rewrite total_repeat, repeat_length.
      rewrite Z.mul_comm. apply Z.quot_mul. lia. }
    rewrite calculateJitter_no_overflow.
    + replace (len (repeat d n) <? 2) with false
        by (symmetry; apply Z.ltb_ge; exact Hlong).
      unfold Spec.popVariance. rewrite Hmean, map_repeat, total_repeat.
      rewrite Z.sub_diag, Z.mul_0_r, Z.quot_0_l; [reflexivity|].
      unfold len. rewrite repeat_length. lia.
    + apply Forall_forall. intros x Hx. apply repeat_spec in Hx. lia.
    + rewrite total_repeat. exact Hmax.
    + rewrite Hmean, map_repeat, total_repeat, Z.sub_diag, Z.mul_0_r.
      vm_compute. discriminate.
Qed.

Lemma steady_requests_no_jitter_witness :
  0 <= 250 * Millisecond
  /\ Z.of_nat 10 * (250 * Millisecond) <= Int64.max_signed
  /\ calculateJitter (repeat (250 * Millisecond) 10) = 0.
Proof.
  split; [vm_compute; discriminate|]. split; [vm_compute; discriminate|].
  apply (steady_requests_no_jitter (250 * Millisecond) 10);
    vm_compute; discriminate.
Defined.

End SteadyRing.

(** ** Labels *)

Section LabelProperties.

(** The label is one of six, and it is "Unknown" exactly when the bitrate or
    the download speed is zero. *)
Theorem label_Unknown_without_data (s : StreamStats) :
  In (assessNetworkQuality s)
    ["Unknown"; "Excellent"; "Good"; "Fair"; "Poor"; "Very Poor"]%string
  /\ String.eqb (assessNetworkQuality s) "Unknown"
     = (Bitrate s =? 0) || (DownloadSpeed s =? 0)%float.
Proof.
  unfold assessNetworkQuality.
  destruct ((Bitrate s =? 0) || (DownloadSpeed s =? 0)%float).
  - split; [now left|reflexivity].
  - unfold labelOfScore.
    repeat match goal with |- context [if ?c then _ else _] => destruct c end;
      (split; [cbn; tauto|reflexivity]).
Qed.

End LabelProperties.

(** ** YouTube addresses *)

Section YouTubeProperties.

Import YouTube.

Lemma fold_case_cons c p :
  (nat_of_ascii (lower c) =? 197)%nat = false ->
  fold_case (String c p) = String (lower c) (fold_case p).
Proof.
  intros H. cbn [fold_case]. destruct p as [|c2 p2]; [reflexivity|].
  destruct (nat_of_ascii c =? 197)%nat eqn:E; [|reflexivity].
  apply Nat.eqb_eq in E.
  assert (c = ascii_of_nat 197) by (rewrite <- E; now rewrite ascii_nat_embedding).
  subst c. discriminate H.
Qed.

Lemma strip_fold pat : forall s r,
  plain pat = true ->
  strip pat s = Some r ->
  exists pre, s = (pre ++ r)%string /\ fold_case pre = pat.
Proof.
  induction pat as [|pc pat IH]; intros s r Hp H.
  - cbn in H. injection H as <-. exists ""%string. split; reflexivity.
  - cbn [plain] in Hp. apply andb_prop in Hp as [Hpc Hp].
    apply negb_true_iff in Hpc.
    cbn [strip] in H. destruct s as [|c rest]; [discriminate H|].
    cbn [strip_char] in H.
    destruct (Ascii.eqb (lower c) pc) eqn:El.
    + apply Ascii.eqb_eq in El. subst pc.
      destruct (IH rest r Hp H) as (pre & -> & Hf).
      exists (String c pre). split; [reflexivity|].
      rewrite fold_case_cons by exact Hpc. now rewrite Hf.
    + destruct (Ascii.eqb pc "s") eqn:Es; [|discriminate H].
      apply Ascii.eqb_eq in Es. subst pc.
      destruct rest as [|c2 rest2]; [discriminate H|].
      destruct ((nat_of_ascii c =? 197)%nat && (nat_of_ascii c2 =? 191)%nat)
        eqn:E; [|discriminate H].
      destruct (IH rest2 r Hp H) as (pre & -> & Hf).
      exists (String c (String c2 pre)). split; [reflexivity|].
      cbn [fold_case]. rewrite E. now rewrite Hf.
Qed.

Lemma fold_strip : forall pre r,
  strip (fold_case pre) (pre ++ r) = Some r.
Proof.
  assert (H : forall n pre, (String.length pre <= n)%nat ->
            forall r, strip (fold_case pre) (pre ++ r) = Some r).
  { induction n as [|n IH]; intros pre Hn r.
    - destruct pre; [reflexivity|cbn in Hn; lia].
    - destruct pre as [|c pre1]; [reflexivity|].
      cbn [String.length] in Hn.
      cbn [fold_case]. destruct pre1 as [|c2 pre2].
      + cbn. now rewrite Ascii.eqb_refl.
      + destruct ((nat_of_ascii c =? 197)%nat && (nat_of_ascii c2 =? 191)%nat)
          eqn:E.
        * cbn [strip append strip_char].
          apply andb_prop in E as [E1 E2].
          apply Nat.eqb_eq in E1. 
          assert (Hc : c = ascii_of_nat 197)
            by (rewrite <- E1; now rewrite ascii_nat_embedding).
          subst c. cbn [lower]. 
          change (Ascii.eqb (lower (ascii_of_nat 197)) "s") with false.
          cbn [Ascii.eqb Bool.eqb andb]. 
          change (nat_of_ascii (ascii_of_nat 197) =? 197)%nat with true.
          rewrite E2. cbn [andb].
          apply IH. cbn [String.length] in Hn. lia.
        * cbn [strip append strip_char]. rewrite Ascii.eqb_refl.
          apply (IH (String c2 pre2)). lia. }
  intros pre r. now apply (H (String.length pre)).
Qed.

Lemma strip_app p1 : forall p2 s,
  strip (p1 ++ p2) s
  = match strip p1 s with
    | Some r => strip p2 r
    | None => None
    end.
Proof.
  induction p1 as [|c p1 IH]; intros p2 s; [reflexivity|].
  cbn [append strip]. destruct (strip_char c s); [apply IH|reflexivity].
Qed.

Lemma in_opt_list o (r : string) : In r (opt_list o) <-> o = Some r.
Proof.
  destruct o as [x|]; cbn; split; intros H.
  - destruct H as [->|[]]. reflexivity.
  - injection H as ->. now left.
  - destruct H.
  - discriminate H.
Qed.

(** What each optional or alternative part of the pattern leaves. *)
Lemma in_after_scheme u r :
  In r (after_scheme u)
  <-> exists p, In p [""; "http://"; "https://"]%string /\ strip p u = Some r.
Proof.
  unfold after_scheme. cbn [In]. rewrite in_app_iff, !in_opt_list. split.
  - intros [<-|[H|H]].
    + exists ""%string. cbn. auto.
    + exists "http://"%string. cbn [In]. auto.
    + exists "https://"%string. cbn [In]. auto.
  - intros (p & [<-|[<-|[<-|[]]]] & H); auto.
    cbn in H. injection H as ->. auto.
Qed.

Lemma in_after_www u r :
  In r (after_www u)
  <-> exists p, In p [""; "www."]%string /\ strip p u = Some r.
Proof.
  unfold after_www. cbn [In]. rewrite in_opt_list. split.
  - intros [<-|H].
    + exists ""%string. cbn. auto.
    + exists "www."%string. cbn [In]. auto.
  - intros (p & [<-|[<-|[]]] & H); auto.
    cbn in H. injection H as ->. auto.
Qed.

Lemma in_after_host u r :
  In r (after_host u)
  <-> exists p, In p ["youtube.com"; "youtu.be"]%string /\ strip p u = Some r.
Proof.
  unfold after_host. rewrite in_app_iff, !in_opt_list. split.
  - intros [H|H].
    + exists "youtube.com"%string. cbn [In]. auto.
    + exists "youtu.be"%string. cbn [In]. auto.
  - intros (p & [<-|[<-|[]]] & H); auto.
Qed.

Ltac parts_of_prefix :=
  let try_parts scheme www host :=
    solve [exists scheme, www, host; cbn [In]; repeat split; auto 6] in
  first [ try_parts ""%string ""%string "youtube.com"%string
        | try_parts ""%string ""%string "youtu.be"%string
        | try_parts ""%string "www."%string "youtube.com"%string
        | try_parts ""%string "www."%string "youtu.be"%string
        | try_parts "http://"%string ""%string "youtube.com"%string
        | try_parts "http://"%string ""%string "youtu.be"%string
        | try_parts "http://"%string "www."%string "youtube.com"%string
        | try_parts "http://"%string "www."%string "youtu.be"%string
        | try_parts "https://"%string ""%string "youtube.com"%string
        | try_parts "https://"%string ""%string "youtu.be"%string
        | try_parts "https://"%string "www."%string "youtube.com"%string
        | try_parts "https://"%string "www."%string "youtu.be"%string ].

Lemma prefixes_parts p :
  In p prefixes
  <-> exists scheme www host,
        In scheme [""; "http://"; "https://"]%string
        /\ In www [""; "www."]%string
        /\ In host ["youtube.com"; "youtu.be"]%string
        /\ p = (scheme ++ www ++ host ++ "/")%string.
Proof.
  split.
  - unfold prefixes. cbn [In].
    intros H.
    repeat (destruct H as [<-|H]; [parts_of_prefix|]).
    destruct H.
  - intros (scheme & www & host & Hs & Hw & Hh & ->).
    cbn [In] in Hs, Hw, Hh.
    destruct Hs as [<-|[<-|[<-|[]]]], Hw as [<-|[<-|[]]], Hh as [<-|[<-|[]]];
      cbn; tauto.
Qed.

Lemma isYouTubeURL_strip u :
  isYouTubeURL u = true
  <-> exists p r, In p prefixes /\ strip p u = Some r.
Proof.
  unfold isYouTubeURL. rewrite existsb_exists. split.
  - intros (r3 & Hin & Hslash).
    apply in_flat_map in Hin as (r2 & Hin & H3).
    apply in_flat_map in Hin as (r1 & H1 & H2).
    apply in_after_scheme in H1 as (scheme & Hs & H1).
    apply in_after_www in H2 as (www & Hw & H2).
    apply in_after_host in H3 as (host & Hh & H3).
    destruct (strip "/" r3) as [r|] eqn:H4; [|discriminate Hslash].
    exists (scheme ++ www ++ host ++ "/")%string, r. split.
    + apply prefixes_parts. exists scheme, www, host. auto.
    + now rewrite strip_app, H1, strip_app, H2, strip_app, H3.
  - intros (p & r & Hp & H).
    apply prefixes_parts in Hp as (scheme & www & host & Hs & Hw & Hh & ->).
    rewrite strip_app in H.
    destruct (strip scheme u) as [r1|] eqn:H1; [|discriminate H].
    rewrite strip_app in H.
    destruct (strip www r1) as [r2|] eqn:H2; [|discriminate H].
    rewrite strip_app in H.
    destruct (strip host r2) as [r3|] eqn:H3; [|discriminate H].
    exists r3. split; [|now rewrite H].
    apply in_flat_map. exists r2. split.
    + apply in_flat_map. exists r1. split.
      * apply in_after_scheme. eauto.
      * apply in_after_www. eauto.
    + apply in_after_host. eauto.
Qed.

Lemma prefixes_plain p : In p prefixes -> plain p = true.
Proof.
  unfold prefixes. cbn [In]. intros H.
  repeat (destruct H as [<-|H]; [reflexivity|]). destruct H.
Qed.

(** [isYouTubeURL] accepts exactly the strings that begin, letter case
    aside, with youtube.com/ or youtu.be/, after an optional www. and an
    optional http:// or https://: a string is accepted if and only if it
    splits into a beginning that folds to one of the twelve prefixes and a
    rest, which can be anything. *)
Theorem isYouTubeURL_forms (u : string) :
  isYouTubeURL u = true
  <-> exists pre rest,
        u = (pre ++ rest)%string /\ In (fold_case pre) prefixes.
Proof.
  rewrite isYouTubeURL_strip. split.
  - intros (p & r & Hp & H).
    destruct (strip_fold p u r (prefixes_plain p Hp) H) as (pre & -> & Hf).
    exists pre, r. split; [reflexivity|]. now rewrite Hf.
  - intros (pre & rest & -> & Hp).
    exists (fold_case pre), rest. split; [exact Hp|]. apply fold_strip.
Qed.

End YouTubeProperties.

Section ResolveProperties.

(** Some addresses, with anything after the slash. *)
Lemma isYouTubeURL_examples (rest : string) :
  Forall (fun prefix => YouTube.isYouTubeURL (prefix ++ rest) = true)
    ["youtube.com/"; "www.youtu.be/"; "http://www.youtube.com/";
     "HTTPS://WWW.YOUTUBE.COM/"; "Https://YouTu.Be/"]%string
  /\ Forall (fun prefix => YouTube.isYouTubeURL (prefix ++ rest) = false)
       ["https://m.youtube.com/"; "https://music.youtube.com/";
        "ftp://youtube.com/"; "https://youtube.org/";
        "https://www.www.youtube.com/"; " https://youtube.com/";
        "https://stream.nightride.fm/"]%string
  /\ YouTube.isYouTubeURL "https://www.youtube.com" = false.
Proof.
  split; [|split]; repeat constructor.
Qed.

Variable trimSpace : string -> string.
Variable exec_run : list string -> RunResult.

(** An address that is not a YouTube address is played as it is: yt-dlp is
    not consulted, and when the player starts, the address is the last
    argument of ffplay, after the volume filter. *)
Theorem direct_url_played_as_given ytdlp url now (sys : System) :
  YouTube.isYouTubeURL url = false -> hasProcess (player sys) = false ->
  resolvePlayableURL trimSpace exec_run ytdlp url = inr url
  /\ fst (StartURL trimSpace exec_run ytdlp url true now sys) = None
  /\ option_map Args
       (cmd (player (snd (StartURL trimSpace exec_run ytdlp url true now sys))))
     = Some ["-nodisp"; "-autoexit"; "-loglevel"; "warning"; "-hide_banner";
             "-af"; volFilter (volumePercent (player sys)); url]%string.
Proof.
  intros Hyt Hfree.
  assert (Hres : resolvePlayableURL trimSpace exec_run ytdlp url = inr url).
  { unfold resolvePlayableURL. now rewrite Hyt. }
  split; [exact Hres|].
  unfold StartURL, Start. rewrite Hfree, Hres. cbn. split; reflexivity.
Qed.

(** When yt-dlp fails, or prints nothing but white space, for a YouTube
    address, [Start] returns the error and starts nothing: no analysis
    session, no process, no change at all. *)
Theorem failed_resolution_starts_nothing ytdlp url spawn_ok now (sys : System) :
  YouTube.isYouTubeURL url = true ->
  match exec_run [ytdlp; "-g"; "-f"; "bestaudio/best"; url]%string with
  | RunFailed _ => True
  | RunOutput stdout _ => trimSpace stdout = ""%string
  end ->
  hasProcess (player sys) = false ->
  StartURL trimSpace exec_run ytdlp url spawn_ok now sys = (Some ErrResolve, sys).
Proof.
  intros Hyt Hrun Hfree.
  unfold StartURL, Start, resolvePlayableURL. rewrite Hfree, Hyt. cbn [negb].
  destruct (exec_run _) as [err|out err]; [reflexivity|].
  rewrite Hrun. reflexivity.
Qed.

End ResolveProperties.

Lemma direct_url_played_as_given_witness :
  YouTube.isYouTubeURL "https://stream.nightride.fm/chillsynth.ogg" = false
  /\ hasProcess (player initial) = false
  /\ fst (StartURL (fun s => s) (fun _ => RunFailed "")
            "yt-dlp" "https://stream.nightride.fm/chillsynth.ogg" true 1000
            initial) = None.
Proof.
  split; [reflexivity|]. split; [reflexivity|].
  apply (direct_url_played_as_given (fun s => s) (fun _ => RunFailed "")
           "yt-dlp" "https://stream.nightride.fm/chillsynth.ogg" 1000 initial);
    reflexivity.
Defined.

Lemma failed_resolution_starts_nothing_witness :
  YouTube.isYouTubeURL "https://www.youtube.com/watch?v=jfKfPfyJRdk" = true
  /\ hasProcess (player initial) = false
  /\ StartURL (fun s => s) (fun _ => RunFailed "no network")
       "yt-dlp" "https://www.youtube.com/watch?v=jfKfPfyJRdk" true 1000 initial
     = (Some ErrResolve, initial).
Proof.
  split; [reflexivity|]. split; [reflexivity|].
  apply (failed_resolution_starts_nothing (fun s => s)
           (fun _ => RunFailed "no network") "yt-dlp"
           "https://www.youtube.com/watch?v=jfKfPfyJRdk" true 1000 initial);
    [reflexivity|exact I|reflexivity].
Defined.

(** ** The command loop *)

Section InteractiveProperties.

Variable trimSpace : string -> string.
Variable exec_run : list string -> RunResult.
Variable sscan_int : string -> option Z.
Variable ytdlpBinary : string.

Lemma Start_settings resolved spawn_ok now sys :
  currentStation (player (snd (Start resolved spawn_ok now sys)))
  = currentStation (player sys)
  /\ volumePercent (player (snd (Start resolved spawn_ok now sys)))
     = volumePercent (player sys).
Proof.
  unfold Start. destruct (hasProcess (player sys)); [auto|].
  destruct resolved; [|auto]. cbn [StartAnalysis].
  destruct spawn_ok; cbn; auto.
Qed.

Lemma StartURL_settings url spawn_ok now sys :
  currentStation
    (player (snd (StartURL trimSpace exec_run ytdlpBinary url spawn_ok now sys)))
  = currentStation (player sys)
  /\ volumePercent
       (player (snd (StartURL trimSpace exec_run ytdlpBinary url spawn_ok now sys)))
     = volumePercent (player sys).
Proof.
  unfold StartURL. destruct (hasProcess (player sys)); [auto|].
  apply Start_settings.
Qed.

Lemma Stop_settings signal_ok exited sys :
  currentStation (player (snd (Stop signal_ok exited sys)))
  = currentStation (player sys)
  /\ volumePercent (player (snd (Stop signal_ok exited sys)))
     = volumePercent (player sys).
Proof.
  unfold Stop.
  destruct (cmd (player sys)) as [[args [pid|]]|];
    [destruct signal_ok; [destruct exited|]| |]; cbn; auto.
Qed.

Lemma RestartURL_settings w url sys :
  currentStation
    (player (snd (RestartURL trimSpace exec_run ytdlpBinary w url sys)))
  = currentStation (player sys)
  /\ volumePercent
       (player (snd (RestartURL trimSpace exec_run ytdlpBinary w url sys)))
     = volumePercent (player sys).
Proof.
  unfold RestartURL.
  destruct (StartURL_settings url (w_spawn_ok w) (w_now w)
              (snd (Stop (w_signal_ok w) (w_exited w) sys))) as [-> ->].
  apply Stop_settings.
Qed.

Lemma background_settings sys ev :
  currentStation (player (background sys ev)) = currentStation (player sys)
  /\ volumePercent (player (background sys ev)) = volumePercent (player sys).
Proof.
  unfold background.
  destruct ev as [resolved spawn_ok now|signal_ok exited|pid|pid]; cbn [step].
  - apply Start_settings.
  - apply Stop_settings.
  - destruct (_ && _); cbn; auto.
  - destruct (alive sys pid); cbn; auto.
Qed.

Lemma station_at_in_range stations i :
  0 <= i < count stations -> exists st, station_at stations i = Some st.
Proof.
  unfold count, station_at. intros H.
  replace (i <? 0) with false by (symmetry; apply Z.ltb_ge; lia).
  destruct (nth_error stations (Z.to_nat i)) as [st|] eqn:E; [eauto|].
  apply nth_error_None in E. lia.
Qed.

Lemma settings_ok_eq n sys sys' :
  currentStation (player sys') = currentStation (player sys)
  /\ volumePercent (player sys') = volumePercent (player sys) ->
  settings_ok n sys -> settings_ok n sys'.
Proof. unfold settings_ok. intros [-> ->]. auto. Qed.

Lemma command_settings stations w input vline sys :
  settings_ok (count stations) sys ->
  exists l,
    command trimSpace exec_run sscan_int ytdlpBinary stations w input vline sys
    = Returned l
    /\ settings_ok (count stations)
         match l with Continue sys' => sys' | Return sys' => sys' end.
Proof.
  intros Hok. unfold command.
  destruct (String.eqb input "q").
  { eexists; split; [reflexivity|].
    eapply settings_ok_eq; [apply Stop_settings|exact Hok]. }
  destruct (String.eqb input "h"); [eauto|].
  destruct (String.eqb input "s").
  { eexists; split; [reflexivity|].
    eapply settings_ok_eq; [apply Stop_settings|exact Hok]. }
  destruct (String.eqb input "v").
  { set (v := match sscan_int (trimSpace vline) with
              | Some n => n | None => 0 end).
    assert (Hok' : settings_ok (count stations)
                     (with_player (SetVolume v) sys)).
    { destruct Hok as [Hs _]. split; [exact Hs|].
      apply (SetVolume_range v (player sys)). }
    destruct (negb (isStopped (player (with_player (SetVolume v) sys))));
      [|eauto].
    destruct (station_at_in_range stations
                (currentStation (player (with_player (SetVolume v) sys))))
      as [st ->]; [apply Hok'|].
    eexists; split; [reflexivity|].
    eapply settings_ok_eq; [apply RestartURL_settings|exact Hok']. }
  destruct (String.eqb input "l"); [eauto|].
  destruct (String.eqb input "viz"); [eexists; split; [reflexivity|exact Hok]|].
  destruct (String.eqb input "stats"); [eexists; split; [reflexivity|exact Hok]|].
  destruct (String.eqb input "show"); [eauto|].
  destruct (existsb (String.eqb input) ["1"; "2"; "3"; "4"; "5"]%string) eqn:Ek;
    [|eauto].
  destruct input as [|c input']; [discriminate Ek|]. cbn [digit_index].
  set (idx := (Z.of_nat (nat_of_ascii c) - 49) mod 256).
  destruct ((idx >=? 0) && (idx <? count stations)) eqn:Er; [|eauto].
  apply andb_prop in Er as [E1 E2].
  rewrite Z.geb_leb in E1. apply Z.leb_le in E1. apply Z.ltb_lt in E2.
  assert (Hok' : settings_ok (count stations)
                   (with_player (set_station idx) sys)).
  { destruct Hok as [_ Hv]. split; [cbn; lia|exact Hv]. }
  destruct (station_at_in_range stations
              (currentStation (player (with_player (set_station idx) sys))))
    as [st ->]; [apply Hok'|].
  eexists; split; [reflexivity|].
  eapply settings_ok_eq; [apply RestartURL_settings|exact Hok'].
Qed.

Lemma interactive_loop_settings stations hs : forall sys,
  settings_ok (count stations) sys ->
  exists sys',
    interactive_loop trimSpace exec_run sscan_int ytdlpBinary stations hs sys
    = Returned sys'
    /\ settings_ok (count stations) sys'.
Proof.
  induction hs as [|h hs IH]; intros sys Hok; cbn [interactive_loop];
    [eauto|].
  destruct h as [w line vline|pid|pid|signal_ok exited].
  - destruct (command_settings stations w (trimSpace line) vline sys Hok)
      as ([sys1|sys1] & -> & Hok1); [apply IH; exact Hok1|eauto].
  - apply IH. eapply settings_ok_eq; [apply background_settings|exact Hok].
  - apply IH. eapply settings_ok_eq; [apply background_settings|exact Hok].
  - apply IH. eapply settings_ok_eq; [apply background_settings|exact Hok].
Qed.

(** Whatever the flags, whatever is typed and whatever happens meanwhile,
    the interactive program never indexes the station list out of range:
    it returns, and the station index stays within the five stations and
    the volume within [0,100]. *)
Theorem interactive_session_settings
    (flagStation flagVolume : Z) (w : World) (hs : list Happening) :
  exists sys,
    main_interactive trimSpace exec_run sscan_int ytdlpBinary flagStation
      flagVolume w hs = Returned sys
    /\ 0 <= currentStation (player sys) < 5
    /\ 0 <= volumePercent (player sys) <= 100.
Proof.
  unfold main_interactive. cbn [NewPlayer NewStreamAnalyzer withCancel].
  set (p := SetVolume flagVolume _).
  set (idx := if _ || _ then 0 else Int64.sub flagStation 1).
  assert (Hidx : 0 <= idx < 5).
  { subst idx. change (count defaultStations) with 5.
    destruct (Int64.sub flagStation 1 <? 0) eqn:E1; cbn [orb]; [lia|].
    destruct (Int64.sub flagStation 1 >=? 5) eqn:E2; [lia|].
    apply Z.ltb_ge in E1. rewrite Z.geb_leb in E2. apply Z.leb_gt in E2. lia. }
  unfold interactiveMode. change (count defaultStations) with 5.
  replace ((idx <? 0) || (idx >=? 5)) with false.
  2:{ symmetry. apply orb_false_intro; [apply Z.ltb_ge; lia|].
      rewrite Z.geb_leb. apply Z.leb_gt. lia. }
  set (sys0 := with_player (set_station idx) _).
  assert (Hok0 : settings_ok (count defaultStations) sys0).
  { split; [exact Hidx|]. apply (SetVolume_range flagVolume). }
  destruct (station_at_in_range defaultStations (currentStation (player sys0)))
    as [st ->]; [apply Hok0|].
  destruct (interactive_loop_settings defaultStations hs
              (snd (StartURL trimSpace exec_run ytdlpBinary (URL st)
                      (w_spawn_ok w) (w_now w) sys0)))
    as (sys' & -> & Hok').
  { eapply settings_ok_eq; [apply StartURL_settings|exact Hok0]. }
  exists sys'. split; [reflexivity|exact Hok'].
Qed.

Lemma Stop_stopped_as signal_ok exited sys0 sys :
  List.length (procs sys) = List.length (procs sys0)
  /\ goroutines (runtime sys) = goroutines (runtime sys0) ->
  stopped_as sys0 (snd (Stop signal_ok exited sys)).
Proof.
  intros [Hp Hg]. unfold Stop, stopped_as.
  destruct (cmd (player sys)) as [[args [pid|]]|];
    [destruct signal_ok; [destruct exited|]| |]; cbn;
    rewrite ?set_nth_length; auto.
Qed.

Lemma background_stopped_as sys0 sys ev :
  (forall resolved spawn_ok now, ev <> EvStart resolved spawn_ok now) ->
  stopped_as sys0 sys -> stopped_as sys0 (background sys ev).
Proof.
  intros Hev (Hs & Hp & Hg). unfold background.
  destruct ev as [resolved spawn_ok now|signal_ok exited|pid|pid]; cbn [step].
  - now elim (Hev resolved spawn_ok now).
  - apply Stop_stopped_as. auto.
  - destruct (_ && _); repeat split; cbn; assumption.
  - destruct (alive sys pid); repeat split; cbn; rewrite ?set_nth_length;
      assumption.
Qed.

(** Once stopped, playback starts again only with a station key: whatever
    else is typed ([v] included) and whatever happens meanwhile, no process
    is spawned and no analysis session is started. *)
Theorem stopped_until_station_key stations (hs : list Happening) (sys : System) :
  isStopped (player sys) = true ->
  forallb (fun h => negb (station_key trimSpace h)) hs = true ->
  exists sys',
    interactive_loop trimSpace exec_run sscan_int ytdlpBinary stations hs sys
    = Returned sys'
    /\ isStopped (player sys') = true
    /\ List.length (procs sys') = List.length (procs sys)
    /\ goroutines (runtime sys') = goroutines (runtime sys).
Proof.
  intros Hstopped Hkeys.
  assert (H : forall cur, stopped_as sys cur ->
            exists sys',
              interactive_loop trimSpace exec_run sscan_int ytdlpBinary
                stations hs cur = Returned sys'
              /\ stopped_as sys sys').
  { induction hs as [|h hs IH]; intros cur Hcur; cbn [interactive_loop];
      [eauto|].
    cbn [forallb] in Hkeys. apply andb_prop in Hkeys as [Hk Hks].
    specialize (IH Hks).
    destruct h as [w line vline|pid|pid|signal_ok exited].
    - cbn [station_key] in Hk. apply negb_true_iff in Hk.
      unfold command. rewrite Hk.
      destruct Hcur as (Hs & Hp & Hg).
      destruct (String.eqb (trimSpace line) "q").
      { eexists; split; [reflexivity|]. apply Stop_stopped_as. auto. }
      destruct (String.eqb (trimSpace line) "h");
        [apply IH; repeat split; assumption|].
      destruct (String.eqb (trimSpace line) "s");
        [apply IH, Stop_stopped_as; auto|].
      destruct (String.eqb (trimSpace line) "v").
      { cbn [with_player player SetVolume isStopped]. rewrite Hs. cbn [negb].
        apply IH. repeat split; assumption. }
      destruct (String.eqb (trimSpace line) "l");
        [apply IH; repeat split; assumption|].
      destruct (String.eqb (trimSpace line) "viz");
        [apply IH; repeat split; assumption|].
      destruct (String.eqb (trimSpace line) "stats");
        [apply IH; repeat split; assumption|].
      destruct (String.eqb (trimSpace line) "show");
        apply IH; repeat split; assumption.
    - apply IH, background_stopped_as; [discriminate|exact Hcur].
    - apply IH, background_stopped_as; [discriminate|exact Hcur].
    - apply IH, background_stopped_as; [discriminate|exact Hcur]. }
  destruct (H sys) as (sys' & Hrun & Hs & Hp & Hg);
    [repeat split; assumption|].
  exists sys'. auto.
Qed.

End InteractiveProperties.

Lemma stopped_until_station_key_witness :
  isStopped (player (snd (Stop true true playing))) = true
  /\ forallb (fun h => negb (station_key (fun s => s) h))
       [Typed (mkWorld true true true 5000) "v" "30"; Reaped 0;
        Typed (mkWorld true true true 6000) "stats" ""] = true
  /\ exists sys',
       interactive_loop (fun s => s) (fun _ => RunFailed "") (fun _ => Some 30)
         "yt-dlp" defaultStations
         [Typed (mkWorld true true true 5000) "v" "30"; Reaped 0;
          Typed (mkWorld true true true 6000) "stats" ""]
         (snd (Stop true true playing)) = Returned sys'
       /\ isStopped (player sys') = true
       /\ List.length (procs sys')
          = List.length (procs (snd (Stop true true playing)))
       /\ goroutines (runtime sys')
          = goroutines (runtime (snd (Stop true true playing))).
Proof.
  split; [reflexivity|]. split; [reflexivity|].
  apply (stopped_until_station_key (fun s => s) (fun _ => RunFailed "")
           (fun _ => Some 30) "yt-dlp" defaultStations
           [Typed (mkWorld true true true 5000) "v" "30"; Reaped 0;
            Typed (mkWorld true true true 6000) "stats" ""]
           (snd (Stop true true playing)));
    reflexivity.
Defined.

(** ** More on the metadata, the alerts and the jitter *)

Section MoreProperties.

Variable sscan_int : string -> option Z.

Lemma firstAudioStream_skips pre a rest :
  forallb (fun s => negb (String.eqb (FFProbe.CodecType s) "audio")) pre = true ->
  String.eqb (FFProbe.CodecType a) "audio" = true ->
  FFProbe.firstAudioStream (pre ++ a :: rest) = Some a.
Proof.
  intros Hpre Ha. induction pre as [|s pre IH]; cbn.
  - now rewrite Ha.
  - cbn in Hpre. apply andb_prop in Hpre as [Hs Hpre].
    apply negb_true_iff in Hs. rewrite Hs. now apply IH.
Qed.

(** Only the first entry of type "audio" is consulted: entries before it
    are skipped and entries after it ignored; its codec name is published,
    and a bit rate or sample rate that is empty or does not scan is
    replaced by 128000 or 44100. *)
Theorem first_audio_entry_decides pre a rest (sa : StreamAnalyzer) :
  forallb (fun s => negb (String.eqb (FFProbe.CodecType s) "audio")) pre = true ->
  String.eqb (FFProbe.CodecType a) "audio" = true ->
  let sa' := extractMetadata sscan_int (FFProbe.Parsed (pre ++ a :: rest)) sa in
  Codec (stats sa') = FFProbe.CodecName a
  /\ Bitrate (stats sa')
     = (if String.eqb (FFProbe.BitRate a) "" then 128000
        else match sscan_int (FFProbe.BitRate a) with
             | Some n => n
             | None => 128000
             end)
  /\ SampleRate (stats sa')
     = (if String.eqb (FFProbe.SampleRate a) "" then 44100
        else match sscan_int (FFProbe.SampleRate a) with
             | Some n => n
             | None => 44100
             end).
Proof.
  intros Hpre Ha sa'. subst sa'. unfold extractMetadata.
  rewrite (firstAudioStream_skips pre a rest Hpre Ha).
  repeat split.
Qed.

Variable fmt_duration : Duration -> string.

Lemma length_if_snoc (b : bool) (l : list string) (x : string) :
  (List.length (if b then l ++ [x] else l) <= S (List.length l))%nat.
Proof. destruct b; rewrite ?length_app; cbn [List.length]; lia. Qed.

Lemma to_int_in_range x : Int64.in_range (F64.to_int x).
Proof.
  unfold F64.to_int, Int64.in_range.
  destruct (is_nan x || is_infinity x); [vm_compute; split; discriminate|].
  destruct ((Int64.min_signed <=? F64.trunc_SF (Prim2SF x))
            && (F64.trunc_SF (Prim2SF x) <=? Int64.max_signed)) eqn:E.
  - apply andb_prop in E as [E1 E2].
    apply Z.leb_le in E1. apply Z.leb_le in E2. lia.
  - vm_compute; split; discriminate.
Qed.

Lemma formatBytes_total bytes :
  Int64.in_range bytes -> exists s, formatBytes bytes = Returned s.
Proof.
  intros Hr. unfold formatBytes.
  destruct (bytes <? unit) eqn:Hb; [eauto|].
  apply Z.ltb_ge in Hb. unfold unit in Hb.
  destruct (formatBytes_unit_spec bytes Hr Hb) as (k & Hk & -> & _).
  destruct (byte_at_KMGTPE k Hk) as [c ->]. eauto.
Qed.

(** [GetQualityAlerts] returns for every snapshot, with at most seven
    alerts: the two calls of [formatBytes] cannot fail, whatever the speeds
    are. *)
Theorem alerts_always_returned (sa : StreamAnalyzer) :
  exists alerts,
    GetQualityAlerts fmt_duration sa = Returned alerts
    /\ (List.length alerts <= 7)%nat.
Proof.
  unfold GetQualityAlerts.
  set (a1 := if gtb _ 5 then _ else _).
  set (a2 := if _ >? 500 * Millisecond then _ else _).
  set (a3 := if (_ <? 70)%float then _ else _).
  set (a4 := if (_ <? 30)%float then _ else _).
  set (a5 := if _ || _ then _ else _).
  set (a6 := if _ >? 5 * Second then _ else _).
  assert (H1 : (List.length a1 <= 1)%nat)
    by (subst a1; apply (length_if_snoc _ [])).
  assert (H2 : (List.length a2 <= 2)%nat)
    by (subst a2; etransitivity; [apply length_if_snoc|lia]).
  assert (H3 : (List.length a3 <= 3)%nat)
    by (subst a3; etransitivity; [apply length_if_snoc|lia]).
  assert (H4 : (List.length a4 <= 4)%nat)
    by (subst a4; etransitivity; [apply length_if_snoc|lia]).
  assert (H5 : (List.length a5 <= 5)%nat)
    by (subst a5; etransitivity; [apply length_if_snoc|lia]).
  assert (H6 : (List.length a6 <= 6)%nat)
    by (subst a6; etransitivity; [apply length_if_snoc|lia]).
  clearbody a6.
  destruct (Bitrate (stats sa) >? 0); [|exists a6; split; [reflexivity|lia]].
  destruct (_ <? _ * 0.8)%float; [|exists a6; split; [reflexivity|lia]].
  destruct (formatBytes_total _ (to_int_in_range (DownloadSpeed (stats sa))))
    as [have ->].
  destruct (formatBytes_total _
              (to_int_in_range (F64.of_int (Bitrate (stats sa)) / 8)%float))
    as [needs ->].
  eexists. split; [reflexivity|].
  rewrite length_app. cbn [List.length]. lia.
Qed.

End MoreProperties.

Lemma first_audio_entry_decides_witness :
  forallb (fun s => negb (String.eqb (FFProbe.CodecType s) "audio"))
    (firstn 1 audio_after_video) = true
  /\ String.eqb (FFProbe.CodecType (nth 1 audio_after_video
                                      (FFProbe.mkStream 0 "" "" "" "" 0 "" "")))
       "audio" = true
  /\ Codec (stats (extractMetadata (fun _ => Some 48000)
                     (FFProbe.Parsed audio_after_video)
                     (fst (NewStreamAnalyzer emptyRuntime))))
     = "opus"%string.
Proof.
  split; [reflexivity|]. split; [reflexivity|].
  apply (first_audio_entry_decides (fun _ => Some 48000)
           (firstn 1 audio_after_video)
           (nth 1 audio_after_video (FFProbe.mkStream 0 "" "" "" "" 0 "" ""))
           (skipn 2 audio_after_video)
           (fst (NewStreamAnalyzer emptyRuntime))); reflexivity.
Defined.

(** ** Jitter when nothing wraps *)

(** With fewer than two recorded durations the jitter is zero; otherwise,
    as long as the sum of the durations and the sum of their squared
    deviations from the mean fit in 64 bits, it is half the population
    variance: the integer variance converted to float64, halved, and
    truncated. *)
Theorem jitter_is_half_variance (rts : list Duration) :
  Forall (fun rt => 0 <= rt) rts ->
  Spec.total rts <= Int64.max_signed ->
  Spec.total (map (fun rt => (rt - Spec.mean rts) * (rt - Spec.mean rts)) rts)
    <= Int64.max_signed ->
  (len rts < 2 -> calculateJitter rts = 0)
  /\ (2 <= len rts ->
      calculateJitter rts
      = F64.to_int (F64.of_int (Spec.popVariance rts) * 0.5)%float).
Proof.
  intros Hall Hsum Hsq.
  rewrite (calculateJitter_no_overflow rts Hall Hsum Hsq).
  split; intros H.
  - apply Z.ltb_lt in H. now rewrite H.
  - apply Z.ltb_ge in H. now rewrite H.
Qed.

Lemma jitter_is_half_variance_witness :
  Forall (fun rt => 0 <= rt) [100 * Millisecond; 300 * Millisecond]
  /\ 2 <= len [100 * Millisecond; 300 * Millisecond]
  /\ calculateJitter [100 * Millisecond; 300 * Millisecond]
     = F64.to_int
         (PrimFloat.mul
            (F64.of_int
               (Spec.popVariance [100 * Millisecond; 300 * Millisecond]))
            0.5%float).
Proof.
  assert (Hall : Forall (fun rt => 0 <= rt)
                   [100 * Millisecond; 300 * Millisecond])
    by (repeat constructor; vm_compute; discriminate).
  split; [exact Hall|]. split; [vm_compute; discriminate|].
  apply (jitter_is_half_variance [100 * Millisecond; 300 * Millisecond] Hall);
    vm_compute; discriminate.
Defined.

(** [%f] is [%.6f]. *)
Lemma fixed_6_sprintf_f x : Sprintf.fixed 6 x = Fmt.sprintf_f x.
Proof.
  unfold Sprintf.fixed, Fmt.sprintf_f, Sprintf.body, Sprintf.padded,
    Fmt.six_digits.
  destruct (Prim2SF x) as [[|]|[|]| |[|] m e]; reflexivity.
Qed.
